(** * Infoblox discovery scheduler: a shallow embedding of the three scripts

    [current-discovery.py], [scheduled-discovery.py] and [scheduler.py] drive a
    remote discovery task through a REST interface.  The scripts are embedded
    as functions in a small monad: every call of the outside world (an HTTP
    request, a clock reading, a sleep, a console read or write, a log record)
    appends an event to the history of the run, and what the outside world
    answers is given by an environment that sees the history so far.

    What the embedding leaves out: the base URL, the credentials and the TLS
    setting of the requests (they are the same in every request and no
    function branches on them), the arguments of the log records (the format
    string is kept), and the decoding of the JSON bodies (a reply carries the
    decoded result list, whose objects hold strings under the keys the
    scripts read).  A write to the console or to the log file is taken to
    succeed.  The command line is given by what [argparse] makes of it: the
    parsed arguments, or the end of the process.

    Four library functions follow tables that the development does not
    reproduce: [str.upper], [str.lower] and [str.strip], which follow the
    Unicode tables of the interpreter, and the markup grammar of rich's
    [print].  They are the parameters [Py.Lib] of the embedding, and every
    property holds whatever they are. *)

From Stdlib Require Import String Ascii List ZArith Lia Bool Arith.
Import ListNotations.
Open Scope string_scope.

(** ** Python strings *)

Module Py.

(** The library functions of Python that the scripts call on strings:
    [upper s] is [s.upper()], [lower s] is [s.lower()], [strip s] is
    [s.strip()], and [markup_ok s] tells whether rich's [print] accepts the
    text [s] rather than raises a [MarkupError]. *)
Class Lib := {
  upper : string -> string;
  lower : string -> string;
  strip : string -> string;
  markup_ok : string -> bool
}.

(** A sample library: the case mappings and the white space of the ASCII
    characters, on which Python agrees with it. *)
Definition upper_char (c : ascii) : ascii :=
  let n := nat_of_ascii c in
  if (97 <=? n)%nat && (n <=? 122)%nat then ascii_of_nat (n - 32) else c.

Definition lower_char (c : ascii) : ascii :=
  let n := nat_of_ascii c in
  if (65 <=? n)%nat && (n <=? 90)%nat then ascii_of_nat (n + 32) else c.

Fixpoint ascii_upper (s : string) : string :=
  match s with
  | EmptyString => EmptyString
  | String c r => String (upper_char c) (ascii_upper r)
  end.

Fixpoint ascii_lower (s : string) : string :=
  match s with
  | EmptyString => EmptyString
  | String c r => String (lower_char c) (ascii_lower r)
  end.

(** The ASCII characters [str.strip] removes: tab, line feed, vertical tab,
    form feed, carriage return, the four separators 28..31 and the space. *)
Definition ascii_isspace (c : ascii) : bool :=
  let n := nat_of_ascii c in
  ((9 <=? n)%nat && (n <=? 13)%nat) || ((28 <=? n)%nat && (n <=? 32)%nat).

Fixpoint ascii_lstrip (s : string) : string :=
  match s with
  | EmptyString => EmptyString
  | String c r => if ascii_isspace c then ascii_lstrip r else s
  end.

Fixpoint rev_string (s : string) (acc : string) : string :=
  match s with
  | EmptyString => acc
  | String c r => rev_string r (String c acc)
  end.

Definition ascii_rstrip (s : string) : string :=
  rev_string (ascii_lstrip (rev_string s "")) "".

Definition ascii_strip (s : string) : string := ascii_rstrip (ascii_lstrip s).

(** The text holds a closing tag. *)
Definition has_closing_tag (s : string) : bool :=
  match String.index 0 "[/" s with
  | Some _ => true
  | None => false
  end.

(** The sample library refuses the markup of a text with a closing tag, which
    rich does when no tag is open. *)
Definition ascii : Lib :=
  {| upper := ascii_upper;
     lower := ascii_lower;
     strip := ascii_strip;
     markup_ok := fun s => negb (has_closing_tag s) |}.

(** A text without an opening bracket holds no markup. *)
Definition has_markup (s : string) : bool :=
  match String.index 0 "[" s with
  | Some _ => true
  | None => false
  end.

(** [s.endswith(suffix)]: the last [len(suffix)] characters of [s] are
    [suffix]. *)
Definition endswith (s suffix : string) : bool :=
  (String.length suffix <=? String.length s)%nat &&
  String.eqb
    (substring (String.length s - String.length suffix) (String.length suffix) s)
    suffix.

(** Truth value of an optional string: [None] and the empty string are
    false. *)
Definition truthy (o : option string) : bool :=
  match o with
  | Some s => negb (String.eqb s "")
  | None => false
  end.

(** [x in (a, b, c)] on strings. *)
Definition str_in (x : string) (l : list string) : bool :=
  existsb (String.eqb x) l.

End Py.

(** ** filter_by_view (the same function in current-discovery.py and
    scheduled-discovery.py) *)

Definition filter_by_view (network_refs : list string) (desired_view : string)
  : list string :=
  let suffix := ("/" ++ desired_view)%string in
  filter (fun ref => Py.endswith ref suffix) network_refs.

(** ** The outside world: requests, events and the environment *)

Open Scope list_scope.

(** A JSON object of a WAPI result list, with the keys the scripts read.  A
    key that is absent is [None]; [network_discovery] is the value found at
    [extattrs / Network_Discovery / value]. *)
Record wapi_object := {
  _ref : option string;
  discovery_task_oid : option string;
  state : option string;
  status : option string;
  network_discovery : option string
}.

(** The body of the full task update. *)
Record payload := {
  mode : string;
  network_view : string;
  networks : list string;
  ping_retries : Z;
  ping_timeout : Z
}.

(** The requests of the scripts:
    - GET discoverytask?_return_as_object=1
    - GET discoverytask?_return_as_object=1&_return_fields%2B=status,state
    - GET network?_return_fields=network,extattrs&...
    - GET network?network=<cidr>&network_view=<view>&_return_as_object=1
    - POST <task_ref>?_function=network_discovery_control, body {"action": ...}
    - PUT <task_ref>, body the payload. *)
Inductive request :=
| GET_discoverytask
| GET_discoverytask_state
| GET_network_extattrs
| GET_network (network_cidr view : string)
| POST_network_discovery_control (task_ref action : string)
| PUT_task (task_ref : string) (body : payload).

Record reply := { status_code : Z; result : list wapi_object }.

Inductive level := INFO | WARNING | ERROR.

(** What a run does to the outside world, in the order it does it.  An HTTP
    event carries the request and what came back: [None] when the request, or
    [raise_for_status] on its response, raised a [RequestException].  A log
    event carries the level and the format string of the record. *)
Inductive event :=
| EHttp (rq : request) (r : option reply)
| ETime (t : Z)
| ESleep (seconds : Z)
| EInput (prompt : string) (line : option string)
| EPrint (msg : string)
| ELog (lvl : level) (fmt : string).

(** The environment answers from the history of the run: the remote system,
    the wall clock and the console.  [clock E h] is what [time.time()] returns
    after the history [h]; times, timeouts and sleep lengths are in one unit
    and taken in [Z], the scripts only subtract and compare them. *)
Record env := {
  http : list event -> request -> option reply;
  clock : list event -> Z;
  stdin : list event -> option string
}.

(** ** The monad of the scripts *)

(** The exceptions of the runs.  [SystemExit] is no [Exception]: the
    [except Exception] clause of the scripts does not catch it. *)
Inductive exn :=
| RequestException
| KeyError (key : string)
| ValueError (msg : string)
| EOFError
| MarkupError
| SystemExit (status : Z).

(** [OutOfFuel] is not a Python outcome: it marks a run of the polling loop
    cut off by the model after its budget of iterations. *)
Inductive outcome (A : Type) :=
| Ret (a : A)
| Raise (e : exn)
| OutOfFuel.
Arguments Ret {A} a.
Arguments Raise {A} e.
Arguments OutOfFuel {A}.

(** A computation reads the environment and the history so far and gives its
    outcome with the events it adds to the history. *)
Definition M (A : Type) : Type := env -> list event -> outcome A * list event.

Definition ret {A} (a : A) : M A := fun _ _ => (Ret a, []).

Definition bind {A B} (m : M A) (k : A -> M B) : M B := fun E h =>
  match m E h with
  | (Ret a, e1) => let (o, e2) := k a E (h ++ e1) in (o, e1 ++ e2)
  | (Raise x, e1) => (Raise x, e1)
  | (OutOfFuel, e1) => (OutOfFuel, e1)
  end.

(** The run of a continuation, after the events [e1] that came before it. *)
Definition prepend {A} (e1 : list event) (r : outcome A * list event)
  : outcome A * list event :=
  (fst r, e1 ++ snd r).

Declare Scope py_scope.
Delimit Scope py_scope with py.
Notation "x <- m ;; k" := (bind m (fun x => k))
  (at level 100, m at next level, right associativity) : py_scope.
Notation "m ;; k" := (bind m (fun _ => k))
  (at level 100, right associativity) : py_scope.
Open Scope py_scope.

Definition raise {A} (x : exn) : M A := fun _ _ => (Raise x, []).

Definition emit (e : event) : M unit := fun _ _ => (Ret tt, [e]).

Definition logging_info (fmt : string) : M unit := emit (ELog INFO fmt).
Definition logging_warning (fmt : string) : M unit := emit (ELog WARNING fmt).
Definition logging_error (fmt : string) : M unit := emit (ELog ERROR fmt).
Definition print (msg : string) : M unit := emit (EPrint msg).

(** The [print] of scheduled-discovery.py, imported from rich; the event
    carries the text given to it.  A text without an opening bracket holds
    no markup, and rich prints it; on another text rich prints, or raises a
    [MarkupError]. *)
Definition rich_print `{Py.Lib} (msg : string) : M unit :=
  if Py.has_markup msg then
    if Py.markup_ok msg then print msg else raise MarkupError
  else print msg.

(** [requests.get/post/put] followed by [raise_for_status]. *)
Definition requests (rq : request) : M reply := fun E h =>
  match http E h rq with
  | Some r => (Ret r, [EHttp rq (Some r)])
  | None => (Raise RequestException, [EHttp rq None])
  end.

(** [try: ... except requests.exceptions.RequestException]: [None] when the
    exception was caught. *)
Definition try_request {A} (m : M A) : M (option A) := fun E h =>
  match m E h with
  | (Ret a, e1) => (Ret (Some a), e1)
  | (Raise RequestException, e1) => (Ret None, e1)
  | (Raise x, e1) => (Raise x, e1)
  | (OutOfFuel, e1) => (OutOfFuel, e1)
  end.

Definition time_time : M Z := fun E h =>
  let t := clock E h in (Ret t, [ETime t]).

(** [time.sleep] refuses a negative length. *)
Definition time_sleep (seconds : Z) : M unit :=
  if (seconds <? 0)%Z then raise (ValueError "sleep length must be non-negative")
  else emit (ESleep seconds).

Definition input (prompt : string) : M string := fun E h =>
  match stdin E h with
  | Some line => (Ret line, [EInput prompt (Some line)])
  | None => (Raise EOFError, [EInput prompt None])
  end.

(** [obj["_ref"]]. *)
Definition getitem_ref (obj : wapi_object) : M string :=
  match _ref obj with
  | Some r => ret r
  | None => raise (KeyError "_ref")
  end.

Definition opt_eqb (o : option string) (s : string) : bool :=
  match o with
  | Some x => String.eqb x s
  | None => false
  end.

(** [state and state.upper() in ("RUNNING", "PAUSED", "END_PENDING")]. *)
Definition is_active `{Py.Lib} (st : option string) : bool :=
  match st with
  | Some s => negb (String.eqb s "") &&
              Py.str_in (Py.upper s) ["RUNNING"; "PAUSED"; "END_PENDING"]
  | None => false
  end.

(** [state and state.upper() not in ("RUNNING", "PAUSED", "END_PENDING")]. *)
Definition is_stopped `{Py.Lib} (st : option string) : bool :=
  match st with
  | Some s => negb (String.eqb s "") &&
              negb (Py.str_in (Py.upper s) ["RUNNING"; "PAUSED"; "END_PENDING"])
  | None => false
  end.

(** The [__main__] block of each script: run [main], then print the closing
    line (a text without markup, that rich's [print] prints as the builtin
    does); an [Exception] is logged and the process exits with status 1; a
    [SystemExit] ends the process with its status. *)
Definition run_script (main : M unit) : M Z := fun E h =>
  match (main ;; print "Script finished successfully.") E h with
  | (Ret _, e1) => (Ret 0%Z, e1)
  | (Raise (SystemExit status), e1) => (Ret status, e1)
  | (Raise _, e1) => (Ret 1%Z, e1 ++ [ELog ERROR "Unhandled exception in main(): %s"])
  | (OutOfFuel, e1) => (OutOfFuel, e1)
  end.

Notation "' pat <- m ;; k" := (bind m (fun x => match x with pat => k end))
  (at level 100, pat pattern, m at next level, right associativity) : py_scope.

(** The string held by an optional value: the scripts format or upper-case
    a state or a reference after testing it for truth; [str(None)] is
    "None". *)
Definition str_of (o : option string) : string :=
  match o with
  | Some s => s
  | None => "None"
  end.

Definition nonempty {A} (l : list A) : bool :=
  match l with
  | [] => false
  | _ :: _ => true
  end.

(** ** current-discovery.py *)

Module CurrentDiscovery.

(** The parsed command line. *)
Record args := { args_network_view : string; args_force : bool }.

(** What [argparse] makes of the command line: the parsed arguments, or the
    end of the process, after the help text or after a usage error. *)
Inductive command_line :=
| Args (a : args)
| Help (text : string)
| Usage_error.

(** [parse_args]: [parser.parse_args()] returns the arguments, or prints the
    help and exits with status 0, or exits with status 2 after a usage error
    (its message goes to the standard error, which the events do not
    record). *)
Definition parse_args (argv : command_line) : M args :=
  match argv with
  | Args a => ret a
  | Help text => print text ;; raise (SystemExit 0)
  | Usage_error => raise (SystemExit 2)
  end.

(** The loop of [get_current_discovery_ref] over the result list. *)
Fixpoint first_current (tasks : list wapi_object) : M (option string) :=
  match tasks with
  | [] => logging_warning "No current discovery task found." ;; ret None
  | task :: rest =>
      if opt_eqb (discovery_task_oid task) "current" then
        r <- getitem_ref task ;;
        logging_info "Found current discovery task ref: %s" ;;
        ret (Some r)
      else first_current rest
  end.

Definition get_current_discovery_ref : M (option string) :=
  r <- try_request (requests GET_discoverytask) ;;
  match r with
  | None => logging_error "Error retrieving discovery tasks: %s" ;; ret None
  | Some data => first_current (result data)
  end.

Definition get_current_discovery_status (task_ref : string)
  : M (option string * option string) :=
  r <- try_request (requests GET_discoverytask_state) ;;
  match r with
  | None =>
      logging_error "Error retrieving discovery task status: %s" ;;
      ret (None, None)
  | Some data =>
      match find (fun task => opt_eqb (_ref task) task_ref) (result data) with
      | Some task => ret (state task, status task)
      | None => ret (None, None)
      end
  end.

(** The loop of [get_discovery_enabled_networks]. *)
Fixpoint collect_enabled (nets : list wapi_object) (found : list string)
  : M (list string) :=
  match nets with
  | [] => ret found
  | net :: rest =>
      if opt_eqb (network_discovery net) "True" then
        r <- getitem_ref net ;; collect_enabled rest (found ++ [r])
      else collect_enabled rest found
  end.

Definition get_discovery_enabled_networks : M (list string) :=
  r <- try_request (requests GET_network_extattrs) ;;
  match r with
  | None => logging_error "Error retrieving network objects: %s" ;; ret []
  | Some data =>
      found <- collect_enabled (result data) [] ;;
      logging_info "Found %d networks with Network_Discovery=True" ;;
      ret found
  end.

Definition get_network_ref (network_cidr view : string) : M (option string) :=
  r <- try_request (requests (GET_network network_cidr view)) ;;
  match r with
  | None => logging_error "Error retrieving network ref for %s: %s" ;; ret None
  | Some data =>
      match result data with
      | first :: _ =>
          logging_info "Found network ref for %s in view '%s': %s" ;;
          ret (_ref first)
      | [] =>
          logging_error "No network object found for network: %s in view: %s" ;;
          ret None
      end
  end.

Definition stop_current_discovery_task (task_ref : string) : M bool :=
  logging_info "Stopping current discovery (END): %s" ;;
  r <- try_request (requests (POST_network_discovery_control task_ref "END")) ;;
  match r with
  | None => logging_error "Error ending current discovery: %s" ;; ret false
  | Some _ =>
      logging_info "Current discovery ended successfully. HTTP response code: %d" ;;
      ret true
  end.

Section Library.
Context `{lib : Py.Lib}.

(** The [while] loop of [wait_for_discovery_to_stop]; [fuel] bounds the
    number of iterations the model follows. *)
Fixpoint wait_loop (fuel : nat) (task_ref : string)
  (start_time timeout interval : Z) : M bool :=
  match fuel with
  | O => fun _ _ => (OutOfFuel, [])
  | S fuel' =>
      now <- time_time ;;
      if (now - start_time <? timeout)%Z then
        ' (st, _) <- get_current_discovery_status task_ref ;;
        if is_stopped st then ret true
        else
          logging_info "Waiting for discovery to stop. Current state: %s" ;;
          time_sleep interval ;;
          wait_loop fuel' task_ref start_time timeout interval
      else ret false
  end.

Definition wait_for_discovery_to_stop (fuel : nat) (task_ref : string)
  (timeout interval : Z) : M bool :=
  start_time <- time_time ;;
  wait_loop fuel task_ref start_time timeout interval.

(** [desired_view] is the module global that [main] sets from the command
    line before any call. *)
Definition update_current_discovery_task (desired_view : string)
  (task_ref : string) (network_refs : list string)
  (mode : string) (ping_retries ping_timeout : Z) : M bool :=
  let body := {| mode := mode;
                 network_view := desired_view;
                 networks := network_refs;
                 ping_retries := ping_retries;
                 ping_timeout := ping_timeout |} in
  logging_info "Updating current discovery '%s' with %d networks in view '%s'." ;;
  r <- try_request
         (r <- requests (PUT_task task_ref body) ;;
          logging_info "Current discovery updated successfully. HTTP code: %d" ;;
          ret true) ;;
  match r with
  | Some b => ret b
  | None =>
      logging_error "Error updating current discovery with new networks: %s" ;;
      ret false
  end.

(** [start_current_discovery_task] from "Now start a new discovery" on. *)
Definition issue_start (task_ref : string) : M bool :=
  logging_info "Starting current discovery: %s" ;;
  r <- try_request (requests (POST_network_discovery_control task_ref "START")) ;;
  match r with
  | None => logging_error "Error starting current discovery: %s" ;; ret false
  | Some _ =>
      logging_info "Current discovery started successfully. HTTP response code: %d" ;;
      time_sleep 5 ;;
      ' (new_state, _) <- get_current_discovery_status task_ref ;;
      if Py.truthy new_state && String.eqb (Py.upper (str_of new_state)) "RUNNING"
      then logging_info "Current discovery is now RUNNING." ;; ret true
      else logging_error "Current discovery failed to start. Final state: %s" ;;
           ret false
  end.

Definition start_current_discovery_task (fuel : nat) (task_ref : string)
  : M bool :=
  ' (st, _) <- get_current_discovery_status task_ref ;;
  if is_active st then
    logging_info "Current discovery is %s; attempting to end it." ;;
    ended <- stop_current_discovery_task task_ref ;;
    if negb ended then
      logging_error "Failed to end the current discovery task." ;; ret false
    else
      stopped <- wait_for_discovery_to_stop fuel task_ref 60 5 ;;
      if negb stopped then
        logging_error "Timed out waiting for discovery to end." ;; ret false
      else issue_start task_ref
  else
    logging_info "Current discovery state is '%s'. Proceeding to start." ;;
    issue_start task_ref.

Definition prompt_overwrite (force : bool) : M bool :=
  if force then ret true
  else
    answer <- input "Current discovery is running or paused. Do you want to stop it and run a new discovery? (y/n): " ;;
    ret (String.eqb (Py.lower (Py.strip answer)) "y").

(** The end of [main]: the final state read and its report. *)
Definition report_final_state (current_ref : string) : M unit :=
  ' (st, _) <- get_current_discovery_status current_ref ;;
  (if Py.truthy st then
     logging_info "Final Current Discovery State: %s" ;;
     print ("Final Current Discovery State: " ++ str_of st)
   else
     logging_warning "Could not retrieve final status for the current discovery task." ;;
     print "Could not retrieve final discovery status. Check discovery.log for details.") ;;
  logging_info "CURRENT_DISCOVERY_SCRIPT: Script finished successfully.".

(** [main] from the task update on: the reconfigure-and-start cycle, then
    the final state read. *)
Definition main_cycle (fuel : nat) (desired_view current_ref : string)
  (networks : list string) : M unit :=
  success <- update_current_discovery_task desired_view current_ref networks
               "ICMP" 5 1500 ;;
  if negb success then
    print "An error occurred while updating the current discovery. Please check discovery.log."
  else
    started <- start_current_discovery_task fuel current_ref ;;
    (if started then print "Current discovery started successfully."
     else print "An error occurred while starting current discovery. Please check discovery.log.") ;;
    report_final_state current_ref.

(** [main] from the retrieval of the discovery-enabled networks on. *)
Definition main_update (fuel : nat) (desired_view current_ref : string)
  : M unit :=
  discovered <- get_discovery_enabled_networks ;;
  networks <-
    (if nonempty discovered then
       let filtered := filter_by_view discovered desired_view in
       if nonempty filtered then
         logging_info "After filtering by view '%s', %d networks remain out of %d discovered." ;;
         ret filtered
       else
         logging_info "Discovered %d networks, but none match view '%s'." ;;
         ret []
     else
       logging_info "No networks found with Network_Discovery=True." ;;
       ret []) ;;
  if negb (nonempty networks) then
    print ("No networks found matching view '" ++ desired_view ++ "'. Update skipped.")
  else main_cycle fuel desired_view current_ref networks.

Definition main (fuel : nat) (argv : command_line) : M unit :=
  logging_info "CURRENT_DISCOVERY_SCRIPT: Script started." ;;
  a <- parse_args argv ;;
  let desired_view := args_network_view a in
  let force_overwrite := args_force a in
  current_ref <- get_current_discovery_ref ;;
  if negb (Py.truthy current_ref) then
    print "Could not find 'current' discovery reference. Check discovery.log for details."
  else
    let current_ref := str_of current_ref in
    ' (st, _) <- get_current_discovery_status current_ref ;;
    if Py.truthy st then
      logging_info "Current discovery state: %s" ;;
      print ("Current discovery state: " ++ str_of st) ;;
      if Py.str_in (Py.upper (str_of st)) ["RUNNING"; "PAUSED"; "END_PENDING"] then
        go <- prompt_overwrite force_overwrite ;;
        if negb go then
          print "Aborting update. Current discovery is still running/paused."
        else main_update fuel desired_view current_ref
      else main_update fuel desired_view current_ref
    else
      logging_warning "Could not retrieve status for current discovery. Proceeding with update..." ;;
      main_update fuel desired_view current_ref.

End Library.

End CurrentDiscovery.

(** Where a command line is expected, parsed arguments stand for the command
    line that [argparse] accepts with them. *)
Coercion CurrentDiscovery.Args : CurrentDiscovery.args >-> CurrentDiscovery.command_line.

(** ** The configuration file

    [config.yaml], read once when a script is loaded.  scheduler.py reads the
    first three keys only. *)
Record config := {
  INFOBLOX_API_URL : string;
  INFOBLOX_API_USERNAME : string;
  INFOBLOX_API_PASSWORD : string;
  SCHEDULED_DISCOVERY_NETWORK_VIEW : string;
  SCHEDULED_DISCOVERY_DEFAULT_NETWORK : string
}.

(** ** scheduled-discovery.py *)

Module ScheduledDiscovery.

Fixpoint first_scheduled (tasks : list wapi_object) : M (option string) :=
  match tasks with
  | [] => logging_warning "No scheduled discovery task found." ;; ret None
  | task :: rest =>
      if opt_eqb (discovery_task_oid task) "scheduled" then
        r <- getitem_ref task ;;
        logging_info "Found scheduled discovery task ref: %s" ;;
        ret (Some r)
      else first_scheduled rest
  end.

Definition get_scheduled_discovery_ref : M (option string) :=
  r <- try_request (requests GET_discoverytask) ;;
  match r with
  | None => logging_error "Error retrieving discovery tasks: %s" ;; ret None
  | Some data => first_scheduled (result data)
  end.

Fixpoint collect_enabled (nets : list wapi_object) (found : list string)
  : M (list string) :=
  match nets with
  | [] => ret found
  | net_obj :: rest =>
      if opt_eqb (network_discovery net_obj) "True" then
        r <- getitem_ref net_obj ;; collect_enabled rest (found ++ [r])
      else collect_enabled rest found
  end.

Definition get_discovery_enabled_networks : M (list string) :=
  r <- try_request (requests GET_network_extattrs) ;;
  match r with
  | None => logging_error "Error retrieving network objects: %s" ;; ret []
  | Some data =>
      found <- collect_enabled (result data) [] ;;
      logging_info "Found %d networks with Network_Discovery=True" ;;
      ret found
  end.

Definition get_network_ref (network_cidr view : string) : M (option string) :=
  r <- try_request (requests (GET_network network_cidr view)) ;;
  match r with
  | None => logging_error "Error retrieving network ref for %s: %s" ;; ret None
  | Some data =>
      match result data with
      | first :: _ =>
          logging_info "Found network ref for %s in view '%s': %s" ;;
          ret (_ref first)
      | [] =>
          logging_error "No network object found for network: %s in view: %s" ;;
          ret None
      end
  end.

Definition update_scheduled_discovery_task (cfg : config)
  (task_ref : string) (network_refs : list string)
  (mode : string) (ping_retries ping_timeout : Z) : M bool :=
  let body := {| mode := mode;
                 network_view := SCHEDULED_DISCOVERY_NETWORK_VIEW cfg;
                 networks := network_refs;
                 ping_retries := ping_retries;
                 ping_timeout := ping_timeout |} in
  logging_info "Overwriting scheduled discovery '%s' with %d networks in view '%s'." ;;
  r <- try_request
         (r <- requests (PUT_task task_ref body) ;;
          logging_info "Scheduled discovery updated successfully. HTTP code: %d" ;;
          ret true) ;;
  match r with
  | Some b => ret b
  | None =>
      logging_error "Error updating scheduled discovery with new networks: %s" ;;
      ret false
  end.

Definition get_discovery_task_status (task_ref : string)
  : M (option string * option string) :=
  r <- try_request (requests GET_discoverytask_state) ;;
  match r with
  | None =>
      logging_error "Error retrieving discovery task status: %s" ;;
      ret (None, None)
  | Some data =>
      match find (fun task => opt_eqb (_ref task) task_ref) (result data) with
      | Some task => ret (state task, status task)
      | None => ret (None, None)
      end
  end.

Section Library.
Context `{lib : Py.Lib}.

(** [main] from step 3, the update, on. *)
Definition main_update (cfg : config) (scheduled_ref : string)
  (networks : list string) : M unit :=
  success <- update_scheduled_discovery_task cfg scheduled_ref networks
               "ICMP" 5 1500 ;;
  if negb success then
    rich_print "An error occurred while updating the scheduled discovery. Please check discovery.log."
  else
    ' (st, _) <- get_discovery_task_status scheduled_ref ;;
    if Py.truthy st then
      logging_info "Scheduled Discovery State: %s" ;;
      rich_print ("Scheduled Discovery State: " ++ str_of st)
    else
      logging_warning "Could not retrieve state/status for the scheduled task." ;;
      rich_print "Could not retrieve scheduled discovery status. Check discovery.log for details.".

Definition main (cfg : config) : M unit :=
  let view := SCHEDULED_DISCOVERY_NETWORK_VIEW cfg in
  scheduled_ref <- get_scheduled_discovery_ref ;;
  if negb (Py.truthy scheduled_ref) then
    rich_print "Could not find 'scheduled' discovery reference. Check discovery.log for details."
  else
    let scheduled_ref := str_of scheduled_ref in
    discovered <- get_discovery_enabled_networks ;;
    networks <-
      (if nonempty discovered then
         let filtered := filter_by_view discovered view in
         if nonempty filtered then
           logging_info "After filtering by view '%s', %d networks remain out of %d discovered." ;;
           ret filtered
         else
           logging_info "Discovered %d networks, but none match view '%s'. Will fallback if configured." ;;
           ret []
       else
         logging_info "No networks found with Network_Discovery=True." ;;
         ret []) ;;
    if negb (nonempty networks) then
      if negb (String.eqb (SCHEDULED_DISCOVERY_DEFAULT_NETWORK cfg) "") then
        fallback_ref <-
          get_network_ref (SCHEDULED_DISCOVERY_DEFAULT_NETWORK cfg) view ;;
        if Py.truthy fallback_ref then
          logging_info "Using fallback network ref '%s' instead." ;;
          main_update cfg scheduled_ref [str_of fallback_ref]
        else
          logging_error "Fallback network '%s' not found in view '%s'." ;;
          rich_print "Fallback network not found; update skipped. Check discovery.log for details."
      else
        logging_info "No networks found and no fallback network specified. Nothing to update." ;;
        rich_print "No networks found; no fallback specified; update skipped."
    else main_update cfg scheduled_ref networks.

End Library.

End ScheduledDiscovery.

(** ** scheduler.py *)

Module Scheduler.

Fixpoint first_scheduled (tasks : list wapi_object) : M (option string) :=
  match tasks with
  | [] => logging_warning "No scheduled discovery task found." ;; ret None
  | task :: rest =>
      if opt_eqb (discovery_task_oid task) "scheduled" then
        r <- getitem_ref task ;;
        logging_info "Found scheduled discovery task ref: %s" ;;
        ret (Some r)
      else first_scheduled rest
  end.

Definition get_scheduled_discovery_ref : M (option string) :=
  r <- try_request (requests GET_discoverytask) ;;
  match r with
  | None => logging_error "Error retrieving discovery tasks: %s" ;; ret None
  | Some data => first_scheduled (result data)
  end.

Fixpoint collect_enabled (nets : list wapi_object) (results : list string)
  : M (list string) :=
  match nets with
  | [] => ret results
  | net_obj :: rest =>
      if opt_eqb (network_discovery net_obj) "True" then
        r <- getitem_ref net_obj ;; collect_enabled rest (results ++ [r])
      else collect_enabled rest results
  end.

Definition get_discovery_enabled_networks : M (list string) :=
  r <- try_request (requests GET_network_extattrs) ;;
  match r with
  | None => logging_error "Error retrieving network objects: %s" ;; ret []
  | Some data =>
      results <- collect_enabled (result data) [] ;;
      logging_info "Found %d networks with Network_Discovery=True" ;;
      ret results
  end.

(** Both ways out of the function return [None]: its value is [unit]. *)
Definition update_scheduled_discovery_task
  (task_ref : string) (network_refs : list string)
  (mode : string) (ping_retries ping_timeout : Z) : M unit :=
  let body := {| mode := mode;
                 network_view := "GLOBAL";
                 networks := network_refs;
                 ping_retries := ping_retries;
                 ping_timeout := ping_timeout |} in
  logging_info "Overwriting scheduled discovery '%s' with %d networks." ;;
  r <- try_request
         (r <- requests (PUT_task task_ref body) ;;
          logging_info "Scheduled discovery updated successfully. HTTP code: %d") ;;
  match r with
  | Some _ => ret tt
  | None =>
      logging_error "Error updating scheduled discovery with new networks: %s" ;;
      ret tt
  end.

(** Defined in the script; its only call, in [main], is commented out. *)
Definition start_scheduled_discovery_task (task_ref : string) : M unit :=
  logging_info "Starting scheduled discovery: %s" ;;
  r <- try_request (requests (POST_network_discovery_control task_ref "START")) ;;
  match r with
  | None => logging_error "Error starting scheduled discovery task: %s" ;; ret tt
  | Some _ =>
      logging_info "Scheduled discovery STARTED successfully. HTTP response code: %d"
  end.

Definition get_discovery_task_status (task_ref : string)
  : M (option string * option string) :=
  r <- try_request (requests GET_discoverytask_state) ;;
  match r with
  | None =>
      logging_error "Error retrieving discovery task status: %s" ;;
      ret (None, None)
  | Some data =>
      match find (fun task => opt_eqb (_ref task) task_ref) (result data) with
      | Some task => ret (state task, status task)
      | None => ret (None, None)
      end
  end.

Definition main : M unit :=
  scheduled_ref <- get_scheduled_discovery_ref ;;
  if negb (Py.truthy scheduled_ref) then
    print "Could not find 'scheduled' discovery reference. Check discovery.log for details."
  else
    let scheduled_ref := str_of scheduled_ref in
    networks <- get_discovery_enabled_networks ;;
    (if nonempty networks then
       update_scheduled_discovery_task scheduled_ref networks "ICMP" 5 1500
     else
       logging_info "No networks found to update for the scheduled discovery task.") ;;
    ' (st, _) <- get_discovery_task_status scheduled_ref ;;
    if Py.truthy st then logging_info "Scheduled Discovery State: %s"
    else logging_warning "Could not retrieve state/status for the scheduled task.".

End Scheduler.

(** ** Loading and validating the configuration

    The module-level code of the scripts, which runs before [main].  A key of
    [config.yaml] that is absent, or null, is [None]; the values are strings.
    The two library calls of [validate_config] are parameters:
    [urlparse_ok url] is [bool(parsed.scheme and parsed.netloc)] for
    [parsed = urlparse(url)], or [None] when [urlparse] raises [ValueError],
    and [ip_network_ok s] tells whether [ipaddress.ip_network(s, strict=False)]
    returns rather than raises [ValueError]. *)

Record yaml_config := {
  yaml_INFOBLOX_API_URL : option string;
  yaml_INFOBLOX_API_USERNAME : option string;
  yaml_INFOBLOX_API_PASSWORD : option string;
  yaml_SCHEDULED_DISCOVERY_NETWORK_VIEW : option string;
  yaml_SCHEDULED_DISCOVERY_DEFAULT_NETWORK : option string
}.

(** [cfg.get(key, default)]. *)
Definition get_default (o : option string) (default : string) : string :=
  match o with
  | Some s => s
  | None => default
  end.

Module Startup.

Section Libraries.
Context `{lib : Py.Lib}.
Variable urlparse_ok : string -> option bool.
Variable ip_network_ok : string -> bool.

(** [validate_config], the same function in current-discovery.py and
    scheduled-discovery.py. *)
Definition validate_config (cfg : yaml_config) : M bool :=
  let valid := true in
  let api_url := get_default (yaml_INFOBLOX_API_URL cfg) "" in
  valid <-
    (if String.eqb api_url "" then
       logging_error "Config error: INFOBLOX_API_URL is empty or missing." ;;
       ret false
     else
       match urlparse_ok api_url with
       | None => raise (ValueError "urlparse")
       | Some parsed =>
           if negb parsed then
             logging_error "Config error: INFOBLOX_API_URL '%s' is not a valid URL." ;;
             ret false
           else ret valid
       end) ;;
  let username := get_default (yaml_INFOBLOX_API_USERNAME cfg) "" in
  let password := get_default (yaml_INFOBLOX_API_PASSWORD cfg) "" in
  valid <-
    (if String.eqb username "" then
       logging_error "Config error: INFOBLOX_API_USERNAME is empty or missing." ;;
       ret false
     else ret valid) ;;
  valid <-
    (if String.eqb password "" then
       logging_error "Config error: INFOBLOX_API_PASSWORD is empty or missing." ;;
       ret false
     else ret valid) ;;
  let view := get_default (yaml_SCHEDULED_DISCOVERY_NETWORK_VIEW cfg) "" in
  valid <-
    (if String.eqb view "" then
       logging_error "Config error: SCHEDULED_DISCOVERY_NETWORK_VIEW is empty or missing." ;;
       ret false
     else ret valid) ;;
  let fallback := get_default (yaml_SCHEDULED_DISCOVERY_DEFAULT_NETWORK cfg) "" in
  valid <-
    (if negb (String.eqb fallback "") then
       if ip_network_ok fallback then ret valid
       else
         logging_error "Config error: SCHEDULED_DISCOVERY_DEFAULT_NETWORK '%s' is not a valid IP network." ;;
         ret false
     else ret valid) ;;
  ret valid.

(** The module globals the scripts set after a successful validation. *)
Definition globals (cfg : yaml_config) : config :=
  {| INFOBLOX_API_URL := get_default (yaml_INFOBLOX_API_URL cfg) "";
     INFOBLOX_API_USERNAME := get_default (yaml_INFOBLOX_API_USERNAME cfg) "";
     INFOBLOX_API_PASSWORD := get_default (yaml_INFOBLOX_API_PASSWORD cfg) "";
     SCHEDULED_DISCOVERY_NETWORK_VIEW :=
       get_default (yaml_SCHEDULED_DISCOVERY_NETWORK_VIEW cfg) "default";
     SCHEDULED_DISCOVERY_DEFAULT_NETWORK :=
       get_default (yaml_SCHEDULED_DISCOVERY_DEFAULT_NETWORK cfg) "" |}.

(** The part common to current-discovery.py and scheduled-discovery.py:
    [loaded] is [None] when reading [config.yaml] raised; the value is the
    exit status of the process.  The line printed on a rejected
    configuration holds no markup: rich's [print] prints it as the builtin
    does. *)
Definition validated_script (loaded : option yaml_config)
  (main : config -> M unit) : M Z :=
  match loaded with
  | None =>
      logging_error "Could not read the config file '%s'. Error: %s" ;;
      ret 1%Z
  | Some cfg =>
      ok <- validate_config cfg ;;
      if negb ok then
        logging_error "Configuration validation failed. Exiting." ;;
        print "Configuration validation failed. Check discovery.log for details." ;;
        ret 1%Z
      else run_script (main (globals cfg))
  end.

(** current-discovery.py, from its first line to the exit of the process. *)
Definition current_discovery_py (loaded : option yaml_config) (fuel : nat)
  (argv : CurrentDiscovery.command_line) : M Z :=
  validated_script loaded (fun _ => CurrentDiscovery.main fuel argv).

(** scheduled-discovery.py. *)
Definition scheduled_discovery_py (loaded : option yaml_config) : M Z :=
  validated_script loaded ScheduledDiscovery.main.

End Libraries.

(** scheduler.py: it checks the three keys it reads and nothing else. *)
Definition scheduler_py (loaded : option yaml_config) : M Z :=
  match loaded with
  | None =>
      logging_error "Could not read the config file '%s'. Error: %s" ;;
      ret 1%Z
  | Some cfg =>
      if String.eqb (get_default (yaml_INFOBLOX_API_URL cfg) "") ""
         || String.eqb (get_default (yaml_INFOBLOX_API_USERNAME cfg) "") ""
         || String.eqb (get_default (yaml_INFOBLOX_API_PASSWORD cfg) "") ""
      then
        logging_error "Missing required Infoblox configuration in %s" ;;
        ret 1%Z
      else run_script Scheduler.main
  end.

End Startup.

(** * Vocabulary of the properties *)

(** The spec's words for [endswith]: the string is some prefix followed by
    the suffix. *)
Definition ends_with (s suffix : string) : Prop :=
  exists p : string, s = (p ++ suffix)%string.

(** The spec's words for a filter: [out] is exactly the sublist of [l] whose
    elements satisfy [P], in the order of [l]. *)
Inductive selects {A} (P : A -> Prop) : list A -> list A -> Prop :=
| selects_nil : selects P [] []
| selects_keep x l out : P x -> selects P l out -> selects P (x :: l) (x :: out)
| selects_drop x l out : ~ P x -> selects P l out -> selects P (x :: l) out.

(** The state a reply to the state request shows for [task_ref]: [None] when
    the request failed, the task is not in the result or it has no state. *)
Definition observed_state (task_ref : string) (r : option reply)
  : option string :=
  match r with
  | Some data =>
      match find (fun task => opt_eqb (_ref task) task_ref) (result data) with
      | Some task => state task
      | None => None
      end
  | None => None
  end.

(** The events of one state read that was answered by [r]. *)
Definition status_events (r : option reply) : list event :=
  EHttp GET_discoverytask_state r ::
  match r with
  | Some _ => []
  | None => [ELog ERROR "Error retrieving discovery task status: %s"]
  end.

Arguments status_events : simpl never.

Definition waiting_log : event :=
  ELog INFO "Waiting for discovery to stop. Current state: %s".

(** The runs of the loop of [wait_for_discovery_to_stop] after the reading
    [t0] of the start time: the events of the loop and its outcome. *)
Inductive wait_trace `{Py.Lib} (task_ref : string) (t0 timeout interval : Z)
  : list event -> outcome bool -> Prop :=
| wait_converged now r :
    (now - t0 < timeout)%Z ->
    is_stopped (observed_state task_ref r) = true ->
    wait_trace task_ref t0 timeout interval
      (ETime now :: status_events r) (Ret true)
| wait_timed_out now :
    (timeout <= now - t0)%Z ->
    wait_trace task_ref t0 timeout interval [ETime now] (Ret false)
| wait_round now r rest o :
    (now - t0 < timeout)%Z ->
    is_stopped (observed_state task_ref r) = false ->
    (0 <= interval)%Z ->
    wait_trace task_ref t0 timeout interval rest o ->
    wait_trace task_ref t0 timeout interval
      (ETime now :: status_events r ++ waiting_log :: ESleep interval :: rest) o
| wait_sleep_refused now r msg :
    (now - t0 < timeout)%Z ->
    is_stopped (observed_state task_ref r) = false ->
    (interval < 0)%Z ->
    wait_trace task_ref t0 timeout interval
      (ETime now :: status_events r ++ [waiting_log]) (Raise (ValueError msg))
| wait_cut_off :
    wait_trace task_ref t0 timeout interval [] OutOfFuel.


(** The control request that starts, or ends, the task [task_ref]. *)
Definition is_control (task_ref action : string) (e : event) : bool :=
  match e with
  | EHttp (POST_network_discovery_control r a) _ =>
      String.eqb r task_ref && String.eqb a action
  | _ => false
  end.

Definition issued (task_ref action : string) (evs : list event) : bool :=
  existsb (is_control task_ref action) evs.

(** The requests that change the remote task: a control action or a task
    update. *)
Definition is_change (e : event) : bool :=
  match e with
  | EHttp (POST_network_discovery_control _ _) _ => true
  | EHttp (PUT_task _ _) _ => true
  | _ => false
  end.

Definition is_put (e : event) : bool :=
  match e with
  | EHttp (PUT_task _ _) _ => true
  | _ => false
  end.

(** Every task update among the events carries the view [v]. *)
Definition put_view (v : string) (e : event) : Prop :=
  match e with
  | EHttp (PUT_task _ body) _ => network_view body = v
  | _ => True
  end.

(** The simulated remote task: its network list after the events [evs],
    from the list [prior] it had before.  An update that the remote system
    answered with success has replaced the list by the one of its body. *)
Definition remote_networks (task_ref : string) (prior : list string)
  (evs : list event) : list string :=
  fold_left
    (fun nets e =>
       match e with
       | EHttp (PUT_task r body) (Some _) =>
           if String.eqb r task_ref then networks body else nets
       | _ => nets
       end)
    evs prior.

(** [P] holds of every event the computation adds, in every environment and
    after every history. *)
Definition events_all {A} (P : event -> Prop) (m : M A) : Prop :=
  forall E h, Forall P (snd (m E h)).

(** The exception [x] never leaves the computation. *)
Definition never_raises {A} (x : exn) (m : M A) : Prop :=
  forall E h, fst (m E h) <> Raise x.

(** ** A simulated remote system

    The task is RUNNING after a START that was answered and STOPPED after an
    END that was answered; requests in [fails] get no answer.  The clock
    advances ten ticks with every event. *)
Module Sim.

Definition task (ref oid st : string) : wapi_object :=
  {| _ref := Some ref; discovery_task_oid := Some oid; state := Some st;
     status := Some "ok"; network_discovery := None |}.

Definition net (ref : string) : wapi_object :=
  {| _ref := Some ref; discovery_task_oid := None; state := None;
     status := None; network_discovery := Some "True" |}.

Definition task_state (initial : string) (h : list event) : string :=
  fold_left
    (fun st e =>
       match e with
       | EHttp (POST_network_discovery_control _ a) (Some _) =>
           if String.eqb a "START" then "RUNNING"
           else if String.eqb a "END" then "STOPPED" else st
       | _ => st
       end)
    h initial.

Definition remote (initial : string) (nets fallback : list wapi_object)
  (answer : option string) (fails : request -> bool) : env :=
  {| http := fun h rq =>
       if fails rq then None
       else Some {| status_code := 200;
                    result :=
                      match rq with
                      | GET_discoverytask | GET_discoverytask_state =>
                          [task "discoverytask/current" "current" (task_state initial h);
                           task "discoverytask/scheduled" "scheduled" "STOPPED"]
                      | GET_network_extattrs => nets
                      | GET_network _ _ => fallback
                      | _ => []
                      end |};
     clock := fun h => (10 * Z.of_nat (length h))%Z;
     stdin := fun _ => answer |}.

Definition no_failure (rq : request) : bool := false.

Definition state_reads_fail (rq : request) : bool :=
  match rq with
  | GET_discoverytask_state => true
  | _ => false
  end.

Definition puts_fail (rq : request) : bool :=
  match rq with
  | PUT_task _ _ => true
  | _ => false
  end.

Definition nets_abc : list wapi_object :=
  [net "network/A/default"; net "network/B/default"; net "network/C/other"].

(** The task is running and nothing fails. *)
Definition running : env := remote "RUNNING" [] [] None no_failure.

(** The task is running and every state read fails. *)
Definition unreadable : env := remote "RUNNING" [] [] None state_reads_fail.

(** The task is running and the operator answers "n". *)
Definition running_declined : env :=
  remote "RUNNING" nets_abc [] (Some "n") no_failure.

(** The task is stopped and three networks are enabled. *)
Definition stopped : env := remote "STOPPED" nets_abc [] None no_failure.

(** As [stopped], with every task update failing. *)
Definition stopped_put_fails : env := remote "STOPPED" nets_abc [] None puts_fail.

(** No network is enabled; the fallback network resolves. *)
Definition no_networks : env :=
  remote "STOPPED" [] [net "network/F/prod"] None no_failure.

Definition args_default : CurrentDiscovery.args :=
  {| CurrentDiscovery.args_network_view := "default";
     CurrentDiscovery.args_force := false |}.

Definition nets_ab : list string := ["network/A/default"; "network/B/default"].

End Sim.

Definition config_default : config :=
  {| INFOBLOX_API_URL := "https://gridmaster.example";
     INFOBLOX_API_USERNAME := "admin";
     INFOBLOX_API_PASSWORD := "secret";
     SCHEDULED_DISCOVERY_NETWORK_VIEW := "default";
     SCHEDULED_DISCOVERY_DEFAULT_NETWORK := "" |}.

Definition config_fallback : config :=
  {| INFOBLOX_API_URL := "https://gridmaster.example";
     INFOBLOX_API_USERNAME := "admin";
     INFOBLOX_API_PASSWORD := "secret";
     SCHEDULED_DISCOVERY_NETWORK_VIEW := "prod";
     SCHEDULED_DISCOVERY_DEFAULT_NETWORK := "10.0.0.0/24" |}.

(** The body of the update that scheduler.py sends for [Sim.nets_abc]. *)
Definition scheduler_body_abc : payload :=
  {| mode := "ICMP"; network_view := "GLOBAL";
     networks := ["network/A/default"; "network/B/default"; "network/C/other"];
     ping_retries := 5; ping_timeout := 1500 |}.

(** A call site that fails closed: when the request [rq], issued after the
    events [pre] of the function, gets no answer, the function issues it
    once, logs one record at the ERROR level and returns [failure]. *)
Definition fails_closed {A} (f : M A) (pre : list event) (rq : request)
  (failure : A) : Prop :=
  forall E h,
    http E (h ++ pre) rq = None ->
    exists fmt, f E h = (Ret failure, pre ++ [EHttp rq None; ELog ERROR fmt]).

(** The log record of scheduled-discovery.py for an empty selection. *)
Definition empty_selection_log (discovered : list string) : event :=
  if nonempty discovered then
    ELog INFO "Discovered %d networks, but none match view '%s'. Will fallback if configured."
  else ELog INFO "No networks found with Network_Discovery=True.".

Definition skipped_log : event :=
  ELog INFO "No networks found and no fallback network specified. Nothing to update.".
Definition skipped_line : event :=
  EPrint "No networks found; no fallback specified; update skipped.".
Definition finished_line : event := EPrint "Script finished successfully.".

Definition using_fallback_log : event :=
  ELog INFO "Using fallback network ref '%s' instead.".
Definition overwriting_log : event :=
  ELog INFO "Overwriting scheduled discovery '%s' with %d networks in view '%s'.".
Definition nothing_to_update_log : event :=
  ELog INFO "No networks found to update for the scheduled discovery task.".

(** The lines and the prompt of current-discovery.py. *)
Definition prompt_text : string :=
  "Current discovery is running or paused. Do you want to stop it and run a new discovery? (y/n): ".

Definition started_line : event :=
  EPrint "Current discovery started successfully.".
Definition update_failed_line : event :=
  EPrint "An error occurred while updating the current discovery. Please check discovery.log.".
Definition start_failed_line : event :=
  EPrint "An error occurred while starting current discovery. Please check discovery.log.".

(** ** Vocabulary of the further properties *)

(** A task object carries the tag [oid]; a network object is flagged when
    its Network_Discovery attribute is exactly the string "True". *)
Definition tagged (oid : string) (o : wapi_object) : bool :=
  opt_eqb (discovery_task_oid o) oid.

Definition flagged (o : wapi_object) : bool :=
  opt_eqb (network_discovery o) "True".

Definition has_ref (o : wapi_object) : bool :=
  match _ref o with
  | Some _ => true
  | None => false
  end.

(** The references of the flagged objects, in the order of the list. *)
Definition flagged_refs (objs : list wapi_object) : list string :=
  map (fun o => str_of (_ref o)) (filter flagged objs).

(** What the lookup of the task tagged [oid] comes to, as a function of the
    answer [r] to its request: the first tagged task decides. *)
Definition lookup_run (oid found_fmt warning_fmt : string) (r : option reply)
  : outcome (option string) * list event :=
  match r with
  | None =>
      (Ret None,
       [EHttp GET_discoverytask None;
        ELog ERROR "Error retrieving discovery tasks: %s"])
  | Some data =>
      match find (tagged oid) (result data) with
      | None => (Ret None, [EHttp GET_discoverytask r; ELog WARNING warning_fmt])
      | Some task =>
          match _ref task with
          | Some ref =>
              (Ret (Some ref), [EHttp GET_discoverytask r; ELog INFO found_fmt])
          | None => (Raise (KeyError "_ref"), [EHttp GET_discoverytask r])
          end
      end
  end.

(** What the retrieval of the discovery-enabled networks comes to, as a
    function of the answer [r] to its request. *)
Definition enabled_run (r : option reply) : outcome (list string) * list event :=
  match r with
  | None =>
      (Ret [],
       [EHttp GET_network_extattrs None;
        ELog ERROR "Error retrieving network objects: %s"])
  | Some data =>
      if forallb (fun o => negb (flagged o) || has_ref o) (result data) then
        (Ret (flagged_refs (result data)),
         [EHttp GET_network_extattrs r;
          ELog INFO "Found %d networks with Network_Discovery=True"])
      else (Raise (KeyError "_ref"), [EHttp GET_network_extattrs r])
  end.

Definition is_post (e : event) : bool :=
  match e with
  | EHttp (POST_network_discovery_control _ _) _ => true
  | _ => false
  end.

Definition is_input (e : event) : bool :=
  match e with
  | EInput _ _ => true
  | _ => false
  end.

Definition is_http (e : event) : bool :=
  match e with
  | EHttp _ _ => true
  | _ => false
  end.

(** The number of task updates among the events. *)
Definition count_puts (evs : list event) : nat := length (filter is_put evs).

(** A property of the events of every run of a computation. *)
Definition trace_ok {A} (T : list event -> Prop) (m : M A) : Prop :=
  forall E h, T (snd (m E h)).

(** A property of traces that holds of the empty trace and is kept when
    events that change nothing on the remote task come first. *)
Definition read_prefix_closed (T : list event -> Prop) : Prop :=
  T [] /\
  forall pre evs, Forall (fun e => is_change e = false) pre -> T evs -> T (pre ++ evs).

(** At most one task update. *)
Definition one_update (evs : list event) : Prop := count_puts evs <= 1.

(** Every control action comes after a task update that was answered. *)
Definition control_after_update (evs : list event) : Prop :=
  forall pre e post,
    evs = pre ++ e :: post -> is_post e = true ->
    exists task_ref body c, In (EHttp (PUT_task task_ref body) (Some c)) pre.

(** The body of the task update of current-discovery.py and of
    scheduled-discovery.py, and the one of scheduler.py. *)
Definition update_body (view : string) (nets : list string) : payload :=
  {| mode := "ICMP"; network_view := view; networks := nets;
     ping_retries := 5; ping_timeout := 1500 |}.

Definition updating_log : event :=
  ELog INFO "Updating current discovery '%s' with %d networks in view '%s'.".

(** The log record of current-discovery.py after the selection. *)
Definition current_selection_log (discovered : list string) (view : string)
  : event :=
  if nonempty discovered then
    if nonempty (filter_by_view discovered view) then
      ELog INFO "After filtering by view '%s', %d networks remain out of %d discovered."
    else ELog INFO "Discovered %d networks, but none match view '%s'."
  else ELog INFO "No networks found with Network_Discovery=True.".

Definition current_skipped_line (view : string) : event :=
  EPrint ("No networks found matching view '" ++ view ++ "'. Update skipped.").

(** Where the body of a task update comes from.  In current-discovery.py:
    from the answer to the inventory read of the same run, filtered by the
    view. *)
Definition update_from_inventory (view : string) (evs : list event) : Prop :=
  forall task_ref body r,
    In (EHttp (PUT_task task_ref body) r) evs ->
    exists data,
      In (EHttp GET_network_extattrs (Some data)) evs
      /\ body = update_body view
                  (filter_by_view (flagged_refs (result data)) view)
      /\ networks body <> [].

(** In scheduler.py: the flagged networks of every view, under the view
    GLOBAL. *)
Definition update_from_whole_inventory (evs : list event) : Prop :=
  forall task_ref body r,
    In (EHttp (PUT_task task_ref body) r) evs ->
    exists data,
      In (EHttp GET_network_extattrs (Some data)) evs
      /\ body = update_body "GLOBAL" (flagged_refs (result data))
      /\ networks body <> [].

(** In scheduled-discovery.py: from the inventory, filtered by the view, or,
    when that gives nothing, the reference of the first object that the
    lookup of the fallback network returned. *)
Definition update_from_inventory_or_fallback (cfg : config) (evs : list event)
  : Prop :=
  let view := SCHEDULED_DISCOVERY_NETWORK_VIEW cfg in
  let cidr := SCHEDULED_DISCOVERY_DEFAULT_NETWORK cfg in
  forall task_ref body r,
    In (EHttp (PUT_task task_ref body) r) evs ->
    (exists data,
       In (EHttp GET_network_extattrs (Some data)) evs
       /\ body = update_body view
                   (filter_by_view (flagged_refs (result data)) view)
       /\ networks body <> [])
    \/ (exists data first others fallback_ref,
          cidr <> ""
          /\ In (EHttp (GET_network cidr view) (Some data)) evs
          /\ result data = first :: others
          /\ _ref first = Some fallback_ref
          /\ fallback_ref <> ""
          /\ body = update_body view [fallback_ref]).

(** What the lookup of a network by CIDR and view comes to, as a function of
    the answer [r] to its request: the first object of the answer decides. *)
Definition network_ref_run (cidr view : string) (r : option reply)
  : outcome (option string) * list event :=
  match r with
  | None =>
      (Ret None,
       [EHttp (GET_network cidr view) None;
        ELog ERROR "Error retrieving network ref for %s: %s"])
  | Some data =>
      match result data with
      | first :: _ =>
          (Ret (_ref first),
           [EHttp (GET_network cidr view) r;
            ELog INFO "Found network ref for %s in view '%s': %s"])
      | [] =>
          (Ret None,
           [EHttp (GET_network cidr view) r;
            ELog ERROR "No network object found for network: %s in view: %s"])
      end
  end.

(** The log record of scheduled-discovery.py after the selection. *)
Definition scheduled_selection_log (discovered : list string) (view : string)
  : event :=
  if nonempty discovered then
    if nonempty (filter_by_view discovered view) then
      ELog INFO "After filtering by view '%s', %d networks remain out of %d discovered."
    else
      ELog INFO "Discovered %d networks, but none match view '%s'. Will fallback if configured."
  else ELog INFO "No networks found with Network_Discovery=True.".

Definition fallback_not_found_log : event :=
  ELog ERROR "Fallback network '%s' not found in view '%s'.".
Definition fallback_not_found_line : event :=
  EPrint "Fallback network not found; update skipped. Check discovery.log for details.".

(** Step 2 of [main] of scheduled-discovery.py, taken when the selection is
    empty. *)
Definition scheduled_fallback_step `{Py.Lib} (cfg : config)
  (scheduled_ref : string) : M unit :=
  if negb (String.eqb (SCHEDULED_DISCOVERY_DEFAULT_NETWORK cfg) "") then
    fallback_ref <-
      ScheduledDiscovery.get_network_ref (SCHEDULED_DISCOVERY_DEFAULT_NETWORK cfg)
        (SCHEDULED_DISCOVERY_NETWORK_VIEW cfg) ;;
    if Py.truthy fallback_ref then
      logging_info "Using fallback network ref '%s' instead." ;;
      ScheduledDiscovery.main_update cfg scheduled_ref [str_of fallback_ref]
    else
      logging_error "Fallback network '%s' not found in view '%s'." ;;
      rich_print "Fallback network not found; update skipped. Check discovery.log for details."
  else
    logging_info "No networks found and no fallback network specified. Nothing to update." ;;
    rich_print "No networks found; no fallback specified; update skipped.".

(** The task is stopped, the inventory read fails and the fallback network
    resolves. *)
Definition inventory_fails (rq : request) : bool :=
  match rq with
  | GET_network_extattrs => true
  | _ => false
  end.

Definition sim_inventory_down : env :=
  Sim.remote "STOPPED" Sim.nets_abc [Sim.net "network/F/prod"] None inventory_fails.

(** ** The polling loop under a clock that sleeps *)

Definition is_state_poll (e : event) : bool :=
  match e with
  | EHttp GET_discoverytask_state _ => true
  | _ => false
  end.

Definition is_sleep (e : event) : bool :=
  match e with
  | ESleep _ => true
  | _ => false
  end.

Definition count_polls (evs : list event) : nat :=
  length (filter is_state_poll evs).

Definition count_sleeps (evs : list event) : nat :=
  length (filter is_sleep evs).

(** The wall clock never goes back, and a sleep of [interval] takes at least
    [interval]. *)
Definition sleeping_clock (E : env) (interval : Z) : Prop :=
  (forall h e, (clock E h <= clock E (h ++ [e]))%Z)
  /\ (forall h, (clock E h + interval <= clock E (h ++ [ESleep interval]))%Z).

(** ** The scripts and their exit *)

Inductive script : Type :=
| current_discovery (fuel : nat) (argv : CurrentDiscovery.command_line)
| scheduled_discovery (cfg : config)
| scheduler.

(** The [main] function of a script. *)
Definition script_main `{Py.Lib} (s : script) : M unit :=
  match s with
  | current_discovery fuel argv => CurrentDiscovery.main fuel argv
  | scheduled_discovery cfg => ScheduledDiscovery.main cfg
  | scheduler => Scheduler.main
  end.

(** The status with which [argparse] ends a script: current-discovery.py
    is the one that reads a command line. *)
Definition exits_with (s : script) (status : Z) : Prop :=
  match s with
  | current_discovery _ (CurrentDiscovery.Help _) => status = 0%Z
  | current_discovery _ CurrentDiscovery.Usage_error => status = 2%Z
  | _ => False
  end.

(** scheduled-discovery.py is the one that prints with rich. *)
Definition uses_rich (s : script) : bool :=
  match s with
  | scheduled_discovery _ => true
  | _ => false
  end.

(** A task update that was answered is among the events. *)
Definition answered_update (evs : list event) : Prop :=
  exists task_ref body c, In (EHttp (PUT_task task_ref body) (Some c)) evs.

(** What an exception of the script [s] comes from, [evs] being the events
    before it: a missing [_ref] key, the end of the input or the end that
    [argparse] puts to the process, each with no request for a change before
    it; or rich's refusal of a text, in the script that prints with rich,
    after an update that was answered. *)
Definition failure_cause (s : script) (x : exn) (evs : list event) : Prop :=
  match x with
  | KeyError key => key = "_ref" /\ Forall (fun e => is_change e = false) evs
  | EOFError => Forall (fun e => is_change e = false) evs
  | SystemExit status =>
      exits_with s status /\ Forall (fun e => is_change e = false) evs
  | MarkupError => uses_rich s = true /\ answered_update evs
  | RequestException => False
  | ValueError _ => False
  end.

Definition fails_early {A} (s : script) (m : M A) : Prop :=
  forall E h x, fst (m E h) = Raise x -> failure_cause s x (snd (m E h)).

(** ** The configuration *)

Definition is_error_log (e : event) : bool :=
  match e with
  | ELog ERROR _ => true
  | _ => false
  end.

(** The requirements in the words of the docstring of [validate_config]:
    the URL must be a valid URL, the user name, the password and the view
    must be non-empty, and the fallback network, if present, must be a valid
    network.  [config_violations] counts the requirements that a
    configuration does not meet. *)
Definition url_violation (urlparse_ok : string -> option bool)
  (cfg : yaml_config) : nat :=
  let url := get_default (yaml_INFOBLOX_API_URL cfg) "" in
  if String.eqb url "" then 1
  else match urlparse_ok url with
       | Some true => 0
       | _ => 1
       end.

Definition empty_violation (o : option string) : nat :=
  if String.eqb (get_default o "") "" then 1 else 0.

Definition fallback_violation (ip_network_ok : string -> bool)
  (cfg : yaml_config) : nat :=
  let fallback := get_default (yaml_SCHEDULED_DISCOVERY_DEFAULT_NETWORK cfg) "" in
  if String.eqb fallback "" then 0
  else if ip_network_ok fallback then 0 else 1.

Definition config_violations (urlparse_ok : string -> option bool)
  (ip_network_ok : string -> bool) (cfg : yaml_config) : nat :=
  url_violation urlparse_ok cfg
  + empty_violation (yaml_INFOBLOX_API_USERNAME cfg)
  + empty_violation (yaml_INFOBLOX_API_PASSWORD cfg)
  + empty_violation (yaml_SCHEDULED_DISCOVERY_NETWORK_VIEW cfg)
  + fallback_violation ip_network_ok cfg.

(** [urlparse] returns for the URL of the configuration, if there is one. *)
Definition urlparse_returns (urlparse_ok : string -> option bool)
  (cfg : yaml_config) : Prop :=
  get_default (yaml_INFOBLOX_API_URL cfg) "" = ""
  \/ urlparse_ok (get_default (yaml_INFOBLOX_API_URL cfg) "") <> None.

(** The URL, the user name or the password is missing or empty. *)
Definition missing_required (cfg : yaml_config) : bool :=
  String.eqb (get_default (yaml_INFOBLOX_API_URL cfg) "") ""
  || String.eqb (get_default (yaml_INFOBLOX_API_USERNAME cfg) "") ""
  || String.eqb (get_default (yaml_INFOBLOX_API_PASSWORD cfg) "") "".

(** The configuration that was read is not acceptable: the file could not
    be read, or a requirement is not met. *)
Definition rejected (urlparse_ok : string -> option bool)
  (ip_network_ok : string -> bool) (loaded : option yaml_config) : Prop :=
  match loaded with
  | None => True
  | Some cfg => config_violations urlparse_ok ip_network_ok cfg <> 0
  end.

(** A run that stops at startup: the process exits with status 1, or with
    the [ValueError] of [urlparse], and has sent no request and read no
    input. *)
Definition refused_at_startup (run : outcome Z * list event) : Prop :=
  (fst run = Ret 1%Z \/ fst run = Raise (ValueError "urlparse"))
  /\ existsb is_http (snd run) = false
  /\ existsb is_input (snd run) = false.

(** Sample library behaviour and configurations. *)
Definition urlparse_sample (url : string) : option bool :=
  Some (String.prefix "https://" url).

Definition ip_network_sample (s : string) : bool := String.eqb s "10.0.0.0/24".

Definition yaml_two_violations : yaml_config :=
  {| yaml_INFOBLOX_API_URL := Some "gridmaster";
     yaml_INFOBLOX_API_USERNAME := Some "admin";
     yaml_INFOBLOX_API_PASSWORD := Some "secret";
     yaml_SCHEDULED_DISCOVERY_NETWORK_VIEW := None;
     yaml_SCHEDULED_DISCOVERY_DEFAULT_NETWORK := None |}.

Definition yaml_no_password : yaml_config :=
  {| yaml_INFOBLOX_API_URL := Some "https://gridmaster.example";
     yaml_INFOBLOX_API_USERNAME := Some "admin";
     yaml_INFOBLOX_API_PASSWORD := None;
     yaml_SCHEDULED_DISCOVERY_NETWORK_VIEW := Some "default";
     yaml_SCHEDULED_DISCOVERY_DEFAULT_NETWORK := None |}.

(** ** The budget of a run *)

Definition count_requests (evs : list event) : nat :=
  length (filter is_http evs).

(** In the environment [E] the computation ends, whatever came before, with
    at most [p] requests and [q] sleeps. *)
Definition runs_within {A} (E : env) (p q : nat) (m : M A) : Prop :=
  forall h,
    fst (m E h) <> OutOfFuel
    /\ count_requests (snd (m E h)) <= p
    /\ count_sleeps (snd (m E h)) <= q.

(** The task is stopped and the one enabled network is in the view "other";
    no fallback network resolves. *)
Definition sim_other_view : env :=
  Sim.remote "STOPPED" [Sim.net "network/C/other"] [] None Sim.no_failure.

(** The lookup of a network by CIDR and view. *)
Definition is_network_lookup (e : event) : bool :=
  match e with
  | EHttp (GET_network _ _) _ => true
  | _ => false
  end.

(** * Properties *)

(** The properties hold for every library [Py.Lib]. *)
Section Properties.
Context `{lib : Py.Lib}.

(** ** Suffix test and view filter *)

(** The scenario of the specification. *)
Example filter_by_view_scenario :
  filter_by_view ["A/default"; "B/default"; "C/other"] "default"
  = ["A/default"; "B/default"].
Proof. reflexivity. Qed.

Lemma length_app_string (p s : string) :
  String.length (p ++ s) = String.length p + String.length s.
Proof. induction p; simpl; auto. Qed.

Lemma substring_whole (s : string) : substring 0 (String.length s) s = s.
Proof. induction s; simpl; congruence. Qed.

Lemma substring_skip_prefix (p s : string) :
  substring (String.length p) (String.length s) (p ++ s) = s.
Proof. induction p; simpl; auto using substring_whole. Qed.

Lemma substring_split (s : string) :
  forall n, n <= String.length s ->
  s = (substring 0 n s ++ substring n (String.length s - n) s)%string.
Proof.
  induction s as [|c s IH]; intros [|n] Hn; simpl in *; try lia.
  - reflexivity.
  - now rewrite substring_whole.
  - f_equal. apply IH. lia.
Qed.

Lemma endswith_spec (s suffix : string) :
  Py.endswith s suffix = true <-> ends_with s suffix.
Proof.
  unfold Py.endswith, ends_with. split.
  - intros H. apply andb_true_iff in H as [Hlen Heq].
    apply Nat.leb_le in Hlen. apply String.eqb_eq in Heq.
    exists (substring 0 (String.length s - String.length suffix) s).
    pose proof (substring_split s (String.length s - String.length suffix)) as Hs.
    replace (String.length s - (String.length s - String.length suffix))
      with (String.length suffix) in Hs by lia.
    rewrite Heq in Hs. apply Hs. lia.
  - intros [p ->]. rewrite length_app_string. apply andb_true_iff. split.
    + apply Nat.leb_le. lia.
    + replace (String.length p + String.length suffix - String.length suffix)
        with (String.length p) by lia.
      rewrite substring_skip_prefix. apply String.eqb_refl.
Qed.

Lemma selects_filter {A} (P : A -> Prop) (f : A -> bool) :
  (forall x, f x = true <-> P x) ->
  forall l, selects P l (filter f l).
Proof.
  intros Hf l. induction l as [|x l IH]; simpl.
  - constructor.
  - destruct (f x) eqn:Hx.
    + apply selects_keep; [now apply Hf | exact IH].
    + apply selects_drop; [|exact IH].
      intros HP. apply Hf in HP. congruence.
Qed.

Lemma selects_unique {A} (P : A -> Prop) (l out1 out2 : list A) :
  selects P l out1 -> selects P l out2 -> out1 = out2.
Proof.
  intros H1. revert out2.
  induction H1; intros out2 H2; inversion H2; subst;
    try contradiction; try reflexivity; try (f_equal; auto); auto.
Qed.

Lemma filter_idempotent {A} (f : A -> bool) (l : list A) :
  filter f (filter f l) = filter f l.
Proof.
  induction l as [|x l IH]; simpl; auto.
  destruct (f x) eqn:Hx; simpl; rewrite ?Hx, IH; reflexivity.
Qed.

(** C4.  For every list of network references and every view [V],
    [filter_by_view] returns exactly the sublist of the references that end
    with "/" followed by [V], in the input order (it is the only list that
    does), and filtering twice with the same view gives the same list as
    filtering once. *)
Theorem C4_filter_by_view_exact (refs : list string) (V : string) :
  selects (fun r => ends_with r ("/" ++ V)) refs (filter_by_view refs V)
  /\ (forall out, selects (fun r => ends_with r ("/" ++ V)) refs out ->
                  out = filter_by_view refs V)
  /\ filter_by_view (filter_by_view refs V) V = filter_by_view refs V.
Proof.
  assert (Hsel : selects (fun r => ends_with r ("/" ++ V)) refs
                   (filter_by_view refs V)).
  { unfold filter_by_view. apply selects_filter.
    intros x. apply endswith_spec. }
  repeat split.
  - exact Hsel.
  - intros out Hout. eapply selects_unique; eauto.
  - unfold filter_by_view. apply filter_idempotent.
Qed.

(** ** Reading the task state *)

Lemma get_current_discovery_status_run (task_ref : string) (E : env)
  (h : list event) :
  exists msg,
    CurrentDiscovery.get_current_discovery_status task_ref E h
    = (Ret (observed_state task_ref (http E h GET_discoverytask_state), msg),
       status_events (http E h GET_discoverytask_state)).
Proof.
  unfold CurrentDiscovery.get_current_discovery_status, bind, try_request,
    requests, status_events, observed_state.
  destruct (http E h GET_discoverytask_state) as [data|]; simpl.
  - destruct (find _ (result data)); simpl; eauto.
  - eauto.
Qed.

(** ** The polling loop *)

(** One iteration of the loop, as an equation on its run. *)
Lemma wait_loop_step (fuel : nat) (task_ref : string) (t0 timeout interval : Z)
  (E : env) (h : list event) :
  CurrentDiscovery.wait_loop (S fuel) task_ref t0 timeout interval E h =
  let now := clock E h in
  if (now - t0 <? timeout)%Z then
    let r := http E (h ++ [ETime now]) GET_discoverytask_state in
    if is_stopped (observed_state task_ref r) then
      (Ret true, ETime now :: status_events r)
    else if (interval <? 0)%Z then
      (Raise (ValueError "sleep length must be non-negative"),
       ETime now :: status_events r ++ [waiting_log])
    else
      let next := CurrentDiscovery.wait_loop fuel task_ref t0 timeout interval E
                    ((((h ++ [ETime now]) ++ status_events r) ++ [waiting_log])
                       ++ [ESleep interval]) in
      (fst next,
       ETime now :: status_events r ++ waiting_log :: ESleep interval :: snd next)
  else (Ret false, [ETime now]).
Proof.
  cbn [CurrentDiscovery.wait_loop].
  unfold bind, time_time, logging_info, time_sleep, emit, ret, raise.
  cbv zeta.
  destruct (clock E h - t0 <? timeout)%Z; [|reflexivity].
  destruct (get_current_discovery_status_run task_ref E
              (h ++ [ETime (clock E h)])) as [msg ->].
  destruct (is_stopped _).
  - simpl. now rewrite app_nil_r.
  - destruct (interval <? 0)%Z.
    + reflexivity.
    + fold waiting_log.
      destruct (CurrentDiscovery.wait_loop fuel task_ref t0 timeout interval E _).
      reflexivity.
Qed.

Lemma wait_loop_trace (task_ref : string) (t0 timeout interval : Z) (E : env) :
  forall fuel h o evs,
    CurrentDiscovery.wait_loop fuel task_ref t0 timeout interval E h = (o, evs) ->
    wait_trace task_ref t0 timeout interval evs o.
Proof.
  induction fuel as [|fuel IH]; intros h o evs Hrun.
  - simpl in Hrun. injection Hrun as <- <-. constructor.
  - rewrite wait_loop_step in Hrun. cbv zeta in Hrun.
    destruct (clock E h - t0 <? timeout)%Z eqn:Hnow.
    + apply Z.ltb_lt in Hnow.
      destruct (is_stopped _) eqn:Hstop.
      * injection Hrun as <- <-. now constructor.
      * destruct (interval <? 0)%Z eqn:Hi.
        -- apply Z.ltb_lt in Hi. injection Hrun as <- <-.
           now apply wait_sleep_refused.
        -- apply Z.ltb_ge in Hi. injection Hrun as <- <-.
           apply wait_round; auto.
           eapply IH. apply surjective_pairing.
    + apply Z.ltb_ge in Hnow. injection Hrun as <- <-. now constructor.
Qed.

Lemma wait_for_discovery_to_stop_trace (task_ref : string)
  (timeout interval : Z) (fuel : nat) (E : env) (h : list event) :
  exists polls,
    snd (CurrentDiscovery.wait_for_discovery_to_stop fuel task_ref timeout interval E h)
    = ETime (clock E h) :: polls
    /\ wait_trace task_ref (clock E h) timeout interval polls
         (fst (CurrentDiscovery.wait_for_discovery_to_stop fuel task_ref
                 timeout interval E h)).
Proof.
  unfold CurrentDiscovery.wait_for_discovery_to_stop, bind, time_time.
  destruct (CurrentDiscovery.wait_loop fuel task_ref (clock E h) timeout interval
              E (h ++ [ETime (clock E h)])) as [o rest] eqn:Hrun.
  apply wait_loop_trace in Hrun.
  exists rest. destruct o; simpl; auto.
Qed.









(** ** Events and outcomes of composed computations *)

Lemma bind_run {A B} (m : M A) (k : A -> M B) (E : env) (h : list event) :
  bind m k E h =
  match m E h with
  | (Ret a, e1) => prepend e1 (k a E (h ++ e1))
  | (Raise x, e1) => (Raise x, e1)
  | (OutOfFuel, e1) => (OutOfFuel, e1)
  end.
Proof.
  unfold bind, prepend. destruct (m E h) as [[a|x|] e1]; auto.
  destruct (k a E (h ++ e1)); reflexivity.
Qed.

Lemma bind_ret_eq {A B} (m : M A) (k : A -> M B) (E : env) (h : list event)
  (a : A) (e1 : list event) :
  m E h = (Ret a, e1) -> bind m k E h = prepend e1 (k a E (h ++ e1)).
Proof. intros H. now rewrite bind_run, H. Qed.

Lemma bind_raise_eq {A B} (m : M A) (k : A -> M B) (E : env) (h : list event)
  (x : exn) (e1 : list event) :
  m E h = (Raise x, e1) -> bind m k E h = (Raise x, e1).
Proof. intros H. now rewrite bind_run, H. Qed.

Lemma bind_out_eq {A B} (m : M A) (k : A -> M B) (E : env) (h : list event)
  (e1 : list event) :
  m E h = (OutOfFuel, e1) -> bind m k E h = (OutOfFuel, e1).
Proof. intros H. now rewrite bind_run, H. Qed.

Lemma prepend_app {A} (e1 e2 : list event) (r : outcome A * list event) :
  prepend e1 (prepend e2 r) = prepend (e1 ++ e2) r.
Proof. unfold prepend. simpl. now rewrite app_assoc. Qed.

Lemma prepend_pair {A} (e1 e2 : list event) (o : outcome A) :
  prepend e1 (o, e2) = (o, e1 ++ e2).
Proof. reflexivity. Qed.

Section EventsAll.
Context (P : event -> Prop).

Lemma all_ret {A} (a : A) : events_all P (ret a).
Proof. intros E h. constructor. Qed.

Lemma all_raise {A} (x : exn) : events_all P (@raise A x).
Proof. intros E h. constructor. Qed.

Lemma all_bind {A B} (m : M A) (k : A -> M B) :
  events_all P m -> (forall a, events_all P (k a)) -> events_all P (bind m k).
Proof.
  intros Hm Hk E h. rewrite bind_run. specialize (Hm E h).
  destruct (m E h) as [[a|x|] e1]; simpl in *; auto.
  apply Forall_app. split; [exact Hm | apply Hk].
Qed.

Lemma all_bind_ret {A B} (a : A) (k : A -> M B) :
  events_all P (k a) -> events_all P (bind (ret a) k).
Proof.
  intros Hk E h. rewrite bind_run. unfold ret, prepend. cbn [fst snd app].
  apply Hk.
Qed.

Lemma all_emit (e : event) : P e -> events_all P (emit e).
Proof. intros He E h. simpl. auto. Qed.

Lemma all_requests (rq : request) :
  (forall r, P (EHttp rq r)) -> events_all P (requests rq).
Proof.
  intros Hrq E h. unfold requests. destruct (http E h rq); simpl; auto.
Qed.

Lemma all_try_request {A} (m : M A) :
  events_all P m -> events_all P (try_request m).
Proof.
  intros Hm E h. specialize (Hm E h). unfold try_request.
  destruct (m E h) as [[a|[]|] e1]; simpl in *; auto.
Qed.

Lemma all_time_time : (forall t, P (ETime t)) -> events_all P time_time.
Proof. intros Ht E h. simpl. auto. Qed.

Lemma all_time_sleep (d : Z) : P (ESleep d) -> events_all P (time_sleep d).
Proof.
  intros Hd. unfold time_sleep. destruct (d <? 0)%Z.
  - apply all_raise.
  - now apply all_emit.
Qed.

Lemma all_input (prompt : string) :
  (forall line, P (EInput prompt line)) -> events_all P (input prompt).
Proof.
  intros Hin E h. unfold input. destruct (stdin E h); simpl; auto.
Qed.

Lemma all_getitem_ref (obj : wapi_object) : events_all P (getitem_ref obj).
Proof.
  unfold getitem_ref. destruct (_ref obj); [apply all_ret | apply all_raise].
Qed.

Lemma all_rich_print (msg : string) :
  P (EPrint msg) -> events_all P (rich_print msg).
Proof.
  intros Hmsg. unfold rich_print.
  destruct (Py.has_markup msg); [destruct (Py.markup_ok msg)|];
    solve [now apply all_emit | apply all_raise].
Qed.

Lemma all_parse_args (argv : CurrentDiscovery.command_line) :
  (forall text, P (EPrint text)) ->
  events_all P (CurrentDiscovery.parse_args argv).
Proof.
  intros Htext. destruct argv as [a|text|]; cbn [CurrentDiscovery.parse_args].
  - apply all_ret.
  - apply all_bind; [now apply all_emit | intros _; apply all_raise].
  - apply all_raise.
Qed.
End EventsAll.

Section NeverRaises.
Context (x : exn).

Lemma safe_ret {A} (a : A) : never_raises x (ret a).
Proof. intros E h. discriminate. Qed.

Lemma safe_emit (e : event) : never_raises x (emit e).
Proof. intros E h. discriminate. Qed.

Lemma safe_bind {A B} (m : M A) (k : A -> M B) :
  never_raises x m -> (forall a, never_raises x (k a)) ->
  never_raises x (bind m k).
Proof.
  intros Hm Hk E h. rewrite bind_run. specialize (Hm E h).
  destruct (m E h) as [[a|y|] e1]; simpl in *; [apply Hk | congruence | discriminate].
Qed.

Lemma safe_time_time : never_raises x time_time.
Proof. intros E h. discriminate. Qed.
End NeverRaises.

(** Whatever its body does, a [try] with the [except] clause of the scripts
    lets no [RequestException] out. *)
Lemma safe_try_request {A} (m : M A) :
  never_raises RequestException (try_request m).
Proof.
  intros E h. unfold try_request.
  destruct (m E h) as [[a|[]|] e1]; simpl; discriminate.
Qed.

Lemma safe_raise_other {A} (x y : exn) : x <> y -> never_raises x (@raise A y).
Proof. intros Hxy E h. simpl. congruence. Qed.

Lemma safe_getitem_ref (obj : wapi_object) :
  never_raises RequestException (getitem_ref obj).
Proof.
  unfold getitem_ref. destruct (_ref obj).
  - apply safe_ret.
  - apply safe_raise_other. discriminate.
Qed.

Lemma safe_time_sleep (d : Z) : never_raises RequestException (time_sleep d).
Proof.
  unfold time_sleep. destruct (d <? 0)%Z.
  - apply safe_raise_other. discriminate.
  - apply safe_emit.
Qed.

Lemma safe_input (prompt : string) : never_raises RequestException (input prompt).
Proof. intros E h. unfold input. destruct (stdin E h); discriminate. Qed.

Lemma safe_rich_print (msg : string) :
  never_raises RequestException (rich_print msg).
Proof.
  unfold rich_print.
  destruct (Py.has_markup msg); [destruct (Py.markup_ok msg)|];
    solve [apply safe_emit | apply safe_raise_other; discriminate].
Qed.

Lemma safe_parse_args (argv : CurrentDiscovery.command_line) :
  never_raises RequestException (CurrentDiscovery.parse_args argv).
Proof.
  destruct argv as [a|text|]; cbn [CurrentDiscovery.parse_args].
  - apply safe_ret.
  - apply safe_bind; [apply safe_emit|]. intros _.
    apply safe_raise_other. discriminate.
  - apply safe_raise_other. discriminate.
Qed.

(** One step of a proof that goes through a computation along its code. *)
Ltac along_code :=
  match goal with
  | |- events_all _ (bind (CurrentDiscovery.parse_args (CurrentDiscovery.Args _)) _) =>
      apply all_bind_ret
  | |- events_all _ (bind _ _) => apply all_bind; [|intros ?]
  | |- events_all _ (ret _) => apply all_ret
  | |- events_all _ (raise _) => apply all_raise
  | |- events_all _ (try_request _) => apply all_try_request
  | |- events_all _ (getitem_ref _) => apply all_getitem_ref
  | |- events_all _ (logging_info _) => apply all_emit
  | |- events_all _ (logging_warning _) => apply all_emit
  | |- events_all _ (logging_error _) => apply all_emit
  | |- events_all _ (print _) => apply all_emit
  | |- events_all _ (rich_print _) => apply all_rich_print
  | |- events_all _ (CurrentDiscovery.parse_args _) => apply all_parse_args; intros ?
  | |- events_all _ (requests _) => apply all_requests; intros ?
  | |- events_all _ time_time => apply all_time_time; intros ?
  | |- events_all _ (time_sleep _) => apply all_time_sleep
  | |- events_all _ (input _) => apply all_input; intros ?
  | |- never_raises _ (bind _ _) => apply safe_bind; [|intros ?]
  | |- never_raises _ (ret _) => apply safe_ret
  | |- never_raises _ (try_request _) => apply safe_try_request
  | |- never_raises _ (getitem_ref _) => apply safe_getitem_ref
  | |- never_raises _ (logging_info _) => apply safe_emit
  | |- never_raises _ (logging_warning _) => apply safe_emit
  | |- never_raises _ (logging_error _) => apply safe_emit
  | |- never_raises _ (print _) => apply safe_emit
  | |- never_raises _ (rich_print _) => apply safe_rich_print
  | |- never_raises _ (CurrentDiscovery.parse_args _) => apply safe_parse_args
  | |- never_raises _ time_time => apply safe_time_time
  | |- never_raises _ (time_sleep _) => apply safe_time_sleep
  | |- never_raises _ (input _) => apply safe_input
  | |- context [match ?b with _ => _ end] => destruct b
  end.

(** ** Stopping and starting the current task *)

Lemma stop_run (task_ref : string) (E : env) (h : list event) :
  CurrentDiscovery.stop_current_discovery_task task_ref E h =
  let rq := POST_network_discovery_control task_ref "END" in
  let r := http E (h ++ [ELog INFO "Stopping current discovery (END): %s"]) rq in
  match r with
  | Some _ =>
      (Ret true,
       [ELog INFO "Stopping current discovery (END): %s"; EHttp rq r;
        ELog INFO "Current discovery ended successfully. HTTP response code: %d"])
  | None =>
      (Ret false,
       [ELog INFO "Stopping current discovery (END): %s"; EHttp rq None;
        ELog ERROR "Error ending current discovery: %s"])
  end.
Proof.
  unfold CurrentDiscovery.stop_current_discovery_task, bind, try_request,
    requests, logging_info, logging_error, emit, ret.
  cbv zeta. destruct (http E _ _); reflexivity.
Qed.

(** The first two events of [issue_start] are its log record and the START
    request. *)
Lemma issue_start_head (task_ref : string) (E : env) (h : list event) :
  exists tail,
    snd (CurrentDiscovery.issue_start task_ref E h)
    = ELog INFO "Starting current discovery: %s"
      :: EHttp (POST_network_discovery_control task_ref "START")
           (http E (h ++ [ELog INFO "Starting current discovery: %s"])
              (POST_network_discovery_control task_ref "START"))
      :: tail.
Proof.
  unfold CurrentDiscovery.issue_start.
  erewrite bind_ret_eq by reflexivity.
  rewrite bind_run. unfold try_request, requests.
  destruct (http E _ _) as [r|]; unfold prepend; cbn [fst snd app]; eauto.
Qed.

Lemma start_run_active (fuel : nat) (task_ref : string) (E : env)
  (h : list event) :
  is_active (observed_state task_ref (http E h GET_discoverytask_state)) = true ->
  CurrentDiscovery.start_current_discovery_task fuel task_ref E h =
  let pre := status_events (http E h GET_discoverytask_state)
             ++ [ELog INFO "Current discovery is %s; attempting to end it."] in
  let s := CurrentDiscovery.stop_current_discovery_task task_ref E (h ++ pre) in
  match fst s with
  | Ret true =>
      let w := CurrentDiscovery.wait_for_discovery_to_stop fuel task_ref 60 5 E
                 (h ++ pre ++ snd s) in
      match fst w with
      | Ret true =>
          prepend (pre ++ snd s ++ snd w)
            (CurrentDiscovery.issue_start task_ref E (h ++ pre ++ snd s ++ snd w))
      | Ret false =>
          (Ret false,
           pre ++ snd s ++ snd w
             ++ [ELog ERROR "Timed out waiting for discovery to end."])
      | Raise x => (Raise x, pre ++ snd s ++ snd w)
      | OutOfFuel => (OutOfFuel, pre ++ snd s ++ snd w)
      end
  | Ret false =>
      (Ret false,
       pre ++ snd s ++ [ELog ERROR "Failed to end the current discovery task."])
  | Raise x => (Raise x, pre ++ snd s)
  | OutOfFuel => (OutOfFuel, pre ++ snd s)
  end.
Proof.
  intros Hactive. cbv zeta.
  unfold CurrentDiscovery.start_current_discovery_task.
  destruct (get_current_discovery_status_run task_ref E h) as [msg Hst].
  rewrite (bind_ret_eq _ _ _ _ _ _ Hst). cbv beta iota. rewrite Hactive.
  erewrite bind_ret_eq by reflexivity.
  rewrite prepend_app, <- !app_assoc.
  destruct (CurrentDiscovery.stop_current_discovery_task task_ref E _)
    as [[[|]|x|] es] eqn:Hs; cbn [fst snd].
  - rewrite (bind_ret_eq _ _ _ _ _ _ Hs). cbn [negb]. cbv iota.
    rewrite prepend_app, <- !app_assoc.
    destruct (CurrentDiscovery.wait_for_discovery_to_stop fuel task_ref 60 5 E _)
      as [[[|]|x|] ew] eqn:Hw; cbn [fst snd].
    + rewrite (bind_ret_eq _ _ _ _ _ _ Hw). cbn [negb]. cbv iota.
      rewrite prepend_app, <- !app_assoc. reflexivity.
    + rewrite (bind_ret_eq _ _ _ _ _ _ Hw). cbn [negb]. cbv iota.
      erewrite bind_ret_eq by reflexivity.
      unfold prepend, ret. cbn [fst snd]. now rewrite <- !app_assoc, app_nil_r.
    + rewrite (bind_raise_eq _ _ _ _ _ _ Hw).
      unfold prepend. cbn [fst snd]. now rewrite <- !app_assoc.
    + rewrite (bind_out_eq _ _ _ _ _ Hw).
      unfold prepend. cbn [fst snd]. now rewrite <- !app_assoc.
  - rewrite (bind_ret_eq _ _ _ _ _ _ Hs). cbn [negb]. cbv iota.
    erewrite bind_ret_eq by reflexivity.
    unfold prepend, ret. cbn [fst snd]. now rewrite <- !app_assoc, app_nil_r.
  - rewrite (bind_raise_eq _ _ _ _ _ _ Hs).
    unfold prepend. cbn [fst snd]. now rewrite <- !app_assoc.
  - rewrite (bind_out_eq _ _ _ _ _ Hs).
    unfold prepend. cbn [fst snd]. now rewrite <- !app_assoc.
Qed.

(** Reading the state and polling change nothing on the remote task. *)
Lemma get_current_discovery_status_no_change (task_ref : string) :
  events_all (fun e => is_change e = false)
    (CurrentDiscovery.get_current_discovery_status task_ref).
Proof.
  unfold CurrentDiscovery.get_current_discovery_status.
  repeat (along_code; try reflexivity).
Qed.

Lemma wait_loop_no_change (task_ref : string) (t0 timeout interval : Z) :
  forall fuel,
    events_all (fun e => is_change e = false)
      (CurrentDiscovery.wait_loop fuel task_ref t0 timeout interval).
Proof.
  induction fuel as [|fuel IH]; cbn [CurrentDiscovery.wait_loop].
  - intros E h. constructor.
  - apply all_bind; [apply all_time_time; reflexivity|]. intros now.
    destruct (now - t0 <? timeout)%Z; [|apply all_ret].
    apply all_bind; [apply get_current_discovery_status_no_change|].
    intros [st msg]. destruct (is_stopped st); [apply all_ret|].
    apply all_bind; [now apply all_emit|]. intros _.
    apply all_bind; [now apply all_time_sleep|]. intros _. exact IH.
Qed.

Lemma wait_for_discovery_to_stop_no_change (fuel : nat) (task_ref : string)
  (timeout interval : Z) :
  events_all (fun e => is_change e = false)
    (CurrentDiscovery.wait_for_discovery_to_stop fuel task_ref timeout interval).
Proof.
  unfold CurrentDiscovery.wait_for_discovery_to_stop.
  apply all_bind; [apply all_time_time; reflexivity|].
  intros t0. apply wait_loop_no_change.
Qed.

Lemma no_change_not_issued (task_ref action : string) (evs : list event) :
  Forall (fun e => is_change e = false) evs -> issued task_ref action evs = false.
Proof.
  unfold issued. induction 1 as [|e evs He _ IH]; simpl; auto.
  rewrite IH, orb_false_r.
  destruct e as [[] ?| | | | |]; simpl in *; auto; discriminate.
Qed.

Lemma no_change_existsb (evs : list event) :
  Forall (fun e => is_change e = false) evs -> existsb is_change evs = false.
Proof.
  induction 1 as [|e evs He _ IH]; simpl; auto. now rewrite He, IH.
Qed.

Lemma status_events_not_issued (task_ref action : string) (r : option reply) :
  issued task_ref action (status_events r) = false.
Proof. destruct r; reflexivity. Qed.

Lemma issued_app (task_ref action : string) (l1 l2 : list event) :
  issued task_ref action (l1 ++ l2)
  = issued task_ref action l1 || issued task_ref action l2.
Proof. apply existsb_app. Qed.

Lemma stop_not_issued_start (task_ref : string) (E : env) (h : list event) :
  issued task_ref "START"
    (snd (CurrentDiscovery.stop_current_discovery_task task_ref E h)) = false.
Proof.
  rewrite stop_run. cbv zeta.
  destruct (http E _ _); unfold issued; simpl; now rewrite andb_false_r.
Qed.

Lemma stop_true_events (task_ref : string) (E : env) (h : list event) :
  fst (CurrentDiscovery.stop_current_discovery_task task_ref E h) = Ret true ->
  exists c,
    snd (CurrentDiscovery.stop_current_discovery_task task_ref E h)
    = [ELog INFO "Stopping current discovery (END): %s";
       EHttp (POST_network_discovery_control task_ref "END") (Some c);
       ELog INFO "Current discovery ended successfully. HTTP response code: %d"].
Proof.
  rewrite stop_run. cbv zeta.
  destruct (http E _ _) as [c|]; intros H; simpl in H;
    [eexists; reflexivity | discriminate].
Qed.

(** C1.  Whenever [start_current_discovery_task] first reads a state in
    RUNNING, PAUSED, END_PENDING: if the END action fails, or if it succeeds
    and the polling loop times out, no START is issued and the function
    returns false; a START is issued only when the END action has succeeded
    and the polling loop has converged within its timeout of 60, and then it
    comes after both in the order of events; when both have succeeded the
    START is indeed issued. *)
Theorem C1_start_only_after_stop_and_convergence (fuel : nat)
  (task_ref : string) (E : env) (h : list event) :
  is_active (observed_state task_ref (http E h GET_discoverytask_state)) = true ->
  let pre := status_events (http E h GET_discoverytask_state)
             ++ [ELog INFO "Current discovery is %s; attempting to end it."] in
  let s := CurrentDiscovery.stop_current_discovery_task task_ref E (h ++ pre) in
  let w := CurrentDiscovery.wait_for_discovery_to_stop fuel task_ref 60 5 E
             (h ++ pre ++ snd s) in
  let run := CurrentDiscovery.start_current_discovery_task fuel task_ref E h in
  (fst s = Ret false ->
   fst run = Ret false /\ issued task_ref "START" (snd run) = false)
  /\ (fst s = Ret true -> fst w = Ret false ->
      fst run = Ret false /\ issued task_ref "START" (snd run) = false)
  /\ (issued task_ref "START" (snd run) = true ->
      fst s = Ret true /\ fst w = Ret true
      /\ exists c polls r tail,
           snd s = [ELog INFO "Stopping current discovery (END): %s";
                    EHttp (POST_network_discovery_control task_ref "END") (Some c);
                    ELog INFO "Current discovery ended successfully. HTTP response code: %d"]
           /\ snd w = ETime (clock E (h ++ pre ++ snd s)) :: polls
           /\ wait_trace task_ref (clock E (h ++ pre ++ snd s)) 60 5 polls (Ret true)
           /\ issued task_ref "START" (pre ++ snd s ++ snd w) = false
           /\ snd run
              = (pre ++ snd s ++ snd w)
                ++ ELog INFO "Starting current discovery: %s"
                   :: EHttp (POST_network_discovery_control task_ref "START") r
                   :: tail)
  /\ (fst s = Ret true -> fst w = Ret true ->
      issued task_ref "START" (snd run) = true).
Proof.
  intros Hactive pre s w run.
  assert (Hpre : issued task_ref "START" pre = false).
  { unfold pre. rewrite issued_app, status_events_not_issued. reflexivity. }
  assert (Hs : issued task_ref "START" (snd s) = false)
    by apply stop_not_issued_start.
  assert (Hw : issued task_ref "START" (snd w) = false).
  { apply no_change_not_issued. apply wait_for_discovery_to_stop_no_change. }
  assert (Hbefore : issued task_ref "START" (pre ++ snd s ++ snd w) = false).
  { rewrite !issued_app, Hpre, Hs, Hw. reflexivity. }
  assert (Hrun : run = _) by exact (start_run_active fuel task_ref E h Hactive).
  cbv zeta in Hrun. fold pre in Hrun. fold s in Hrun. fold w in Hrun.
  destruct (issue_start_head task_ref E (h ++ pre ++ snd s ++ snd w))
    as [tail Htail].
  split; [|split; [|split]].
  - intros Hfs. rewrite Hrun, Hfs. cbn [fst snd]. split; [reflexivity|].
    rewrite !issued_app, Hpre, Hs. reflexivity.
  - intros Hfs Hfw. rewrite Hrun, Hfs, Hfw. cbn [fst snd]. split; [reflexivity|].
    rewrite !issued_app, Hpre, Hs, Hw. reflexivity.
  - intros H. rewrite Hrun in H.
    destruct (fst s) as [[|]|x|] eqn:Hfs; cbn [snd] in H;
      try (rewrite !issued_app, Hpre, Hs in H; discriminate).
    destruct (fst w) as [[|]|x|] eqn:Hfw; cbn [snd] in H;
      try (rewrite !issued_app, Hpre, Hs, Hw in H; discriminate).
    split; [reflexivity|]. split; [reflexivity|].
    destruct (wait_for_discovery_to_stop_trace task_ref 60 5 fuel E
                (h ++ pre ++ snd s)) as (polls & Hpolls & Htrace).
    fold w in Hpolls, Htrace. rewrite Hfw in Htrace.
    destruct (stop_true_events task_ref E (h ++ pre) Hfs) as [c Hc].
    exists c, polls. do 2 eexists.
    split; [exact Hc|]. split; [exact Hpolls|]. split; [exact Htrace|].
    split; [exact Hbefore|].
    rewrite Hrun. unfold prepend. cbn [snd]. rewrite Htail.
    rewrite <- !app_assoc. reflexivity.
  - intros Hfs Hfw. rewrite Hrun, Hfs, Hfw. unfold prepend. cbn [snd].
    rewrite Htail. rewrite !issued_app. unfold issued at 4. simpl.
    rewrite !String.eqb_refl. simpl. now rewrite !orb_true_r.
Qed.

(** ** Unknown state *)






Lemma start_run_inactive (fuel : nat) (task_ref : string) (E : env)
  (h : list event) :
  is_active (observed_state task_ref (http E h GET_discoverytask_state)) = false ->
  CurrentDiscovery.start_current_discovery_task fuel task_ref E h =
  let pre := status_events (http E h GET_discoverytask_state)
             ++ [ELog INFO "Current discovery state is '%s'. Proceeding to start."] in
  prepend pre (CurrentDiscovery.issue_start task_ref E (h ++ pre)).
Proof.
  intros Hinactive. cbv zeta.
  unfold CurrentDiscovery.start_current_discovery_task.
  destruct (get_current_discovery_status_run task_ref E h) as [msg Hst].
  rewrite (bind_ret_eq _ _ _ _ _ _ Hst). cbv beta iota. rewrite Hinactive.
  erewrite bind_ret_eq by reflexivity.
  now rewrite prepend_app, <- !app_assoc.
Qed.

Lemma get_current_discovery_status_events (P : event -> Prop)
  (task_ref : string) :
  (forall r, P (EHttp GET_discoverytask_state r)) ->
  (forall fmt, P (ELog ERROR fmt)) ->
  events_all P (CurrentDiscovery.get_current_discovery_status task_ref).
Proof.
  intros Hget Hlog. unfold CurrentDiscovery.get_current_discovery_status.
  repeat (along_code; auto).
Qed.

Lemma issue_start_events (P : event -> Prop) (task_ref : string) :
  (forall r, P (EHttp GET_discoverytask_state r)) ->
  (forall r, P (EHttp (POST_network_discovery_control task_ref "START") r)) ->
  (forall lvl fmt, P (ELog lvl fmt)) ->
  P (ESleep 5) ->
  events_all P (CurrentDiscovery.issue_start task_ref).
Proof.
  intros Hget Hpost Hlog Hsleep. unfold CurrentDiscovery.issue_start.
  apply all_bind; [apply all_emit, Hlog|]. intros _.
  apply all_bind; [apply all_try_request, all_requests, Hpost|]. intros [r|].
  - apply all_bind; [apply all_emit, Hlog|]. intros _.
    apply all_bind; [apply all_time_sleep, Hsleep|]. intros _.
    apply all_bind; [apply get_current_discovery_status_events; auto|].
    intros [st msg]. destruct (_ && _); repeat (along_code; auto).
  - repeat (along_code; auto).
Qed.

(** C10.  When the first state read of [start_current_discovery_task] gives
    an unknown state, the function logs that it proceeds and issues the START
    request at once: its run is the state read followed by the run of the
    start part, with no END request and no clock reading of a polling loop
    anywhere in it. *)
Theorem C10_unknown_state_starts_at_once (fuel : nat) (task_ref : string)
  (E : env) (h : list event) :
  observed_state task_ref (http E h GET_discoverytask_state) = None ->
  let pre := status_events (http E h GET_discoverytask_state)
             ++ [ELog INFO "Current discovery state is '%s'. Proceeding to start."] in
  let run := CurrentDiscovery.start_current_discovery_task fuel task_ref E h in
  run = prepend pre (CurrentDiscovery.issue_start task_ref E (h ++ pre))
  /\ (exists tail,
        snd run
        = pre ++ ELog INFO "Starting current discovery: %s"
            :: EHttp (POST_network_discovery_control task_ref "START")
                 (http E ((h ++ pre) ++ [ELog INFO "Starting current discovery: %s"])
                    (POST_network_discovery_control task_ref "START"))
            :: tail)
  /\ issued task_ref "END" (snd run) = false
  /\ (forall t, ~ In (ETime t) (snd run)).
Proof.
  intros Hunknown pre run.
  assert (Hrun : run = prepend pre (CurrentDiscovery.issue_start task_ref E (h ++ pre))).
  { apply start_run_inactive. now rewrite Hunknown. }
  split; [exact Hrun|]. rewrite Hrun. unfold prepend. cbn [snd].
  split; [|split].
  - destruct (issue_start_head task_ref E (h ++ pre)) as [tail ->]. eauto.
  - rewrite issued_app. unfold pre at 1.
    rewrite issued_app, status_events_not_issued. cbn [issued existsb is_control orb].
    unfold issued. apply not_true_is_false. intros Hex.
    apply existsb_exists in Hex as (e & Hin & He).
    assert (Hall : events_all (fun e => is_control task_ref "END" e = false)
                     (CurrentDiscovery.issue_start task_ref)).
    { apply issue_start_events; auto. intros r. simpl. apply andb_false_r. }
    specialize (Hall E (h ++ pre)). rewrite Forall_forall in Hall.
    apply Hall in Hin. congruence.
  - intros t Hin. apply in_app_or in Hin as [Hin|Hin].
    + unfold pre in Hin. apply in_app_or in Hin as [Hin|[Hin|[]]];
        [|discriminate].
      unfold status_events in Hin.
      destruct (http E h GET_discoverytask_state);
        repeat (destruct Hin as [Hin|Hin]; [discriminate|]); contradiction.
    + assert (Hall : events_all (fun e => e <> ETime t)
                       (CurrentDiscovery.issue_start task_ref)).
      { apply issue_start_events; intros; discriminate. }
      specialize (Hall E (h ++ pre)). rewrite Forall_forall in Hall.
      now apply Hall in Hin.
Qed.

(** ** The confirmation prompt of the immediate mode *)

Lemma first_current_events (P : event -> Prop) :
  (forall lvl fmt, P (ELog lvl fmt)) ->
  forall tasks, events_all P (CurrentDiscovery.first_current tasks).
Proof.
  intros Hlog. induction tasks as [|task rest IH]; cbn [CurrentDiscovery.first_current].
  - repeat (along_code; auto).
  - destruct (opt_eqb _ _); [|exact IH]. repeat (along_code; auto).
Qed.

Lemma get_current_discovery_ref_events (P : event -> Prop) :
  (forall r, P (EHttp GET_discoverytask r)) ->
  (forall lvl fmt, P (ELog lvl fmt)) ->
  events_all P CurrentDiscovery.get_current_discovery_ref.
Proof.
  intros Hget Hlog. unfold CurrentDiscovery.get_current_discovery_ref.
  apply all_bind; [apply all_try_request, all_requests, Hget|].
  intros [data|].
  - now apply first_current_events.
  - repeat (along_code; auto).
Qed.

Lemma is_active_parts (st : option string) :
  is_active st = true ->
  Py.truthy st = true
  /\ Py.str_in (Py.upper (str_of st)) ["RUNNING"; "PAUSED"; "END_PENDING"] = true.
Proof.
  destruct st as [s|]; [|discriminate]. cbn [is_active Py.truthy str_of].
  now rewrite andb_true_iff.
Qed.

(** C8.  In the immediate mode, when the task reference is found, the state
    read shows RUNNING, PAUSED or END_PENDING and the force flag is absent,
    the run up to the confirmation prompt consists of reads, log records and
    console lines only, the prompt comes next, and if the answer is not "y"
    (after stripping and lowering) the run ends there with the "Aborting"
    line: no END, no task update and no START is issued. *)
Theorem C8_declined_prompt_changes_nothing (fuel : nat)
  (a : CurrentDiscovery.args) (E : env) (h : list event) (cref : option string) :
  let started := [ELog INFO "CURRENT_DISCOVERY_SCRIPT: Script started."] in
  let g := CurrentDiscovery.get_current_discovery_ref E (h ++ started) in
  let r0 := http E (h ++ started ++ snd g) GET_discoverytask_state in
  let st := observed_state (str_of cref) r0 in
  let before := started ++ snd g ++ status_events r0
                ++ [ELog INFO "Current discovery state: %s";
                    EPrint ("Current discovery state: " ++ str_of st)] in
  let line := stdin E (h ++ before) in
  let run := CurrentDiscovery.main fuel a E h in
  CurrentDiscovery.args_force a = false ->
  fst g = Ret cref -> Py.truthy cref = true ->
  is_active st = true ->
  existsb is_change before = false
  /\ (exists rest, snd run = before ++ EInput prompt_text line :: rest)
  /\ (forall answer,
        line = Some answer -> Py.lower (Py.strip answer) <> "y" ->
        run = (Ret tt,
               before ++ [EInput prompt_text line;
                          EPrint "Aborting update. Current discovery is still running/paused."])
        /\ existsb is_change (snd run) = false).
Proof.
  intros started g r0 st before line run Hforce Hg Hcref Hactive.
  apply is_active_parts in Hactive as [Htruthy Hin].
  assert (Hbefore : existsb is_change before = false).
  { unfold before. rewrite !existsb_app.
    replace (existsb is_change (snd g)) with false.
    - unfold status_events. destruct r0; reflexivity.
    - symmetry. apply no_change_existsb.
      apply get_current_discovery_ref_events; reflexivity. }
  split; [exact Hbefore|].
  assert (Hrun : run = prepend before
                         ((go <- CurrentDiscovery.prompt_overwrite false ;;
                           if negb go then
                             print "Aborting update. Current discovery is still running/paused."
                           else CurrentDiscovery.main_update fuel
                                  (CurrentDiscovery.args_network_view a) (str_of cref))
                            E (h ++ before))).
  { unfold run, CurrentDiscovery.main.
    erewrite bind_ret_eq by reflexivity.
    erewrite bind_ret_eq by reflexivity. rewrite app_nil_r.
    cbv zeta. fold started.
    pose proof (surjective_pairing g) as Hgp. rewrite Hg in Hgp. unfold g in Hgp at 1.
    rewrite (bind_ret_eq _ _ _ _ _ _ Hgp). rewrite Hcref. cbn [negb]. cbv iota.
    rewrite <- !app_assoc.
    destruct (get_current_discovery_status_run (str_of cref) E
                (h ++ started ++ snd g)) as [msg Hst].
    rewrite (bind_ret_eq _ _ _ _ _ _ Hst). cbv beta iota.
    fold r0. fold st. rewrite Htruthy.
    erewrite bind_ret_eq by reflexivity.
    erewrite bind_ret_eq by reflexivity.
    rewrite Hin, Hforce.
    rewrite !prepend_app. rewrite <- !app_assoc. reflexivity. }
  assert (Hprompt : CurrentDiscovery.prompt_overwrite false E (h ++ before)
                    = match line with
                      | Some l => (Ret (String.eqb (Py.lower (Py.strip l)) "y"),
                                   [EInput prompt_text line])
                      | None => (Raise EOFError, [EInput prompt_text line])
                      end).
  { unfold CurrentDiscovery.prompt_overwrite. rewrite bind_run.
    unfold input. fold line. destruct line; reflexivity. }
  split.
  - rewrite Hrun, bind_run, Hprompt. unfold prepend.
    destruct line as [l|]; cbn [fst snd]; rewrite <- ?app_assoc;
      eexists; cbn [app]; reflexivity.
  - intros answer Hline Hno.
    assert (Heq : run = (Ret tt,
               before ++ [EInput prompt_text line;
                          EPrint "Aborting update. Current discovery is still running/paused."])).
    { rewrite Hrun, bind_run, Hprompt, Hline.
      apply String.eqb_neq in Hno. rewrite Hno. reflexivity. }
    split; [exact Heq|].
    rewrite Heq. cbn [snd]. rewrite existsb_app, Hbefore. reflexivity.
Qed.

(** ** The reconfigure-and-start cycle *)

Section StartEvents.
Context (P : event -> Prop) (task_ref : string).
Hypothesis P_get : forall r, P (EHttp GET_discoverytask_state r).
Hypothesis P_post :
  forall a r, P (EHttp (POST_network_discovery_control task_ref a) r).
Hypothesis P_log : forall lvl fmt, P (ELog lvl fmt).
Hypothesis P_time : forall t, P (ETime t).
Hypothesis P_sleep : forall d, P (ESleep d).

Lemma wait_loop_events (t0 timeout interval : Z) :
  forall fuel,
    events_all P (CurrentDiscovery.wait_loop fuel task_ref t0 timeout interval).
Proof.
  induction fuel as [|fuel IH]; cbn [CurrentDiscovery.wait_loop].
  - intros E h. constructor.
  - apply all_bind; [now apply all_time_time|]. intros now.
    destruct (now - t0 <? timeout)%Z; [|apply all_ret].
    apply all_bind; [now apply get_current_discovery_status_events|].
    intros [st msg]. destruct (is_stopped st); [apply all_ret|].
    apply all_bind; [now apply all_emit|]. intros _.
    apply all_bind; [now apply all_time_sleep|]. intros _. exact IH.
Qed.

Lemma stop_events :
  events_all P (CurrentDiscovery.stop_current_discovery_task task_ref).
Proof.
  unfold CurrentDiscovery.stop_current_discovery_task.
  repeat (along_code; auto).
Qed.

Lemma start_events (fuel : nat) :
  events_all P (CurrentDiscovery.start_current_discovery_task fuel task_ref).
Proof.
  unfold CurrentDiscovery.start_current_discovery_task.
  apply all_bind; [now apply get_current_discovery_status_events|].
  intros [st msg]. destruct (is_active st).
  - apply all_bind; [now apply all_emit|]. intros _.
    apply all_bind; [apply stop_events|]. intros ended.
    destruct (negb ended); [repeat (along_code; auto)|].
    apply all_bind.
    + unfold CurrentDiscovery.wait_for_discovery_to_stop.
      apply all_bind; [now apply all_time_time|]. intros t0.
      apply wait_loop_events.
    + intros stopped. destruct (negb stopped); [repeat (along_code; auto)|].
      now apply issue_start_events.
  - apply all_bind; [now apply all_emit|]. intros _.
    now apply issue_start_events.
Qed.
End StartEvents.

Lemma update_run (desired_view task_ref : string) (network_refs : list string)
  (mode : string) (ping_retries ping_timeout : Z) (E : env) (h : list event) :
  CurrentDiscovery.update_current_discovery_task desired_view task_ref
    network_refs mode ping_retries ping_timeout E h =
  let body := {| mode := mode; network_view := desired_view;
                 networks := network_refs; ping_retries := ping_retries;
                 ping_timeout := ping_timeout |} in
  let updating :=
    ELog INFO "Updating current discovery '%s' with %d networks in view '%s'." in
  let r := http E (h ++ [updating]) (PUT_task task_ref body) in
  match r with
  | Some _ =>
      (Ret true,
       [updating; EHttp (PUT_task task_ref body) r;
        ELog INFO "Current discovery updated successfully. HTTP code: %d"])
  | None =>
      (Ret false,
       [updating; EHttp (PUT_task task_ref body) None;
        ELog ERROR "Error updating current discovery with new networks: %s"])
  end.
Proof.
  unfold CurrentDiscovery.update_current_discovery_task, bind, try_request,
    requests, logging_info, logging_error, emit, ret.
  cbv zeta. destruct (http E _ _); reflexivity.
Qed.

Lemma remote_networks_app (task_ref : string) (prior : list string)
  (e1 e2 : list event) :
  remote_networks task_ref prior (e1 ++ e2)
  = remote_networks task_ref (remote_networks task_ref prior e1) e2.
Proof. apply fold_left_app. Qed.

Lemma remote_networks_no_put (task_ref : string) (evs : list event) :
  Forall (fun e => is_put e = false) evs ->
  forall prior, remote_networks task_ref prior evs = prior.
Proof.
  induction 1 as [|e evs He _ IH]; intros prior; [reflexivity|].
  unfold remote_networks in *. simpl. rewrite IH.
  destruct e as [[] [?|]| | | | |]; simpl in *; auto; discriminate.
Qed.

(** A successful [issue_start] ends on a state read that shows RUNNING. *)
Lemma issue_start_true (task_ref : string) (E : env) (h : list event) :
  fst (CurrentDiscovery.issue_start task_ref E h) = Ret true ->
  exists pre r st,
    snd (CurrentDiscovery.issue_start task_ref E h)
    = pre ++ status_events r ++ [ELog INFO "Current discovery is now RUNNING."]
    /\ observed_state task_ref r = Some st
    /\ Py.upper st = "RUNNING".
Proof.
  unfold CurrentDiscovery.issue_start.
  erewrite bind_ret_eq by reflexivity.
  rewrite bind_run. unfold try_request, requests.
  destruct (http E _ _) as [c|].
  - erewrite bind_ret_eq by reflexivity.
    erewrite bind_ret_eq by reflexivity.
    rewrite !prepend_app.
    match goal with
    | |- context [bind (CurrentDiscovery.get_current_discovery_status task_ref)
                    _ E ?h'] =>
        destruct (get_current_discovery_status_run task_ref E h') as [msg Hst]
    end.
    rewrite (bind_ret_eq _ _ _ _ _ _ Hst). cbv beta iota.
    set (r := http E _ GET_discoverytask_state).
    destruct (observed_state task_ref r) as [st|] eqn:Hobs;
      cbn [Py.truthy str_of andb].
    + destruct (negb (st =? "") && (Py.upper st =? "RUNNING"))%string eqn:Hok.
      * intros _. apply andb_true_iff in Hok as [_ Hup].
        apply String.eqb_eq in Hup.
        erewrite bind_ret_eq by reflexivity.
        unfold prepend, ret. cbn [fst snd].
        exists [ELog INFO "Starting current discovery: %s";
                EHttp (POST_network_discovery_control task_ref "START") (Some c);
                ELog INFO "Current discovery started successfully. HTTP response code: %d";
                ESleep 5], r, st.
        split; [|split; [exact Hobs | exact Hup]].
        rewrite app_nil_r, <- !app_assoc. reflexivity.
      * erewrite bind_ret_eq by reflexivity. discriminate.
    + erewrite bind_ret_eq by reflexivity. discriminate.
  - erewrite bind_ret_eq by reflexivity. discriminate.
Qed.

Lemma prepend_true {A} (e1 : list event) (run : outcome A * list event)
  (P : list event -> Prop) :
  (exists pre tail, snd run = pre ++ tail /\ P tail) ->
  exists pre tail, snd (prepend e1 run) = pre ++ tail /\ P tail.
Proof.
  intros (pre & tail & Heq & HP). exists (e1 ++ pre), tail.
  unfold prepend. cbn [snd]. now rewrite Heq, app_assoc.
Qed.

(** A successful [start_current_discovery_task] ends on a state read that
    shows RUNNING. *)
Lemma start_true (fuel : nat) (task_ref : string) (E : env) (h : list event) :
  fst (CurrentDiscovery.start_current_discovery_task fuel task_ref E h) = Ret true ->
  exists pre r st,
    snd (CurrentDiscovery.start_current_discovery_task fuel task_ref E h)
    = pre ++ status_events r ++ [ELog INFO "Current discovery is now RUNNING."]
    /\ observed_state task_ref r = Some st
    /\ Py.upper st = "RUNNING".
Proof.
  assert (Hlift : forall e1 h',
             fst (prepend e1 (CurrentDiscovery.issue_start task_ref E h')) = Ret true ->
             exists pre r st,
               snd (prepend e1 (CurrentDiscovery.issue_start task_ref E h'))
               = pre ++ status_events r
                   ++ [ELog INFO "Current discovery is now RUNNING."]
               /\ observed_state task_ref r = Some st
               /\ Py.upper st = "RUNNING").
  { intros e1 h' Htrue. cbn [prepend fst] in Htrue.
    destruct (issue_start_true task_ref E h' Htrue) as (pre & r & st & Heq & Hr).
    exists (e1 ++ pre), r, st. split; [|exact Hr].
    unfold prepend. cbn [snd]. now rewrite Heq, app_assoc. }
  destruct (is_active (observed_state task_ref (http E h GET_discoverytask_state)))
    eqn:Hactive.
  - rewrite (start_run_active fuel task_ref E h Hactive). cbv zeta.
    destruct (fst (CurrentDiscovery.stop_current_discovery_task _ _ _))
      as [[|]|x|]; try discriminate.
    destruct (fst (CurrentDiscovery.wait_for_discovery_to_stop _ _ _ _ _ _))
      as [[|]|x|]; try discriminate.
    apply Hlift.
  - rewrite (start_run_inactive fuel task_ref E h Hactive). cbv zeta.
    apply Hlift.
Qed.

(** C3.  In the cycle that [main] runs, when the task update returns true
    and the start returns true, the simulated remote task holds exactly the
    list passed to the update, whatever list it held before, the last state
    read of the start shows RUNNING, and the success line is printed;
    when the update returns false the run ends with the update-failure line,
    and when the start returns false the start-failure line is printed and
    the success line is not. *)
Theorem C3_cycle_overwrites_and_runs (fuel : nat)
  (desired_view task_ref : string) (nets : list string)
  (E : env) (h : list event) :
  let u := CurrentDiscovery.update_current_discovery_task desired_view task_ref
             nets "ICMP" 5 1500 E h in
  let s := CurrentDiscovery.start_current_discovery_task fuel task_ref E
             (h ++ snd u) in
  let cycle := CurrentDiscovery.main_cycle fuel desired_view task_ref nets E h in
  (fst u = Ret true -> fst s = Ret true ->
   (forall prior, remote_networks task_ref prior (snd u ++ snd s) = nets)
   /\ (exists pre r st,
         snd s = pre ++ status_events r
                   ++ [ELog INFO "Current discovery is now RUNNING."]
         /\ observed_state task_ref r = Some st
         /\ Py.upper st = "RUNNING")
   /\ (exists tail, snd cycle = snd u ++ snd s ++ started_line :: tail)
   /\ ~ In update_failed_line (snd cycle)
   /\ ~ In start_failed_line (snd cycle))
  /\ (fst u = Ret false ->
      cycle = (Ret tt, snd u ++ [update_failed_line])
      /\ ~ In started_line (snd cycle))
  /\ (fst u = Ret true -> fst s = Ret false ->
      (exists tail, snd cycle = snd u ++ snd s ++ start_failed_line :: tail)
      /\ ~ In started_line (snd cycle)).
Proof.
  intros u s cycle.
  pose proof (surjective_pairing u) as Hu. unfold u in Hu at 1.
  pose proof (surjective_pairing s) as Hs. unfold s in Hs at 1.
  assert (Hu_lines : forall line, ~ In (EPrint line) (snd u)).
  { intros line. unfold u. rewrite update_run. cbv zeta.
    destruct (http E _ _); simpl; intuition discriminate. }
  assert (Hs_lines : forall line, ~ In (EPrint line) (snd s)).
  { intros line Hin.
    assert (Hall : events_all (fun e => e <> EPrint line)
                     (CurrentDiscovery.start_current_discovery_task fuel task_ref))
      by (apply start_events; intros; discriminate).
    specialize (Hall E (h ++ snd u)). rewrite Forall_forall in Hall.
    now apply Hall in Hin. }
  assert (Hfinal : forall line,
             (forall st, line <> ("Final Current Discovery State: " ++ st)%string) ->
             line <> "Could not retrieve final discovery status. Check discovery.log for details." ->
             forall h', ~ In (EPrint line)
                          (snd (CurrentDiscovery.report_final_state task_ref E h'))).
  { intros line Hl1 Hl2 h' Hin.
    assert (Hall : events_all (fun e => e <> EPrint line)
                     (CurrentDiscovery.report_final_state task_ref)).
    { unfold CurrentDiscovery.report_final_state.
      apply all_bind;
        [apply get_current_discovery_status_events; intros; discriminate|].
      intros [st msg]. destruct (Py.truthy st);
        repeat (along_code; try discriminate);
        intros [= Heq]; [now apply (Hl1 (str_of st)) | now apply Hl2]. }
    specialize (Hall E h'). rewrite Forall_forall in Hall.
    now apply Hall in Hin. }
  unfold cycle, CurrentDiscovery.main_cycle.
  split; [|split].
  - intros Hfu Hfs. rewrite Hfu in Hu. rewrite Hfs in Hs.
    split; [|split].
    + intros prior. rewrite remote_networks_app.
      rewrite remote_networks_no_put.
      * unfold u. rewrite update_run. cbv zeta.
        unfold u in Hfu. rewrite update_run in Hfu. cbv zeta in Hfu.
        destruct (http E _ _); [|discriminate].
        unfold remote_networks. simpl. now rewrite String.eqb_refl.
      * apply start_events; reflexivity.
    + now apply start_true.
    + rewrite (bind_ret_eq _ _ _ _ _ _ Hu). cbn [negb]. cbv iota.
      rewrite (bind_ret_eq _ _ _ _ _ _ Hs). cbv iota.
      erewrite bind_ret_eq by reflexivity.
      unfold prepend. cbn [fst snd app].
      split; [eauto|].
      fold started_line.
      split; intros Hin;
        (apply in_app_or in Hin as [Hin|Hin]; [now apply Hu_lines in Hin|]);
        (apply in_app_or in Hin as [Hin|Hin]; [now apply Hs_lines in Hin|]);
        (destruct Hin as [Hin|Hin]; [discriminate|]);
        apply Hfinal in Hin; auto; intros; discriminate.
  - intros Hfu. rewrite Hfu in Hu.
    rewrite (bind_ret_eq _ _ _ _ _ _ Hu). cbn [negb]. cbv iota.
    unfold prepend, print, emit. cbn [fst snd]. split; [reflexivity|].
    intros Hin. apply in_app_or in Hin as [Hin|[Hin|[]]];
      [now apply Hu_lines in Hin | discriminate].
  - intros Hfu Hfs. rewrite Hfu in Hu. rewrite Hfs in Hs.
    rewrite (bind_ret_eq _ _ _ _ _ _ Hu). cbn [negb]. cbv iota.
    rewrite (bind_ret_eq _ _ _ _ _ _ Hs). cbv iota.
    erewrite bind_ret_eq by reflexivity.
    unfold prepend. cbn [fst snd app].
    split; [eauto|].
    intros Hin.
    apply in_app_or in Hin as [Hin|Hin]; [now apply Hu_lines in Hin|].
    apply in_app_or in Hin as [Hin|Hin]; [now apply Hs_lines in Hin|].
    destruct Hin as [Hin|Hin]; [discriminate|].
    apply Hfinal in Hin; auto; intros; discriminate.
Qed.

(** ** The view of a task update *)

Section ScriptEvents.
Context (P : event -> Prop).
Hypothesis P_log : forall lvl fmt, P (ELog lvl fmt).

Lemma current_collect_enabled_events :
  forall nets found,
    events_all P (CurrentDiscovery.collect_enabled nets found).
Proof.
  induction nets as [|net rest IH]; intros found;
    cbn [CurrentDiscovery.collect_enabled].
  - apply all_ret.
  - destruct (opt_eqb _ _); [|apply IH].
    apply all_bind; [apply all_getitem_ref|]. intros r. apply IH.
Qed.

Lemma scheduled_collect_enabled_events :
  forall nets found,
    events_all P (ScheduledDiscovery.collect_enabled nets found).
Proof.
  induction nets as [|net rest IH]; intros found;
    cbn [ScheduledDiscovery.collect_enabled].
  - apply all_ret.
  - destruct (opt_eqb _ _); [|apply IH].
    apply all_bind; [apply all_getitem_ref|]. intros r. apply IH.
Qed.

Lemma scheduler_collect_enabled_events :
  forall nets found,
    events_all P (Scheduler.collect_enabled nets found).
Proof.
  induction nets as [|net rest IH]; intros found;
    cbn [Scheduler.collect_enabled].
  - apply all_ret.
  - destruct (opt_eqb _ _); [|apply IH].
    apply all_bind; [apply all_getitem_ref|]. intros r. apply IH.
Qed.

Lemma scheduled_first_scheduled_events :
  forall tasks, events_all P (ScheduledDiscovery.first_scheduled tasks).
Proof.
  induction tasks as [|task rest IH]; cbn [ScheduledDiscovery.first_scheduled].
  - repeat (along_code; auto).
  - destruct (opt_eqb _ _); [|exact IH]. repeat (along_code; auto).
Qed.

Lemma scheduler_first_scheduled_events :
  forall tasks, events_all P (Scheduler.first_scheduled tasks).
Proof.
  induction tasks as [|task rest IH]; cbn [Scheduler.first_scheduled].
  - repeat (along_code; auto).
  - destruct (opt_eqb _ _); [|exact IH]. repeat (along_code; auto).
Qed.
End ScriptEvents.

(** A proof along the code of a whole script: the loops by their lemmas, the
    rest step by step. *)
Ltac along_script :=
  repeat first
    [ apply first_current_events
    | apply scheduled_first_scheduled_events
    | apply scheduler_first_scheduled_events
    | apply current_collect_enabled_events
    | apply scheduled_collect_enabled_events
    | apply scheduler_collect_enabled_events
    | apply wait_loop_events
    | along_code ].

Lemma current_main_put_view (fuel : nat) (a : CurrentDiscovery.args) :
  events_all (put_view (CurrentDiscovery.args_network_view a))
    (CurrentDiscovery.main fuel a).
Proof.
  unfold CurrentDiscovery.main, CurrentDiscovery.main_update,
    CurrentDiscovery.main_cycle, CurrentDiscovery.report_final_state,
    CurrentDiscovery.start_current_discovery_task, CurrentDiscovery.issue_start,
    CurrentDiscovery.wait_for_discovery_to_stop,
    CurrentDiscovery.stop_current_discovery_task,
    CurrentDiscovery.update_current_discovery_task,
    CurrentDiscovery.prompt_overwrite,
    CurrentDiscovery.get_discovery_enabled_networks,
    CurrentDiscovery.get_current_discovery_status,
    CurrentDiscovery.get_current_discovery_ref.
  along_script; intros; exact I || reflexivity.
Qed.

Lemma scheduled_main_put_view (cfg : config) :
  events_all (put_view (SCHEDULED_DISCOVERY_NETWORK_VIEW cfg))
    (ScheduledDiscovery.main cfg).
Proof.
  unfold ScheduledDiscovery.main, ScheduledDiscovery.main_update,
    ScheduledDiscovery.update_scheduled_discovery_task,
    ScheduledDiscovery.get_discovery_task_status,
    ScheduledDiscovery.get_network_ref,
    ScheduledDiscovery.get_discovery_enabled_networks,
    ScheduledDiscovery.get_scheduled_discovery_ref.
  along_script; intros; exact I || reflexivity.
Qed.

Lemma scheduler_main_put_view :
  events_all (put_view "GLOBAL") Scheduler.main.
Proof.
  unfold Scheduler.main, Scheduler.update_scheduled_discovery_task,
    Scheduler.get_discovery_task_status,
    Scheduler.get_discovery_enabled_networks,
    Scheduler.get_scheduled_discovery_ref.
  along_script; intros; exact I || reflexivity.
Qed.

(** C5, as amended.  Every task update issued by current-discovery.py
    carries the network view given on the command line, and every task
    update issued by scheduled-discovery.py carries the configured network
    view; every task update issued by scheduler.py carries the fixed view
    GLOBAL, whatever the configuration says. *)
Theorem C5_update_view_per_script (E : env) (h : list event)
  (task_ref : string) (body : payload) (r : option reply) :
  (forall fuel (a : CurrentDiscovery.args),
     In (EHttp (PUT_task task_ref body) r) (snd (CurrentDiscovery.main fuel a E h)) ->
     network_view body = CurrentDiscovery.args_network_view a)
  /\ (forall cfg,
        In (EHttp (PUT_task task_ref body) r) (snd (ScheduledDiscovery.main cfg E h)) ->
        network_view body = SCHEDULED_DISCOVERY_NETWORK_VIEW cfg)
  /\ (In (EHttp (PUT_task task_ref body) r) (snd (Scheduler.main E h)) ->
      network_view body = "GLOBAL").
Proof.
  split; [|split].
  - intros fuel a Hin.
    pose proof (current_main_put_view fuel a E h) as Hall.
    rewrite Forall_forall in Hall. exact (Hall _ Hin).
  - intros cfg Hin.
    pose proof (scheduled_main_put_view cfg E h) as Hall.
    rewrite Forall_forall in Hall. exact (Hall _ Hin).
  - intros Hin.
    pose proof (scheduler_main_put_view E h) as Hall.
    rewrite Forall_forall in Hall. exact (Hall _ Hin).
Qed.

(** ** Transport failures *)

Lemma safe_first_current :
  forall tasks, never_raises RequestException (CurrentDiscovery.first_current tasks).
Proof.
  induction tasks as [|task rest IH]; cbn [CurrentDiscovery.first_current].
  - repeat along_code.
  - destruct (opt_eqb _ _); [|exact IH]. repeat along_code.
Qed.

Lemma safe_scheduled_first_scheduled :
  forall tasks,
    never_raises RequestException (ScheduledDiscovery.first_scheduled tasks).
Proof.
  induction tasks as [|task rest IH]; cbn [ScheduledDiscovery.first_scheduled].
  - repeat along_code.
  - destruct (opt_eqb _ _); [|exact IH]. repeat along_code.
Qed.

Lemma safe_scheduler_first_scheduled :
  forall tasks, never_raises RequestException (Scheduler.first_scheduled tasks).
Proof.
  induction tasks as [|task rest IH]; cbn [Scheduler.first_scheduled].
  - repeat along_code.
  - destruct (opt_eqb _ _); [|exact IH]. repeat along_code.
Qed.

Lemma safe_current_collect_enabled :
  forall nets found,
    never_raises RequestException (CurrentDiscovery.collect_enabled nets found).
Proof.
  induction nets as [|net rest IH]; intros found;
    cbn [CurrentDiscovery.collect_enabled].
  - apply safe_ret.
  - destruct (opt_eqb _ _); [|apply IH].
    apply safe_bind; [apply safe_getitem_ref|]. intros r. apply IH.
Qed.

Lemma safe_scheduled_collect_enabled :
  forall nets found,
    never_raises RequestException (ScheduledDiscovery.collect_enabled nets found).
Proof.
  induction nets as [|net rest IH]; intros found;
    cbn [ScheduledDiscovery.collect_enabled].
  - apply safe_ret.
  - destruct (opt_eqb _ _); [|apply IH].
    apply safe_bind; [apply safe_getitem_ref|]. intros r. apply IH.
Qed.

Lemma safe_scheduler_collect_enabled :
  forall nets found,
    never_raises RequestException (Scheduler.collect_enabled nets found).
Proof.
  induction nets as [|net rest IH]; intros found;
    cbn [Scheduler.collect_enabled].
  - apply safe_ret.
  - destruct (opt_eqb _ _); [|apply IH].
    apply safe_bind; [apply safe_getitem_ref|]. intros r. apply IH.
Qed.

Lemma safe_get_current_discovery_status (task_ref : string) :
  never_raises RequestException
    (CurrentDiscovery.get_current_discovery_status task_ref).
Proof.
  unfold CurrentDiscovery.get_current_discovery_status. repeat along_code.
Qed.

Lemma safe_wait_loop (task_ref : string) (t0 timeout interval : Z) :
  forall fuel,
    never_raises RequestException
      (CurrentDiscovery.wait_loop fuel task_ref t0 timeout interval).
Proof.
  induction fuel as [|fuel IH]; cbn [CurrentDiscovery.wait_loop].
  - intros E h. discriminate.
  - apply safe_bind; [apply safe_time_time|]. intros now.
    destruct (now - t0 <? timeout)%Z; [|apply safe_ret].
    apply safe_bind; [apply safe_get_current_discovery_status|].
    intros [st msg]. destruct (is_stopped st); [apply safe_ret|].
    apply safe_bind; [apply safe_emit|]. intros _.
    apply safe_bind; [apply safe_time_sleep|]. intros _. exact IH.
Qed.

Ltac along_script_safe :=
  repeat first
    [ apply safe_first_current
    | apply safe_scheduled_first_scheduled
    | apply safe_scheduler_first_scheduled
    | apply safe_current_collect_enabled
    | apply safe_scheduled_collect_enabled
    | apply safe_scheduler_collect_enabled
    | apply safe_wait_loop
    | along_code ].

Lemma safe_current_main (fuel : nat) (a : CurrentDiscovery.command_line) :
  never_raises RequestException (CurrentDiscovery.main fuel a).
Proof.
  unfold CurrentDiscovery.main, CurrentDiscovery.main_update,
    CurrentDiscovery.main_cycle, CurrentDiscovery.report_final_state,
    CurrentDiscovery.start_current_discovery_task, CurrentDiscovery.issue_start,
    CurrentDiscovery.wait_for_discovery_to_stop,
    CurrentDiscovery.stop_current_discovery_task,
    CurrentDiscovery.update_current_discovery_task,
    CurrentDiscovery.prompt_overwrite,
    CurrentDiscovery.get_discovery_enabled_networks,
    CurrentDiscovery.get_current_discovery_status,
    CurrentDiscovery.get_current_discovery_ref.
  along_script_safe.
Qed.

Lemma safe_scheduled_main (cfg : config) :
  never_raises RequestException (ScheduledDiscovery.main cfg).
Proof.
  unfold ScheduledDiscovery.main, ScheduledDiscovery.main_update,
    ScheduledDiscovery.update_scheduled_discovery_task,
    ScheduledDiscovery.get_discovery_task_status,
    ScheduledDiscovery.get_network_ref,
    ScheduledDiscovery.get_discovery_enabled_networks,
    ScheduledDiscovery.get_scheduled_discovery_ref.
  along_script_safe.
Qed.

Lemma safe_scheduler_main : never_raises RequestException Scheduler.main.
Proof.
  unfold Scheduler.main, Scheduler.update_scheduled_discovery_task,
    Scheduler.get_discovery_task_status,
    Scheduler.get_discovery_enabled_networks,
    Scheduler.get_scheduled_discovery_ref.
  along_script_safe.
Qed.

(** The call sites, one by one. *)
Ltac fails_closed_by_code :=
  intros E h Hfail;
  repeat (erewrite bind_ret_eq by reflexivity);
  rewrite bind_run; unfold try_request;
  try (rewrite bind_run); unfold requests;
  cbn [app] in Hfail |- *;
  rewrite ?app_nil_r in Hfail; rewrite Hfail;
  eexists; reflexivity.

Lemma current_call_sites_fail_closed :
  fails_closed CurrentDiscovery.get_current_discovery_ref []
    GET_discoverytask None
  /\ (forall task_ref,
        fails_closed (CurrentDiscovery.get_current_discovery_status task_ref) []
          GET_discoverytask_state (None, None))
  /\ fails_closed CurrentDiscovery.get_discovery_enabled_networks []
       GET_network_extattrs []
  /\ (forall cidr view,
        fails_closed (CurrentDiscovery.get_network_ref cidr view) []
          (GET_network cidr view) None)
  /\ (forall task_ref,
        fails_closed (CurrentDiscovery.stop_current_discovery_task task_ref)
          [ELog INFO "Stopping current discovery (END): %s"]
          (POST_network_discovery_control task_ref "END") false)
  /\ (forall view task_ref nets md retries tmo,
        fails_closed
          (CurrentDiscovery.update_current_discovery_task view task_ref nets md
             retries tmo)
          [ELog INFO "Updating current discovery '%s' with %d networks in view '%s'."]
          (PUT_task task_ref
             {| mode := md; network_view := view; networks := nets;
                ping_retries := retries; ping_timeout := tmo |})
          false)
  /\ (forall task_ref,
        fails_closed (CurrentDiscovery.issue_start task_ref)
          [ELog INFO "Starting current discovery: %s"]
          (POST_network_discovery_control task_ref "START") false).
Proof.
  repeat split; intros.
  - unfold CurrentDiscovery.get_current_discovery_ref. fails_closed_by_code.
  - unfold CurrentDiscovery.get_current_discovery_status. fails_closed_by_code.
  - unfold CurrentDiscovery.get_discovery_enabled_networks. fails_closed_by_code.
  - unfold CurrentDiscovery.get_network_ref. fails_closed_by_code.
  - unfold CurrentDiscovery.stop_current_discovery_task. fails_closed_by_code.
  - unfold CurrentDiscovery.update_current_discovery_task. fails_closed_by_code.
  - unfold CurrentDiscovery.issue_start. fails_closed_by_code.
Qed.

Lemma scheduled_call_sites_fail_closed :
  fails_closed ScheduledDiscovery.get_scheduled_discovery_ref []
    GET_discoverytask None
  /\ fails_closed ScheduledDiscovery.get_discovery_enabled_networks []
       GET_network_extattrs []
  /\ (forall cidr view,
        fails_closed (ScheduledDiscovery.get_network_ref cidr view) []
          (GET_network cidr view) None)
  /\ (forall cfg task_ref nets md retries tmo,
        fails_closed
          (ScheduledDiscovery.update_scheduled_discovery_task cfg task_ref nets
             md retries tmo)
          [ELog INFO "Overwriting scheduled discovery '%s' with %d networks in view '%s'."]
          (PUT_task task_ref
             {| mode := md; network_view := SCHEDULED_DISCOVERY_NETWORK_VIEW cfg;
                networks := nets; ping_retries := retries; ping_timeout := tmo |})
          false)
  /\ (forall task_ref,
        fails_closed (ScheduledDiscovery.get_discovery_task_status task_ref) []
          GET_discoverytask_state (None, None)).
Proof.
  repeat split; intros.
  - unfold ScheduledDiscovery.get_scheduled_discovery_ref. fails_closed_by_code.
  - unfold ScheduledDiscovery.get_discovery_enabled_networks. fails_closed_by_code.
  - unfold ScheduledDiscovery.get_network_ref. fails_closed_by_code.
  - unfold ScheduledDiscovery.update_scheduled_discovery_task. fails_closed_by_code.
  - unfold ScheduledDiscovery.get_discovery_task_status. fails_closed_by_code.
Qed.

Lemma scheduler_call_sites_fail_closed :
  fails_closed Scheduler.get_scheduled_discovery_ref [] GET_discoverytask None
  /\ fails_closed Scheduler.get_discovery_enabled_networks []
       GET_network_extattrs []
  /\ (forall task_ref,
        fails_closed (Scheduler.get_discovery_task_status task_ref) []
          GET_discoverytask_state (None, None))
  /\ (forall task_ref nets md retries tmo,
        fails_closed
          (Scheduler.update_scheduled_discovery_task task_ref nets md retries tmo)
          [ELog INFO "Overwriting scheduled discovery '%s' with %d networks."]
          (PUT_task task_ref
             {| mode := md; network_view := "GLOBAL"; networks := nets;
                ping_retries := retries; ping_timeout := tmo |})
          tt)
  /\ (forall task_ref,
        fails_closed (Scheduler.start_scheduled_discovery_task task_ref)
          [ELog INFO "Starting scheduled discovery: %s"]
          (POST_network_discovery_control task_ref "START") tt).
Proof.
  repeat split; intros.
  - unfold Scheduler.get_scheduled_discovery_ref. fails_closed_by_code.
  - unfold Scheduler.get_discovery_enabled_networks. fails_closed_by_code.
  - unfold Scheduler.get_discovery_task_status. fails_closed_by_code.
  - unfold Scheduler.update_scheduled_discovery_task. fails_closed_by_code.
  - unfold Scheduler.start_scheduled_discovery_task. fails_closed_by_code.
Qed.

(** The update of scheduler.py returns the same value whether its request
    was answered or not. *)
Lemma scheduler_update_returns_none (task_ref : string) (nets : list string)
  (md : string) (retries tmo : Z) (E : env) (h : list event) :
  fst (Scheduler.update_scheduled_discovery_task task_ref nets md retries tmo E h)
  = Ret tt.
Proof.
  unfold Scheduler.update_scheduled_discovery_task.
  erewrite bind_ret_eq by reflexivity.
  rewrite bind_run. unfold try_request. rewrite bind_run. unfold requests.
  destruct (http E _ _); reflexivity.
Qed.

(** C6, as amended.  No [RequestException] leaves any of the three scripts,
    nor the two functions they define without calling.  At every call site of
    current-discovery.py and scheduled-discovery.py a request that gets no
    answer is issued once, logged at the ERROR level and turned into the
    failure value of the function: None, (None, None), the empty list or
    False.  The reads of scheduler.py do the same; its task update and its
    start catch and log the failure too, but return None whether the request
    was answered or not. *)
Theorem C6_transport_failures_caught_and_signalled :
  ((forall fuel a, never_raises RequestException (CurrentDiscovery.main fuel a))
   /\ (forall cfg, never_raises RequestException (ScheduledDiscovery.main cfg))
   /\ never_raises RequestException Scheduler.main
   /\ (forall cidr view,
         never_raises RequestException (CurrentDiscovery.get_network_ref cidr view))
   /\ (forall task_ref,
         never_raises RequestException
           (Scheduler.start_scheduled_discovery_task task_ref)))
  /\ (fails_closed CurrentDiscovery.get_current_discovery_ref []
        GET_discoverytask None
      /\ (forall task_ref,
            fails_closed (CurrentDiscovery.get_current_discovery_status task_ref) []
              GET_discoverytask_state (None, None))
      /\ fails_closed CurrentDiscovery.get_discovery_enabled_networks []
           GET_network_extattrs []
      /\ (forall cidr view,
            fails_closed (CurrentDiscovery.get_network_ref cidr view) []
              (GET_network cidr view) None)
      /\ (forall task_ref,
            fails_closed (CurrentDiscovery.stop_current_discovery_task task_ref)
              [ELog INFO "Stopping current discovery (END): %s"]
              (POST_network_discovery_control task_ref "END") false)
      /\ (forall view task_ref nets md retries tmo,
            fails_closed
              (CurrentDiscovery.update_current_discovery_task view task_ref nets
                 md retries tmo)
              [ELog INFO "Updating current discovery '%s' with %d networks in view '%s'."]
              (PUT_task task_ref
                 {| mode := md; network_view := view; networks := nets;
                    ping_retries := retries; ping_timeout := tmo |})
              false)
      /\ (forall task_ref,
            fails_closed (CurrentDiscovery.issue_start task_ref)
              [ELog INFO "Starting current discovery: %s"]
              (POST_network_discovery_control task_ref "START") false))
  /\ (fails_closed ScheduledDiscovery.get_scheduled_discovery_ref []
        GET_discoverytask None
      /\ fails_closed ScheduledDiscovery.get_discovery_enabled_networks []
           GET_network_extattrs []
      /\ (forall cidr view,
            fails_closed (ScheduledDiscovery.get_network_ref cidr view) []
              (GET_network cidr view) None)
      /\ (forall cfg task_ref nets md retries tmo,
            fails_closed
              (ScheduledDiscovery.update_scheduled_discovery_task cfg task_ref
                 nets md retries tmo)
              [ELog INFO "Overwriting scheduled discovery '%s' with %d networks in view '%s'."]
              (PUT_task task_ref
                 {| mode := md;
                    network_view := SCHEDULED_DISCOVERY_NETWORK_VIEW cfg;
                    networks := nets; ping_retries := retries;
                    ping_timeout := tmo |})
              false)
      /\ (forall task_ref,
            fails_closed (ScheduledDiscovery.get_discovery_task_status task_ref) []
              GET_discoverytask_state (None, None)))
  /\ (fails_closed Scheduler.get_scheduled_discovery_ref []
        GET_discoverytask None
      /\ fails_closed Scheduler.get_discovery_enabled_networks []
           GET_network_extattrs []
      /\ (forall task_ref,
            fails_closed (Scheduler.get_discovery_task_status task_ref) []
              GET_discoverytask_state (None, None))
      /\ (forall task_ref nets md retries tmo,
            fails_closed
              (Scheduler.update_scheduled_discovery_task task_ref nets md
                 retries tmo)
              [ELog INFO "Overwriting scheduled discovery '%s' with %d networks."]
              (PUT_task task_ref
                 {| mode := md; network_view := "GLOBAL"; networks := nets;
                    ping_retries := retries; ping_timeout := tmo |})
              tt)
      /\ (forall task_ref,
            fails_closed (Scheduler.start_scheduled_discovery_task task_ref)
              [ELog INFO "Starting scheduled discovery: %s"]
              (POST_network_discovery_control task_ref "START") tt)
      /\ (forall task_ref nets md retries tmo E h,
            fst (Scheduler.update_scheduled_discovery_task task_ref nets md
                   retries tmo E h) = Ret tt)).
Proof.
  split; [|split; [|split]].
  - split; [exact safe_current_main|].
    split; [exact safe_scheduled_main|].
    split; [exact safe_scheduler_main|].
    split; intros.
    + unfold CurrentDiscovery.get_network_ref. along_script_safe.
    + unfold Scheduler.start_scheduled_discovery_task. along_script_safe.
  - exact current_call_sites_fail_closed.
  - exact scheduled_call_sites_fail_closed.
  - destruct scheduler_call_sites_fail_closed as (H1 & H2 & H3 & H4 & H5).
    repeat (split; [assumption|]).
    exact scheduler_update_returns_none.
Qed.

(** ** The fallback network of the scheduled mode *)

Lemma scheduled_reads_no_put :
  events_all (fun e => is_put e = false)
    ScheduledDiscovery.get_scheduled_discovery_ref
  /\ events_all (fun e => is_put e = false)
       ScheduledDiscovery.get_discovery_enabled_networks
  /\ (forall cidr view,
        events_all (fun e => is_put e = false)
          (ScheduledDiscovery.get_network_ref cidr view))
  /\ (forall task_ref,
        events_all (fun e => is_put e = false)
          (ScheduledDiscovery.get_discovery_task_status task_ref)).
Proof.
  repeat split; intros.
  - unfold ScheduledDiscovery.get_scheduled_discovery_ref.
    along_script; intros; reflexivity.
  - unfold ScheduledDiscovery.get_discovery_enabled_networks.
    along_script; intros; reflexivity.
  - unfold ScheduledDiscovery.get_network_ref. along_script; intros; reflexivity.
  - unfold ScheduledDiscovery.get_discovery_task_status.
    along_script; intros; reflexivity.
Qed.

Lemma no_put_existsb {A} (m : M A) (E : env) (h : list event) :
  events_all (fun e => is_put e = false) m ->
  existsb is_put (snd (m E h)) = false.
Proof.
  intros Hall. specialize (Hall E h).
  induction Hall as [|e evs He _ IH]; simpl; auto. now rewrite He, IH.
Qed.

(** The run of the update step of scheduled-discovery.py: one task update,
    with the given list, then reads and reports only. *)
Lemma scheduled_main_update_run (cfg : config) (scheduled_ref : string)
  (nets : list string) (E : env) (h : list event) :
  exists r tail,
    snd (ScheduledDiscovery.main_update cfg scheduled_ref nets E h)
    = ELog INFO "Overwriting scheduled discovery '%s' with %d networks in view '%s'."
      :: EHttp (PUT_task scheduled_ref
                  {| mode := "ICMP";
                     network_view := SCHEDULED_DISCOVERY_NETWORK_VIEW cfg;
                     networks := nets; ping_retries := 5; ping_timeout := 1500 |})
           r
      :: tail
    /\ existsb is_put tail = false.
Proof.
  unfold ScheduledDiscovery.main_update.
  unfold ScheduledDiscovery.update_scheduled_discovery_task at 1.
  rewrite bind_run.
  erewrite bind_ret_eq by reflexivity.
  rewrite bind_run. unfold try_request. rewrite bind_run. unfold requests.
  destruct (http E _ _) as [c|].
  - erewrite bind_ret_eq by reflexivity.
    unfold prepend, ret. cbn [fst snd app negb]. cbv iota.
    do 2 eexists. split; [reflexivity|].
    cbn [existsb is_put orb].
    apply (no_put_existsb
             (' (st, _) <- ScheduledDiscovery.get_discovery_task_status scheduled_ref ;;
              if Py.truthy st then
                logging_info "Scheduled Discovery State: %s" ;;
                rich_print ("Scheduled Discovery State: " ++ str_of st)
              else
                logging_warning "Could not retrieve state/status for the scheduled task." ;;
                rich_print "Could not retrieve scheduled discovery status. Check discovery.log for details.")).
    apply all_bind; [apply scheduled_reads_no_put|].
    intros [st msg]. destruct (Py.truthy st); along_script; reflexivity.
  - erewrite bind_ret_eq by reflexivity.
    unfold prepend, ret. cbn [fst snd app negb]. cbv iota.
    do 2 eexists. split; reflexivity.
Qed.

Lemma all_existsb_false {A} (f : event -> bool) (m : M A) (E : env)
  (h : list event) :
  events_all (fun e => f e = false) m -> existsb f (snd (m E h)) = false.
Proof.
  intros Hall. specialize (Hall E h).
  induction Hall as [|e evs He _ IH]; simpl; auto. now rewrite He, IH.
Qed.

(** The update of scheduler.py and the state read after it. *)
Lemma scheduler_update_shape (task_ref : string) (nets : list string) (E : env)
  (h : list event) :
  exists r e,
    Scheduler.update_scheduled_discovery_task task_ref nets "ICMP" 5 1500 E h
    = (Ret tt,
       [ELog INFO "Overwriting scheduled discovery '%s' with %d networks.";
        EHttp (PUT_task task_ref (update_body "GLOBAL" nets)) r; e])
    /\ is_change e = false.
Proof.
  unfold Scheduler.update_scheduled_discovery_task.
  erewrite bind_ret_eq by reflexivity.
  rewrite bind_run. unfold try_request. rewrite bind_run. unfold requests.
  fold (update_body "GLOBAL" nets).
  destruct (http E _ _) as [c|]; do 2 eexists; split; reflexivity.
Qed.

(** C7, as amended.  In scheduled-discovery.py, when the scheduled task is
    found and the view-filtered list of discovery-enabled networks is empty:
    with a fallback network configured that resolves to a reference, exactly
    one task update is issued and its network list is that single reference;
    with no fallback configured, no update is issued, the run ends with the
    INFO record and the "update skipped" line, and the process finishes with
    status 0 and its closing line.  scheduler.py has neither the view filter
    nor the fallback: when its list of discovery-enabled networks is not
    empty it issues the update with the whole list, whatever views its
    references have; when the list is empty it issues no update, with an
    INFO record saying so; and it never looks the fallback network up. *)
Theorem C7_empty_selection_fallback_or_skip (cfg : config) (E : env)
  (h : list event) (sref : option string) (discovered : list string) :
  let view := SCHEDULED_DISCOVERY_NETWORK_VIEW cfg in
  let cidr := SCHEDULED_DISCOVERY_DEFAULT_NETWORK cfg in
  let g := ScheduledDiscovery.get_scheduled_discovery_ref E h in
  let d := ScheduledDiscovery.get_discovery_enabled_networks E (h ++ snd g) in
  let before := snd g ++ snd d ++ [empty_selection_log discovered] in
  let f := ScheduledDiscovery.get_network_ref cidr view E (h ++ before) in
  let run := ScheduledDiscovery.main cfg E h in
  (fst g = Ret sref -> Py.truthy sref = true ->
   fst d = Ret discovered -> filter_by_view discovered view = [] ->
   (forall fb,
      cidr <> "" -> fst f = Ret fb -> Py.truthy fb = true ->
      exists r tail,
        snd run
        = (before ++ snd f ++ [using_fallback_log; overwriting_log])
          ++ EHttp (PUT_task (str_of sref)
                      {| mode := "ICMP"; network_view := view;
                         networks := [str_of fb];
                         ping_retries := 5; ping_timeout := 1500 |}) r
             :: tail
        /\ existsb is_put (before ++ snd f ++ [using_fallback_log; overwriting_log])
           = false
        /\ existsb is_put tail = false)
   /\ (cidr = "" ->
       run = (Ret tt, before ++ [skipped_log; skipped_line])
       /\ existsb is_put (snd run) = false
       /\ run_script (ScheduledDiscovery.main cfg) E h
          = (Ret 0%Z, before ++ [skipped_log; skipped_line; finished_line])))
  /\ (let g' := Scheduler.get_scheduled_discovery_ref E h in
      let d' := Scheduler.get_discovery_enabled_networks E (h ++ snd g') in
      forall nets,
        fst g' = Ret sref -> Py.truthy sref = true -> fst d' = Ret nets ->
        (nets = [] ->
         existsb is_put (snd (Scheduler.main E h)) = false
         /\ In nothing_to_update_log (snd (Scheduler.main E h)))
        /\ (nets <> [] ->
            exists r,
              In (EHttp (PUT_task (str_of sref) (update_body "GLOBAL" nets)) r)
                 (snd (Scheduler.main E h)))
        /\ existsb is_network_lookup (snd (Scheduler.main E h)) = false).
Proof.
  intros view cidr g d before f run. split.
  - intros Hg Hsref Hd Hfilter.
    pose proof (surjective_pairing g) as Hgp. rewrite Hg in Hgp. unfold g in Hgp at 1.
    pose proof (surjective_pairing d) as Hdp. rewrite Hd in Hdp. unfold d in Hdp at 1.
    assert (Hg_put : existsb is_put (snd g) = false)
      by (apply no_put_existsb, scheduled_reads_no_put).
    assert (Hd_put : existsb is_put (snd d) = false)
      by (apply no_put_existsb, scheduled_reads_no_put).
    assert (Hbefore : existsb is_put before = false).
    { unfold before. rewrite !existsb_app, Hg_put, Hd_put.
      unfold empty_selection_log. destruct (nonempty discovered); reflexivity. }
    assert (Hrun : run = prepend before
                     ((if negb (String.eqb cidr "") then
                         fallback_ref <- ScheduledDiscovery.get_network_ref cidr view ;;
                         if Py.truthy fallback_ref then
                           logging_info "Using fallback network ref '%s' instead." ;;
                           ScheduledDiscovery.main_update cfg (str_of sref)
                             [str_of fallback_ref]
                         else
                           logging_error "Fallback network '%s' not found in view '%s'." ;;
                           rich_print "Fallback network not found; update skipped. Check discovery.log for details."
                       else
                         logging_info "No networks found and no fallback network specified. Nothing to update." ;;
                         rich_print "No networks found; no fallback specified; update skipped.")
                        E (h ++ before))).
    { unfold run, ScheduledDiscovery.main. cbv zeta. fold view. fold cidr.
      rewrite (bind_ret_eq _ _ _ _ _ _ Hgp). rewrite Hsref. cbn [negb]. cbv iota.
      rewrite (bind_ret_eq _ _ _ _ _ _ Hdp).
      rewrite Hfilter. cbn [nonempty].
      erewrite bind_ret_eq with (a := []) (e1 := [empty_selection_log discovered]).
      2:{ unfold empty_selection_log. destruct (nonempty discovered); reflexivity. }
      cbn [nonempty negb]. cbv iota.
      rewrite !prepend_app. rewrite <- !app_assoc. reflexivity. }
    split.
    + intros fb Hcidr Hf Hfb.
      pose proof (surjective_pairing f) as Hfp. rewrite Hf in Hfp. unfold f in Hfp at 1.
      apply String.eqb_neq in Hcidr.
      rewrite Hrun, Hcidr. cbn [negb]. cbv iota.
      rewrite (bind_ret_eq _ _ _ _ _ _ Hfp). rewrite Hfb.
      erewrite bind_ret_eq by reflexivity.
      rewrite !prepend_app.
      destruct (scheduled_main_update_run cfg (str_of sref) [str_of fb] E
                  (((h ++ before) ++ snd f)
                     ++ [ELog INFO "Using fallback network ref '%s' instead."]))
        as (r & tail & Hev & Htail).
      exists r, tail. unfold prepend. cbn [snd]. rewrite Hev.
      split; [|split; [|exact Htail]].
      * unfold using_fallback_log, overwriting_log, view.
        rewrite <- !app_assoc. reflexivity.
      * rewrite !existsb_app, Hbefore.
        replace (existsb is_put (snd f)) with false; [reflexivity|].
        symmetry. apply no_put_existsb, scheduled_reads_no_put.
    + intros Hcidr.
      assert (Heq : run = (Ret tt, before ++ [skipped_log; skipped_line])).
      { rewrite Hrun, Hcidr. reflexivity. }
      split; [exact Heq|]. split.
      * rewrite Heq. cbn [snd]. rewrite existsb_app, Hbefore. reflexivity.
      * unfold run_script. rewrite bind_run. fold run. rewrite Heq.
        unfold prepend, print, emit. cbn [fst snd].
        rewrite <- app_assoc. reflexivity.
  - intros g' d' nets Hg Hsref Hd.
    pose proof (surjective_pairing g') as Hgp. rewrite Hg in Hgp. unfold g' in Hgp at 1.
    pose proof (surjective_pairing d') as Hdp. rewrite Hd in Hdp. unfold d' in Hdp at 1.
    split; [|split].
    + intros ->. unfold Scheduler.main.
      rewrite (bind_ret_eq _ _ _ _ _ _ Hgp). rewrite Hsref. cbn [negb]. cbv iota zeta.
      rewrite (bind_ret_eq _ _ _ _ _ _ Hdp). cbn [nonempty].
      erewrite bind_ret_eq by reflexivity.
      unfold prepend. cbn [fst snd]. split.
      * rewrite !existsb_app.
        replace (existsb is_put (snd g')) with false.
        -- replace (existsb is_put (snd d')) with false.
           ++ cbn [existsb is_put orb].
              apply (no_put_existsb
                       (' (st, _) <- Scheduler.get_discovery_task_status (str_of sref) ;;
                        if Py.truthy st then logging_info "Scheduled Discovery State: %s"
                        else logging_warning "Could not retrieve state/status for the scheduled task.")).
              unfold Scheduler.get_discovery_task_status.
              along_script; intros; reflexivity.
           ++ symmetry. apply no_put_existsb.
              unfold Scheduler.get_discovery_enabled_networks.
              along_script; intros; reflexivity.
        -- symmetry. apply no_put_existsb.
           unfold Scheduler.get_scheduled_discovery_ref.
           along_script; intros; reflexivity.
      * apply in_or_app. right. apply in_or_app. right.
        apply in_or_app. left. left. reflexivity.
    + intros Hnets. unfold Scheduler.main.
      rewrite (bind_ret_eq _ _ _ _ _ _ Hgp). rewrite Hsref. cbn [negb]. cbv iota zeta.
      rewrite (bind_ret_eq _ _ _ _ _ _ Hdp).
      replace (nonempty nets) with true
        by (destruct nets; [contradiction | reflexivity]).
      rewrite bind_run.
      match goal with
      | |- context [Scheduler.update_scheduled_discovery_task ?t ?n "ICMP" 5 1500 E ?h'] =>
          destruct (scheduler_update_shape t n E h') as (r & e & Heq & _)
      end.
      rewrite Heq. exists r. unfold prepend. cbn [fst snd].
      apply in_or_app. right. apply in_or_app. right.
      apply in_or_app. left. right. left. reflexivity.
    + apply all_existsb_false.
      unfold Scheduler.main, Scheduler.update_scheduled_discovery_task,
        Scheduler.get_discovery_task_status,
        Scheduler.get_discovery_enabled_networks,
        Scheduler.get_scheduled_discovery_ref.
      along_script; intros; reflexivity.
Qed.

(** * Further properties of the scripts *)

(** ** The two inventory reads *)

Lemma first_current_run (E : env) (h : list event) :
  forall tasks,
    CurrentDiscovery.first_current tasks E h =
    match find (tagged "current") tasks with
    | None => (Ret None, [ELog WARNING "No current discovery task found."])
    | Some task =>
        match _ref task with
        | Some ref => (Ret (Some ref), [ELog INFO "Found current discovery task ref: %s"])
        | None => (Raise (KeyError "_ref"), [])
        end
    end.
Proof.
  induction tasks as [|task rest IH]; cbn [CurrentDiscovery.first_current find].
  - reflexivity.
  - unfold tagged at 1. destruct (opt_eqb _ _); [|exact IH].
    unfold getitem_ref. destruct (_ref task); reflexivity.
Qed.

Lemma scheduled_first_scheduled_run (E : env) (h : list event) :
  forall tasks,
    ScheduledDiscovery.first_scheduled tasks E h =
    match find (tagged "scheduled") tasks with
    | None => (Ret None, [ELog WARNING "No scheduled discovery task found."])
    | Some task =>
        match _ref task with
        | Some ref =>
            (Ret (Some ref), [ELog INFO "Found scheduled discovery task ref: %s"])
        | None => (Raise (KeyError "_ref"), [])
        end
    end.
Proof.
  induction tasks as [|task rest IH]; cbn [ScheduledDiscovery.first_scheduled find].
  - reflexivity.
  - unfold tagged at 1. destruct (opt_eqb _ _); [|exact IH].
    unfold getitem_ref. destruct (_ref task); reflexivity.
Qed.

Lemma scheduler_first_scheduled_run (E : env) (h : list event) :
  forall tasks,
    Scheduler.first_scheduled tasks E h =
    match find (tagged "scheduled") tasks with
    | None => (Ret None, [ELog WARNING "No scheduled discovery task found."])
    | Some task =>
        match _ref task with
        | Some ref =>
            (Ret (Some ref), [ELog INFO "Found scheduled discovery task ref: %s"])
        | None => (Raise (KeyError "_ref"), [])
        end
    end.
Proof.
  induction tasks as [|task rest IH]; cbn [Scheduler.first_scheduled find].
  - reflexivity.
  - unfold tagged at 1. destruct (opt_eqb _ _); [|exact IH].
    unfold getitem_ref. destruct (_ref task); reflexivity.
Qed.

Lemma current_lookup_run (E : env) (h : list event) :
  CurrentDiscovery.get_current_discovery_ref E h
  = lookup_run "current" "Found current discovery task ref: %s"
      "No current discovery task found." (http E h GET_discoverytask).
Proof.
  unfold CurrentDiscovery.get_current_discovery_ref, lookup_run.
  rewrite bind_run. unfold try_request, requests.
  destruct (http E h GET_discoverytask) as [data|]; [|reflexivity].
  rewrite first_current_run. unfold prepend.
  destruct (find _ _) as [t|]; [destruct (_ref t)|]; reflexivity.
Qed.

Lemma scheduled_lookup_run (E : env) (h : list event) :
  ScheduledDiscovery.get_scheduled_discovery_ref E h
  = lookup_run "scheduled" "Found scheduled discovery task ref: %s"
      "No scheduled discovery task found." (http E h GET_discoverytask).
Proof.
  unfold ScheduledDiscovery.get_scheduled_discovery_ref, lookup_run.
  rewrite bind_run. unfold try_request, requests.
  destruct (http E h GET_discoverytask) as [data|]; [|reflexivity].
  rewrite scheduled_first_scheduled_run. unfold prepend.
  destruct (find _ _) as [t|]; [destruct (_ref t)|]; reflexivity.
Qed.

Lemma scheduler_lookup_run (E : env) (h : list event) :
  Scheduler.get_scheduled_discovery_ref E h
  = lookup_run "scheduled" "Found scheduled discovery task ref: %s"
      "No scheduled discovery task found." (http E h GET_discoverytask).
Proof.
  unfold Scheduler.get_scheduled_discovery_ref, lookup_run.
  rewrite bind_run. unfold try_request, requests.
  destruct (http E h GET_discoverytask) as [data|]; [|reflexivity].
  rewrite scheduler_first_scheduled_run. unfold prepend.
  destruct (find _ _) as [t|]; [destruct (_ref t)|]; reflexivity.
Qed.

(** X1.  In each script the lookup of the task reference issues one request
    and is decided by the first task of the answer that carries the tag: its
    reference is returned; when it has no [_ref] key a KeyError is raised,
    whatever tasks follow; with no tagged task, or no answer, the result is
    None, with a WARNING or an ERROR record. *)
Theorem X1_task_lookup_first_match (E : env) (h : list event) :
  CurrentDiscovery.get_current_discovery_ref E h
  = lookup_run "current" "Found current discovery task ref: %s"
      "No current discovery task found." (http E h GET_discoverytask)
  /\ ScheduledDiscovery.get_scheduled_discovery_ref E h
     = lookup_run "scheduled" "Found scheduled discovery task ref: %s"
         "No scheduled discovery task found." (http E h GET_discoverytask)
  /\ Scheduler.get_scheduled_discovery_ref E h
     = lookup_run "scheduled" "Found scheduled discovery task ref: %s"
         "No scheduled discovery task found." (http E h GET_discoverytask).
Proof.
  split; [apply current_lookup_run|].
  split; [apply scheduled_lookup_run | apply scheduler_lookup_run].
Qed.

Lemma flagged_refs_cons (o : wapi_object) (objs : list wapi_object) :
  flagged_refs (o :: objs)
  = if flagged o then str_of (_ref o) :: flagged_refs objs else flagged_refs objs.
Proof. unfold flagged_refs. simpl. destruct (flagged o); reflexivity. Qed.

Lemma current_collect_enabled_run (E : env) :
  forall nets found h,
    CurrentDiscovery.collect_enabled nets found E h =
    if forallb (fun o => negb (flagged o) || has_ref o) nets
    then (Ret (found ++ flagged_refs nets), [])
    else (Raise (KeyError "_ref"), []).
Proof.
  induction nets as [|net rest IH]; intros found h;
    cbn [CurrentDiscovery.collect_enabled forallb].
  - unfold flagged_refs. simpl. now rewrite app_nil_r.
  - rewrite flagged_refs_cons. unfold flagged at 1 3, has_ref.
    destruct (opt_eqb (network_discovery net) "True"); cbn [negb orb andb].
    + unfold getitem_ref. destruct (_ref net) as [r|]; cbn [andb str_of].
      * erewrite bind_ret_eq by reflexivity. rewrite IH.
        destruct (forallb _ rest); unfold prepend; cbn [fst snd app];
          rewrite <- ?app_assoc; reflexivity.
      * reflexivity.
    + apply IH.
Qed.

Lemma scheduled_collect_enabled_run (E : env) :
  forall nets found h,
    ScheduledDiscovery.collect_enabled nets found E h =
    if forallb (fun o => negb (flagged o) || has_ref o) nets
    then (Ret (found ++ flagged_refs nets), [])
    else (Raise (KeyError "_ref"), []).
Proof.
  induction nets as [|net rest IH]; intros found h;
    cbn [ScheduledDiscovery.collect_enabled forallb].
  - unfold flagged_refs. simpl. now rewrite app_nil_r.
  - rewrite flagged_refs_cons. unfold flagged at 1 3, has_ref.
    destruct (opt_eqb (network_discovery net) "True"); cbn [negb orb andb].
    + unfold getitem_ref. destruct (_ref net) as [r|]; cbn [andb str_of].
      * erewrite bind_ret_eq by reflexivity. rewrite IH.
        destruct (forallb _ rest); unfold prepend; cbn [fst snd app];
          rewrite <- ?app_assoc; reflexivity.
      * reflexivity.
    + apply IH.
Qed.

Lemma scheduler_collect_enabled_run (E : env) :
  forall nets found h,
    Scheduler.collect_enabled nets found E h =
    if forallb (fun o => negb (flagged o) || has_ref o) nets
    then (Ret (found ++ flagged_refs nets), [])
    else (Raise (KeyError "_ref"), []).
Proof.
  induction nets as [|net rest IH]; intros found h;
    cbn [Scheduler.collect_enabled forallb].
  - unfold flagged_refs. simpl. now rewrite app_nil_r.
  - rewrite flagged_refs_cons. unfold flagged at 1 3, has_ref.
    destruct (opt_eqb (network_discovery net) "True"); cbn [negb orb andb].
    + unfold getitem_ref. destruct (_ref net) as [r|]; cbn [andb str_of].
      * erewrite bind_ret_eq by reflexivity. rewrite IH.
        destruct (forallb _ rest); unfold prepend; cbn [fst snd app];
          rewrite <- ?app_assoc; reflexivity.
      * reflexivity.
    + apply IH.
Qed.

Lemma current_enabled_run (E : env) (h : list event) :
  CurrentDiscovery.get_discovery_enabled_networks E h
  = enabled_run (http E h GET_network_extattrs).
Proof.
  unfold CurrentDiscovery.get_discovery_enabled_networks, enabled_run.
  rewrite bind_run. unfold try_request, requests.
  destruct (http E h GET_network_extattrs) as [data|]; [|reflexivity].
  rewrite bind_run, current_collect_enabled_run.
  destruct (forallb _ (result data)); reflexivity.
Qed.

Lemma scheduled_enabled_run (E : env) (h : list event) :
  ScheduledDiscovery.get_discovery_enabled_networks E h
  = enabled_run (http E h GET_network_extattrs).
Proof.
  unfold ScheduledDiscovery.get_discovery_enabled_networks, enabled_run.
  rewrite bind_run. unfold try_request, requests.
  destruct (http E h GET_network_extattrs) as [data|]; [|reflexivity].
  rewrite bind_run, scheduled_collect_enabled_run.
  destruct (forallb _ (result data)); reflexivity.
Qed.

Lemma scheduler_enabled_run (E : env) (h : list event) :
  Scheduler.get_discovery_enabled_networks E h
  = enabled_run (http E h GET_network_extattrs).
Proof.
  unfold Scheduler.get_discovery_enabled_networks, enabled_run.
  rewrite bind_run. unfold try_request, requests.
  destruct (http E h GET_network_extattrs) as [data|]; [|reflexivity].
  rewrite bind_run, scheduler_collect_enabled_run.
  destruct (forallb _ (result data)); reflexivity.
Qed.

(** X2.  In each script the retrieval of the discovery-enabled networks
    issues one request and returns the references of the objects whose
    Network_Discovery value is exactly "True", in the order of the answer and
    with repetitions kept; when one flagged object has no [_ref] key a
    KeyError is raised and nothing is returned; with no answer the result is
    the empty list, with an ERROR record. *)
Theorem X2_enabled_networks_in_answer_order (E : env) (h : list event) :
  CurrentDiscovery.get_discovery_enabled_networks E h
  = enabled_run (http E h GET_network_extattrs)
  /\ ScheduledDiscovery.get_discovery_enabled_networks E h
     = enabled_run (http E h GET_network_extattrs)
  /\ Scheduler.get_discovery_enabled_networks E h
     = enabled_run (http E h GET_network_extattrs).
Proof.
  split; [apply current_enabled_run|].
  split; [apply scheduled_enabled_run | apply scheduler_enabled_run].
Qed.

(** ** Traces of whole runs *)

Lemma trace_ok_bind {A B} (T : list event -> Prop) (m : M A) (k : A -> M B) :
  read_prefix_closed T ->
  events_all (fun e => is_change e = false) m ->
  (forall a, trace_ok T (k a)) ->
  trace_ok T (bind m k).
Proof.
  intros [Hnil Hpre] Hm Hk E h. rewrite bind_run. specialize (Hm E h).
  destruct (m E h) as [[a|x|] e1]; cbn [snd] in *.
  - unfold prepend. cbn [snd]. apply Hpre; [exact Hm | apply Hk].
  - rewrite <- (app_nil_r e1). now apply Hpre.
  - rewrite <- (app_nil_r e1). now apply Hpre.
Qed.

Lemma trace_ok_bind_ret {A B} (T : list event -> Prop) (a : A) (k : A -> M B) :
  trace_ok T (k a) -> trace_ok T (bind (ret a) k).
Proof.
  intros Hk E h. rewrite bind_run. unfold ret, prepend. cbn [fst snd app].
  apply Hk.
Qed.

Lemma trace_ok_reads {A} (T : list event -> Prop) (m : M A) :
  read_prefix_closed T ->
  events_all (fun e => is_change e = false) m ->
  trace_ok T m.
Proof.
  intros [Hnil Hpre] Hm E h. rewrite <- (app_nil_r (snd (m E h))).
  apply Hpre; [apply Hm | exact Hnil].
Qed.

Lemma count_puts_app (e1 e2 : list event) :
  count_puts (e1 ++ e2) = count_puts e1 + count_puts e2.
Proof. unfold count_puts. now rewrite filter_app, length_app. Qed.

Lemma count_puts_none (evs : list event) :
  existsb is_put evs = false -> count_puts evs = 0.
Proof.
  unfold count_puts. induction evs as [|e evs IH]; simpl; auto.
  intros H. apply orb_false_iff in H as [He Hevs]. rewrite He. auto.
Qed.

Lemma no_change_no_put (evs : list event) :
  Forall (fun e => is_change e = false) evs -> existsb is_put evs = false.
Proof.
  induction 1 as [|e evs He _ IH]; simpl; auto. rewrite IH, orb_false_r.
  destruct e as [[] ?| | | | |]; simpl in *; auto; discriminate.
Qed.

Lemma one_update_closed : read_prefix_closed one_update.
Proof.
  split.
  - unfold one_update, count_puts. simpl. lia.
  - intros pre evs Hpre Hevs. unfold one_update in *.
    rewrite count_puts_app, (count_puts_none pre); [exact Hevs|].
    now apply no_change_no_put.
Qed.

Lemma no_change_not_post (pre : list event) (e : event) :
  Forall (fun e => is_change e = false) pre -> In e pre -> is_post e = false.
Proof.
  intros Hall Hin. rewrite Forall_forall in Hall. specialize (Hall e Hin).
  destruct e as [[] ?| | | | |]; simpl in *; auto.
Qed.

(** Splitting a list at an element of a concatenation. *)
Lemma app_eq_app_cons {A} (l1 l2 pre post : list A) (e : A) :
  l1 ++ l2 = pre ++ e :: post ->
  In e l1 \/ exists pre', pre = l1 ++ pre' /\ l2 = pre' ++ e :: post.
Proof.
  revert pre. induction l1 as [|x l1 IH]; intros pre Heq; simpl in *.
  - right. exists pre. auto.
  - destruct pre as [|y pre]; simpl in Heq.
    + injection Heq as -> _. auto.
    + injection Heq as -> Heq. destruct (IH pre Heq) as [Hin|(pre' & -> & ->)].
      * auto.
      * right. exists pre'. auto.
Qed.

Lemma control_after_update_closed : read_prefix_closed control_after_update.
Proof.
  split.
  - intros pre e post Heq. destruct pre; discriminate.
  - intros pre0 evs Hpre Hevs pre e post Heq He.
    apply app_eq_app_cons in Heq as [Hin|(pre' & -> & Heq)].
    + apply (no_change_not_post _ _ Hpre) in Hin. congruence.
    + destruct (Hevs pre' e post Heq He) as (r & body & c & Hin).
      exists r, body, c. apply in_or_app. now right.
Qed.

(** The events of the cycle: the task update first, and no other one. *)
Lemma main_cycle_shape (fuel : nat) (view task_ref : string)
  (nets : list string) (E : env) (h : list event) :
  exists r rest,
    snd (CurrentDiscovery.main_cycle fuel view task_ref nets E h)
    = updating_log :: EHttp (PUT_task task_ref (update_body view nets)) r :: rest
    /\ match r with
       | Some _ => existsb is_put rest = false
       | None =>
           rest = [ELog ERROR "Error updating current discovery with new networks: %s";
                   update_failed_line]
       end.
Proof.
  unfold CurrentDiscovery.main_cycle. rewrite bind_run, update_run. cbv zeta.
  fold (update_body view nets). fold updating_log.
  destruct (http E _ _) as [c|].
  - unfold prepend. cbn [fst snd app negb]. cbv iota.
    do 2 eexists. split; [reflexivity|].
    cbn [existsb is_put orb].
    apply (no_put_existsb
             (started <- CurrentDiscovery.start_current_discovery_task fuel task_ref ;;
              (if started then print "Current discovery started successfully."
               else print "An error occurred while starting current discovery. Please check discovery.log.") ;;
              CurrentDiscovery.report_final_state task_ref)).
    apply all_bind; [apply start_events; reflexivity|]. intros started.
    apply all_bind; [destruct started; now apply all_emit|]. intros _.
    unfold CurrentDiscovery.report_final_state.
    apply all_bind; [apply get_current_discovery_status_events; reflexivity|].
    intros [st msg]. destruct (Py.truthy st); along_script; reflexivity.
  - unfold prepend, print, emit. cbn [fst snd app negb]. cbv iota.
    do 2 eexists. split; reflexivity.
Qed.

Lemma main_cycle_one_update (fuel : nat) (view task_ref : string)
  (nets : list string) :
  trace_ok one_update (CurrentDiscovery.main_cycle fuel view task_ref nets).
Proof.
  intros E h.
  destruct (main_cycle_shape fuel view task_ref nets E h) as (r & rest & -> & Hrest).
  unfold one_update.
  change (updating_log :: EHttp (PUT_task task_ref (update_body view nets)) r :: rest)
    with ([updating_log; EHttp (PUT_task task_ref (update_body view nets)) r] ++ rest).
  rewrite count_puts_app. rewrite (count_puts_none rest).
  - unfold count_puts. simpl. lia.
  - destruct r; [exact Hrest | subst rest; reflexivity].
Qed.

Lemma main_cycle_control_after_update (fuel : nat) (view task_ref : string)
  (nets : list string) :
  trace_ok control_after_update
    (CurrentDiscovery.main_cycle fuel view task_ref nets).
Proof.
  intros E h pre e post Heq He.
  destruct (main_cycle_shape fuel view task_ref nets E h) as (r & rest & Hev & Hrest).
  rewrite Hev in Heq.
  destruct pre as [|e1 pre]; [injection Heq as <- _; discriminate|].
  injection Heq as <- Heq.
  destruct pre as [|e2 pre]; [injection Heq as <- _; discriminate|].
  injection Heq as <- Heq.
  destruct r as [c|].
  - exists task_ref, (update_body view nets), c. right. now left.
  - rewrite Hrest in Heq. exfalso.
    destruct pre as [|e3 pre]; [injection Heq as <- _; discriminate|].
    injection Heq as _ Heq.
    destruct pre as [|e4 pre]; [injection Heq as <- _; discriminate|].
    injection Heq as _ Heq. destruct pre; discriminate.
Qed.

(** A property of traces that the cycle has and that reads in front keep is
    a property of every run of [main]. *)
Lemma current_main_trace (T : list event -> Prop) (fuel : nat)
  (a : CurrentDiscovery.args) :
  read_prefix_closed T ->
  (forall view task_ref nets,
     trace_ok T (CurrentDiscovery.main_cycle fuel view task_ref nets)) ->
  trace_ok T (CurrentDiscovery.main fuel a).
Proof.
  intros Hclosed Hcycle.
  unfold CurrentDiscovery.main, CurrentDiscovery.main_update,
    CurrentDiscovery.prompt_overwrite,
    CurrentDiscovery.get_discovery_enabled_networks,
    CurrentDiscovery.get_current_discovery_status,
    CurrentDiscovery.get_current_discovery_ref.
  cbv zeta.
  repeat match goal with
  | |- trace_ok _ (CurrentDiscovery.main_cycle _ _ _ _) => apply Hcycle
  | |- trace_ok _ (bind _ _) =>
      apply (trace_ok_bind _ _ _ Hclosed);
        [solve [along_script; intros; reflexivity] | intros ?]
  | |- trace_ok _ (print _) =>
      apply (trace_ok_reads _ _ Hclosed); along_script; reflexivity
  | |- trace_ok _ (rich_print _) =>
      apply (trace_ok_reads _ _ Hclosed); along_script; reflexivity
  | |- trace_ok _ (if ?b then _ else _) => destruct b
  | |- trace_ok _ (match ?x with _ => _ end) => destruct x
  end.
Qed.

(** X7.  In every run of current-discovery.py at most one task update is
    issued, and every END and START comes after a task update that was
    answered: the script never stops or starts the task without having
    rewritten it first. *)
Theorem X7_one_update_then_control (fuel : nat) (a : CurrentDiscovery.args)
  (E : env) (h : list event) :
  count_puts (snd (CurrentDiscovery.main fuel a E h)) <= 1
  /\ control_after_update (snd (CurrentDiscovery.main fuel a E h)).
Proof.
  split.
  - apply (current_main_trace one_update fuel a one_update_closed).
    intros. apply main_cycle_one_update.
  - apply (current_main_trace control_after_update fuel a
             control_after_update_closed).
    intros. apply main_cycle_control_after_update.
Qed.

(** ** The force flag *)

(** X6.  With the force flag, current-discovery.py never reads the console:
    no run contains a prompt, whatever the state of the task. *)
Theorem X6_force_never_prompts (fuel : nat) (a : CurrentDiscovery.args)
  (E : env) (h : list event) :
  CurrentDiscovery.args_force a = true ->
  existsb is_input (snd (CurrentDiscovery.main fuel a E h)) = false.
Proof.
  intros Hforce.
  assert (Hall : events_all (fun e => is_input e = false)
                   (CurrentDiscovery.main fuel a)).
  { unfold CurrentDiscovery.main.
    apply all_bind; [now apply all_emit|]. intros _.
    apply all_bind_ret. cbv zeta. rewrite Hforce.
    unfold CurrentDiscovery.prompt_overwrite.
    unfold CurrentDiscovery.main_update,
      CurrentDiscovery.main_cycle, CurrentDiscovery.report_final_state,
      CurrentDiscovery.start_current_discovery_task, CurrentDiscovery.issue_start,
      CurrentDiscovery.wait_for_discovery_to_stop,
      CurrentDiscovery.stop_current_discovery_task,
      CurrentDiscovery.update_current_discovery_task,
      CurrentDiscovery.get_discovery_enabled_networks,
      CurrentDiscovery.get_current_discovery_status,
      CurrentDiscovery.get_current_discovery_ref.
    along_script; intros; reflexivity. }
  specialize (Hall E h).
  induction Hall as [|e evs He _ IH]; simpl; auto. now rewrite He, IH.
Qed.

(** ** The scheduled scripts *)

Lemma scheduled_main_no_post (cfg : config) :
  events_all (fun e => is_post e = false) (ScheduledDiscovery.main cfg).
Proof.
  unfold ScheduledDiscovery.main, ScheduledDiscovery.main_update,
    ScheduledDiscovery.update_scheduled_discovery_task,
    ScheduledDiscovery.get_discovery_task_status,
    ScheduledDiscovery.get_network_ref,
    ScheduledDiscovery.get_discovery_enabled_networks,
    ScheduledDiscovery.get_scheduled_discovery_ref.
  along_script; intros; reflexivity.
Qed.

Lemma scheduler_main_no_post :
  events_all (fun e => is_post e = false) Scheduler.main.
Proof.
  unfold Scheduler.main, Scheduler.update_scheduled_discovery_task,
    Scheduler.get_discovery_task_status,
    Scheduler.get_discovery_enabled_networks,
    Scheduler.get_scheduled_discovery_ref.
  along_script; intros; reflexivity.
Qed.

Lemma scheduled_main_update_one_update (cfg : config) (scheduled_ref : string)
  (nets : list string) :
  trace_ok one_update (ScheduledDiscovery.main_update cfg scheduled_ref nets).
Proof.
  intros E h.
  destruct (scheduled_main_update_run cfg scheduled_ref nets E h)
    as (r & tail & -> & Htail).
  unfold one_update.
  match goal with
  | |- count_puts (?l :: ?p :: tail) <= 1 =>
      change (l :: p :: tail) with ([l; p] ++ tail)
  end.
  rewrite count_puts_app, (count_puts_none tail Htail).
  unfold count_puts. simpl. lia.
Qed.

Lemma scheduled_main_one_update (cfg : config) :
  trace_ok one_update (ScheduledDiscovery.main cfg).
Proof.
  unfold ScheduledDiscovery.main,
    ScheduledDiscovery.get_network_ref,
    ScheduledDiscovery.get_discovery_enabled_networks,
    ScheduledDiscovery.get_scheduled_discovery_ref.
  cbv zeta.
  repeat match goal with
  | |- trace_ok _ (ScheduledDiscovery.main_update _ _ _) =>
      apply scheduled_main_update_one_update
  | |- trace_ok _ (bind _ _) =>
      apply (trace_ok_bind _ _ _ one_update_closed);
        [solve [along_script; intros; reflexivity] | intros ?]
  | |- trace_ok _ (print _) =>
      apply (trace_ok_reads _ _ one_update_closed); along_script; reflexivity
  | |- trace_ok _ (rich_print _) =>
      apply (trace_ok_reads _ _ one_update_closed); along_script; reflexivity
  | |- trace_ok _ (if ?b then _ else _) => destruct b
  | |- trace_ok _ (match ?x with _ => _ end) => destruct x
  end.
Qed.

Lemma scheduler_main_one_update : trace_ok one_update Scheduler.main.
Proof.
  unfold Scheduler.main.
  apply (trace_ok_bind _ _ _ one_update_closed).
  { unfold Scheduler.get_scheduled_discovery_ref. along_script; intros; reflexivity. }
  intros sref. destruct (negb (Py.truthy sref)).
  { apply (trace_ok_reads _ _ one_update_closed). along_script; reflexivity. }
  cbv zeta.
  apply (trace_ok_bind _ _ _ one_update_closed).
  { unfold Scheduler.get_discovery_enabled_networks.
    along_script; intros; reflexivity. }
  intros nets E h. rewrite bind_run.
  assert (Hstatus : forall h',
             count_puts
               (snd ((' (st, _) <- Scheduler.get_discovery_task_status (str_of sref) ;;
                      if Py.truthy st then logging_info "Scheduled Discovery State: %s"
                      else logging_warning "Could not retrieve state/status for the scheduled task.")
                       E h')) = 0).
  { intros h'. apply count_puts_none, all_existsb_false.
    unfold Scheduler.get_discovery_task_status. along_script; intros; reflexivity. }
  unfold one_update.
  destruct (nonempty nets).
  - destruct (scheduler_update_shape (str_of sref) nets E h) as (r & e & -> & He).
    unfold prepend. cbn [snd]. rewrite count_puts_app, Hstatus.
    unfold count_puts. simpl.
    destruct e as [[] ?| | | | |]; simpl in *; try discriminate; lia.
  - unfold logging_info, emit, prepend. cbn [snd].
    rewrite count_puts_app, Hstatus. unfold count_puts. simpl. lia.
Qed.

(** X9.  The two scheduled scripts only rewrite the task: no run of
    scheduled-discovery.py or of scheduler.py issues an END or a START, and
    every run issues at most one task update. *)
Theorem X9_scheduled_scripts_never_control (cfg : config) (E : env)
  (h : list event) :
  (existsb is_post (snd (ScheduledDiscovery.main cfg E h)) = false
   /\ count_puts (snd (ScheduledDiscovery.main cfg E h)) <= 1)
  /\ (existsb is_post (snd (Scheduler.main E h)) = false
      /\ count_puts (snd (Scheduler.main E h)) <= 1).
Proof.
  split; split.
  - apply all_existsb_false, scheduled_main_no_post.
  - apply scheduled_main_one_update.
  - apply all_existsb_false, scheduler_main_no_post.
  - apply scheduler_main_one_update.
Qed.

(** ** Where the body of a task update comes from *)

Lemma no_change_not_put_event (pre : list event) (task_ref : string)
  (body : payload) (r : option reply) :
  Forall (fun e => is_change e = false) pre ->
  ~ In (EHttp (PUT_task task_ref body) r) pre.
Proof.
  intros Hall Hin. rewrite Forall_forall in Hall. now apply Hall in Hin.
Qed.

Lemma no_put_not_in (evs : list event) (task_ref : string) (body : payload)
  (r : option reply) :
  existsb is_put evs = false -> ~ In (EHttp (PUT_task task_ref body) r) evs.
Proof.
  intros Hnone Hin.
  assert (Hex : existsb is_put evs = true).
  { apply existsb_exists. eexists. split; [exact Hin | reflexivity]. }
  congruence.
Qed.

Lemma update_from_inventory_closed (view : string) :
  read_prefix_closed (update_from_inventory view).
Proof.
  split.
  - intros task_ref body r [].
  - intros pre evs Hpre Hevs task_ref body r Hin.
    apply in_app_or in Hin as [Hin|Hin].
    + now apply no_change_not_put_event in Hin.
    + destruct (Hevs _ _ _ Hin) as (data & Hget & Hbody).
      exists data. split; [apply in_or_app; now right | exact Hbody].
Qed.

Lemma enabled_run_ret (r : option reply) (discovered : list string)
  (ed : list event) :
  enabled_run r = (Ret discovered, ed) ->
  Forall (fun e => is_change e = false) ed
  /\ (discovered = []
      \/ exists data,
           In (EHttp GET_network_extattrs (Some data)) ed
           /\ discovered = flagged_refs (result data)).
Proof.
  unfold enabled_run. destruct r as [data|].
  - destruct (forallb _ _); [|discriminate].
    intros [= <- <-]. split; [repeat constructor|].
    right. exists data. split; [now left | reflexivity].
  - intros [= <- <-]. split; [repeat constructor | now left].
Qed.

Lemma nonempty_not_nil {A} (l : list A) : nonempty l = true -> l <> [].
Proof. destruct l; [discriminate | discriminate]. Qed.

Lemma current_main_update_run (fuel : nat) (view task_ref : string) (E : env)
  (h : list event) :
  CurrentDiscovery.main_update fuel view task_ref E h =
  match enabled_run (http E h GET_network_extattrs) with
  | (Ret discovered, ed) =>
      prepend (ed ++ [current_selection_log discovered view])
        (if nonempty (filter_by_view discovered view) then
           CurrentDiscovery.main_cycle fuel view task_ref
             (filter_by_view discovered view) E
             (h ++ ed ++ [current_selection_log discovered view])
         else (Ret tt, [current_skipped_line view]))
  | (Raise x, ed) => (Raise x, ed)
  | (OutOfFuel, ed) => (OutOfFuel, ed)
  end.
Proof.
  unfold CurrentDiscovery.main_update.
  rewrite bind_run, current_enabled_run.
  destruct (enabled_run _) as [[discovered|x|] ed]; try reflexivity.
  unfold current_selection_log.
  destruct discovered as [|d ds].
  - cbn [nonempty]. erewrite bind_ret_eq by reflexivity.
    cbn [nonempty negb filter_by_view filter]. cbv iota.
    rewrite prepend_app, <- !app_assoc. reflexivity.
  - cbn [nonempty]. cbv zeta.
    destruct (nonempty (filter_by_view (d :: ds) view)) eqn:Hne.
    + erewrite bind_ret_eq by reflexivity. rewrite Hne. cbn [negb]. cbv iota.
      rewrite prepend_app, <- !app_assoc. reflexivity.
    + erewrite bind_ret_eq by reflexivity. cbn [nonempty negb]. cbv iota.
      rewrite prepend_app, <- !app_assoc. reflexivity.
Qed.

Lemma current_main_update_from_inventory (fuel : nat) (view task_ref : string) :
  trace_ok (update_from_inventory view)
    (CurrentDiscovery.main_update fuel view task_ref).
Proof.
  intros E h ref body r Hin.
  rewrite current_main_update_run in Hin |- *.
  destruct (enabled_run _) as [[discovered|x|] ed] eqn:Hrun.
  - apply enabled_run_ret in Hrun as [Hed Hdisc].
    unfold prepend in Hin |- *. cbn [snd] in Hin |- *.
    destruct (nonempty (filter_by_view discovered view)) eqn:Hne.
    + destruct (main_cycle_shape fuel view task_ref
                  (filter_by_view discovered view) E
                  (h ++ ed ++ [current_selection_log discovered view]))
        as (r' & rest & Hev & Hrest).
      rewrite Hev in Hin |- *.
      apply in_app_or in Hin as [Hin|Hin].
      { apply in_app_or in Hin as [Hin|[Hin|[]]].
        - now apply no_change_not_put_event in Hin.
        - unfold current_selection_log in Hin.
          destruct (nonempty discovered); [destruct (nonempty _)|]; discriminate. }
      destruct Hin as [Hin|[Hin|Hin]]; [discriminate| |].
      * injection Hin as <- <- <-.
        destruct Hdisc as [->|(data & Hget & ->)]; [discriminate|].
        exists data. split; [|split].
        -- apply in_or_app. left. apply in_or_app. now left.
        -- reflexivity.
        -- now apply nonempty_not_nil.
      * exfalso. revert Hin. apply no_put_not_in.
        destruct r'; [exact Hrest | subst rest; reflexivity].
    + cbn [snd] in Hin. apply in_app_or in Hin as [Hin|[Hin|[]]].
      * apply in_app_or in Hin as [Hin|[Hin|[]]].
        -- now apply no_change_not_put_event in Hin.
        -- unfold current_selection_log in Hin.
           destruct (nonempty discovered); [destruct (nonempty _)|]; discriminate.
      * discriminate.
  - cbn [snd] in Hin. exfalso. revert Hin. apply no_change_not_put_event.
    unfold enabled_run in Hrun. destruct (http E h GET_network_extattrs);
      [destruct (forallb _ _)|]; inversion Hrun; repeat constructor.
  - unfold enabled_run in Hrun. destruct (http E h GET_network_extattrs);
      [destruct (forallb _ _)|]; discriminate.
Qed.

Lemma current_main_trace_update (T : list event -> Prop) (fuel : nat)
  (a : CurrentDiscovery.args) :
  read_prefix_closed T ->
  (forall task_ref,
     trace_ok T (CurrentDiscovery.main_update fuel
                   (CurrentDiscovery.args_network_view a) task_ref)) ->
  trace_ok T (CurrentDiscovery.main fuel a).
Proof.
  intros Hclosed Hupdate.
  unfold CurrentDiscovery.main,
    CurrentDiscovery.prompt_overwrite,
    CurrentDiscovery.get_current_discovery_status,
    CurrentDiscovery.get_current_discovery_ref.
  cbv zeta.
  repeat match goal with
  | |- trace_ok _ (CurrentDiscovery.main_update _ _ _) => apply Hupdate
  | |- trace_ok _ (bind (CurrentDiscovery.parse_args (CurrentDiscovery.Args _)) _) =>
      apply trace_ok_bind_ret
  | |- trace_ok _ (bind _ _) =>
      apply (trace_ok_bind _ _ _ Hclosed);
        [solve [along_script; intros; reflexivity] | intros ?]
  | |- trace_ok _ (print _) =>
      apply (trace_ok_reads _ _ Hclosed); along_script; reflexivity
  | |- trace_ok _ (rich_print _) =>
      apply (trace_ok_reads _ _ Hclosed); along_script; reflexivity
  | |- trace_ok _ (if ?b then _ else _) => destruct b
  | |- trace_ok _ (match ?x with _ => _ end) => destruct x
  end.
Qed.

(** X3.  Whatever task update a run of current-discovery.py issues, its body
    is fully determined by the command line and the inventory read of that
    run: mode ICMP, the view of the command line, ping retries 5, ping
    timeout 1500, and as networks the references of the flagged objects of
    the answer that end with "/" and the view, in the order of the answer;
    this list is never empty. *)
Theorem X3_update_body_from_inventory (fuel : nat) (a : CurrentDiscovery.args)
  (E : env) (h : list event) (task_ref : string) (body : payload)
  (r : option reply) :
  In (EHttp (PUT_task task_ref body) r) (snd (CurrentDiscovery.main fuel a E h)) ->
  exists data,
    In (EHttp GET_network_extattrs (Some data))
       (snd (CurrentDiscovery.main fuel a E h))
    /\ body = update_body (CurrentDiscovery.args_network_view a)
                (filter_by_view (flagged_refs (result data))
                   (CurrentDiscovery.args_network_view a))
    /\ networks body <> [].
Proof.
  apply (current_main_trace_update
           (update_from_inventory (CurrentDiscovery.args_network_view a)) fuel a).
  - apply update_from_inventory_closed.
  - intros ref. apply current_main_update_from_inventory.
Qed.

(** X5.  current-discovery.py has no fallback: when the inventory read
    returns a list of which no reference ends with "/" and the view (an empty
    list after a failed read included), the rest of [main] issues no request
    at all, neither END nor update nor START, and ends with the line "No
    networks found matching view ... Update skipped." *)
Theorem X5_empty_selection_changes_nothing (fuel : nat)
  (view task_ref : string) (E : env) (h : list event)
  (discovered : list string) :
  fst (CurrentDiscovery.get_discovery_enabled_networks E h) = Ret discovered ->
  filter_by_view discovered view = [] ->
  CurrentDiscovery.main_update fuel view task_ref E h
  = (Ret tt,
     snd (CurrentDiscovery.get_discovery_enabled_networks E h)
       ++ [current_selection_log discovered view; current_skipped_line view])
  /\ existsb is_change (snd (CurrentDiscovery.main_update fuel view task_ref E h))
     = false.
Proof.
  intros Hd Hfilter.
  assert (Heq : CurrentDiscovery.main_update fuel view task_ref E h
                = (Ret tt,
                   snd (CurrentDiscovery.get_discovery_enabled_networks E h)
                     ++ [current_selection_log discovered view;
                         current_skipped_line view])).
  { rewrite current_main_update_run.
    rewrite current_enabled_run in Hd |- *.
    destruct (enabled_run _) as [[d|x|] ed]; cbn [fst snd] in Hd |- *;
      try discriminate.
    injection Hd as ->. rewrite Hfilter. cbn [nonempty].
    unfold prepend. cbn [fst snd]. now rewrite <- app_assoc. }
  split; [exact Heq|].
  rewrite Heq. cbn [snd]. rewrite existsb_app.
  replace (existsb is_change (snd (CurrentDiscovery.get_discovery_enabled_networks E h)))
    with false.
  - unfold current_selection_log.
    destruct (nonempty discovered); [destruct (nonempty _)|]; reflexivity.
  - symmetry. apply all_existsb_false.
    unfold CurrentDiscovery.get_discovery_enabled_networks.
    along_script; intros; reflexivity.
Qed.

(** ** The runs of scheduled-discovery.py *)

Lemma scheduled_network_ref_run (cidr view : string) (E : env) (h : list event) :
  ScheduledDiscovery.get_network_ref cidr view E h
  = network_ref_run cidr view (http E h (GET_network cidr view)).
Proof.
  unfold ScheduledDiscovery.get_network_ref, network_ref_run.
  rewrite bind_run. unfold try_request, requests.
  destruct (http E h _) as [data|]; [|reflexivity].
  destruct (result data); reflexivity.
Qed.

Lemma current_network_ref_run (cidr view : string) (E : env) (h : list event) :
  CurrentDiscovery.get_network_ref cidr view E h
  = network_ref_run cidr view (http E h (GET_network cidr view)).
Proof.
  unfold CurrentDiscovery.get_network_ref, network_ref_run.
  rewrite bind_run. unfold try_request, requests.
  destruct (http E h _) as [data|]; [|reflexivity].
  destruct (result data); reflexivity.
Qed.

Lemma scheduled_fallback_step_run (cfg : config) (scheduled_ref : string)
  (E : env) (h : list event) :
  let view := SCHEDULED_DISCOVERY_NETWORK_VIEW cfg in
  let cidr := SCHEDULED_DISCOVERY_DEFAULT_NETWORK cfg in
  scheduled_fallback_step cfg scheduled_ref E h =
  if String.eqb cidr "" then (Ret tt, [skipped_log; skipped_line])
  else
    let f := network_ref_run cidr view (http E h (GET_network cidr view)) in
    if Py.truthy (match fst f with Ret fb => fb | _ => None end) then
      prepend (snd f ++ [using_fallback_log])
        (ScheduledDiscovery.main_update cfg scheduled_ref
           [str_of (match fst f with Ret fb => fb | _ => None end)] E
           (h ++ snd f ++ [using_fallback_log]))
    else (Ret tt, snd f ++ [fallback_not_found_log; fallback_not_found_line]).
Proof.
  cbv zeta. unfold scheduled_fallback_step.
  destruct (String.eqb _ "") eqn:Hcidr; cbn [negb]; [reflexivity|].
  rewrite bind_run, scheduled_network_ref_run.
  unfold network_ref_run.
  destruct (http E h _) as [data|]; [destruct (result data) as [|first others]|];
    cbn [fst snd Py.truthy]; try reflexivity.
  destruct (Py.truthy (_ref first)).
  - erewrite bind_ret_eq by reflexivity.
    rewrite prepend_app, <- !app_assoc. reflexivity.
  - reflexivity.
Qed.

Lemma scheduled_main_run (cfg : config) (E : env) (h : list event) :
  let view := SCHEDULED_DISCOVERY_NETWORK_VIEW cfg in
  ScheduledDiscovery.main cfg E h =
  match lookup_run "scheduled" "Found scheduled discovery task ref: %s"
          "No scheduled discovery task found." (http E h GET_discoverytask) with
  | (Ret sref, eg) =>
      if Py.truthy sref then
        match enabled_run (http E (h ++ eg) GET_network_extattrs) with
        | (Ret discovered, ed) =>
            let before := eg ++ ed ++ [scheduled_selection_log discovered view] in
            prepend before
              (if nonempty (filter_by_view discovered view) then
                 ScheduledDiscovery.main_update cfg (str_of sref)
                   (filter_by_view discovered view) E (h ++ before)
               else scheduled_fallback_step cfg (str_of sref) E (h ++ before))
        | (Raise x, ed) => (Raise x, eg ++ ed)
        | (OutOfFuel, ed) => (OutOfFuel, eg ++ ed)
        end
      else
        (Ret tt,
         eg ++ [EPrint "Could not find 'scheduled' discovery reference. Check discovery.log for details."])
  | (Raise x, eg) => (Raise x, eg)
  | (OutOfFuel, eg) => (OutOfFuel, eg)
  end.
Proof.
  cbv zeta. unfold ScheduledDiscovery.main. cbv zeta.
  rewrite bind_run, scheduled_lookup_run.
  destruct (lookup_run _ _ _ _) as [[sref|x|] eg]; try reflexivity.
  destruct (Py.truthy sref); cbn [negb]; [|reflexivity].
  rewrite bind_run, scheduled_enabled_run.
  destruct (enabled_run _) as [[discovered|x|] ed]; try reflexivity.
  unfold scheduled_selection_log, scheduled_fallback_step.
  destruct discovered as [|d ds].
  - cbn [nonempty]. erewrite bind_ret_eq by reflexivity.
    cbn [nonempty negb filter_by_view filter]. cbv iota.
    rewrite !prepend_app, <- !app_assoc. reflexivity.
  - cbn [nonempty]. cbv zeta.
    destruct (nonempty (filter_by_view (d :: ds) _)) eqn:Hne.
    + erewrite bind_ret_eq by reflexivity. rewrite Hne. cbn [negb]. cbv iota.
      rewrite !prepend_app, <- !app_assoc. reflexivity.
    + erewrite bind_ret_eq by reflexivity. cbn [nonempty negb]. cbv iota.
      rewrite !prepend_app, <- !app_assoc. reflexivity.
Qed.

Lemma lookup_run_reads (oid found_fmt warning_fmt : string) (r : option reply) :
  Forall (fun e => is_change e = false)
    (snd (lookup_run oid found_fmt warning_fmt r)).
Proof.
  unfold lookup_run. destruct r as [data|]; [|repeat constructor].
  destruct (find _ _) as [t|]; [destruct (_ref t)|]; repeat constructor.
Qed.

Lemma enabled_run_reads (r : option reply) :
  Forall (fun e => is_change e = false) (snd (enabled_run r)).
Proof.
  unfold enabled_run. destruct r as [data|]; [|repeat constructor].
  destruct (forallb _ _); repeat constructor.
Qed.

Lemma network_ref_run_reads (cidr view : string) (r : option reply) :
  Forall (fun e => is_change e = false) (snd (network_ref_run cidr view r)).
Proof.
  unfold network_ref_run. destruct r as [data|]; [|repeat constructor].
  destruct (result data); repeat constructor.
Qed.

Lemma truthy_some (o : option string) :
  Py.truthy o = true -> exists s, o = Some s /\ s <> "".
Proof.
  destruct o as [s|]; [|discriminate]. cbn [Py.truthy].
  intros H. apply negb_true_iff, String.eqb_neq in H. eauto.
Qed.

Lemma scheduled_selection_log_reads (discovered : list string) (view : string) :
  is_change (scheduled_selection_log discovered view) = false.
Proof.
  unfold scheduled_selection_log.
  destruct (nonempty discovered); [destruct (nonempty _)|]; reflexivity.
Qed.

(** The only task update of the update step is the one of its list. *)
Lemma scheduled_main_update_put (cfg : config) (scheduled_ref : string)
  (nets : list string) (E : env) (h : list event) (task_ref : string)
  (body : payload) (r : option reply) :
  In (EHttp (PUT_task task_ref body) r)
     (snd (ScheduledDiscovery.main_update cfg scheduled_ref nets E h)) ->
  task_ref = scheduled_ref
  /\ body = update_body (SCHEDULED_DISCOVERY_NETWORK_VIEW cfg) nets.
Proof.
  destruct (scheduled_main_update_run cfg scheduled_ref nets E h)
    as (r' & tail & -> & Htail).
  intros [Hin|[Hin|Hin]]; [discriminate| |].
  - injection Hin as <- <- _. split; reflexivity.
  - now apply no_put_not_in in Hin.
Qed.

Lemma scheduled_main_update_source (cfg : config) :
  trace_ok (update_from_inventory_or_fallback cfg) (ScheduledDiscovery.main cfg).
Proof.
  intros E h task_ref body r Hin.
  rewrite scheduled_main_run in Hin |- *. cbv zeta in Hin |- *.
  pose proof (lookup_run_reads "scheduled" "Found scheduled discovery task ref: %s"
                "No scheduled discovery task found." (http E h GET_discoverytask))
    as Hg.
  destruct (lookup_run _ _ _ _) as [[sref|x|] eg]; cbn [snd] in Hg, Hin;
    try (now apply no_change_not_put_event in Hin).
  destruct (Py.truthy sref).
  2:{ cbn [snd] in Hin. apply in_app_or in Hin as [Hin|[Hin|[]]];
        [now apply no_change_not_put_event in Hin | discriminate]. }
  pose proof (enabled_run_reads (http E (h ++ eg) GET_network_extattrs)) as Hd.
  destruct (enabled_run _) as [[discovered|x|] ed] eqn:Hrun; cbn [snd] in Hd, Hin;
    try (apply in_app_or in Hin as [Hin|Hin];
         now apply no_change_not_put_event in Hin).
  apply enabled_run_ret in Hrun as [_ Hdisc].
  unfold prepend in Hin |- *. cbn [snd] in Hin |- *.
  set (view := SCHEDULED_DISCOVERY_NETWORK_VIEW cfg) in *.
  set (before := eg ++ ed ++ [scheduled_selection_log discovered view]) in *.
  assert (Hbefore : Forall (fun e => is_change e = false) before).
  { unfold before. apply Forall_app. split; [exact Hg|].
    apply Forall_app. split; [exact Hd|].
    constructor; [apply scheduled_selection_log_reads | constructor]. }
  apply in_app_or in Hin as [Hin|Hin];
    [now apply no_change_not_put_event in Hin|].
  destruct (nonempty (filter_by_view discovered view)) eqn:Hne.
  - apply scheduled_main_update_put in Hin as [_ ->].
    left. destruct Hdisc as [->|(data & Hget & ->)]; [discriminate|].
    exists data. split; [|split].
    + apply in_or_app. left. unfold before.
      apply in_or_app. right. apply in_or_app. now left.
    + reflexivity.
    + now apply nonempty_not_nil.
  - rewrite scheduled_fallback_step_run in Hin |- *. cbv zeta in Hin |- *.
    fold view in Hin |- *.
    destruct (String.eqb (SCHEDULED_DISCOVERY_DEFAULT_NETWORK cfg) "") eqn:Hcidr.
    { cbn [snd] in Hin. destruct Hin as [Hin|[Hin|[]]]; discriminate. }
    apply String.eqb_neq in Hcidr.
    pose proof (network_ref_run_reads (SCHEDULED_DISCOVERY_DEFAULT_NETWORK cfg) view
                  (http E (h ++ before)
                     (GET_network (SCHEDULED_DISCOVERY_DEFAULT_NETWORK cfg) view)))
      as Hf.
    unfold network_ref_run in Hf, Hin |- *.
    destruct (http E (h ++ before) _) as [data|].
    2:{ cbn [fst snd Py.truthy] in Hin.
        destruct Hin as [Hin|[Hin|[Hin|[Hin|[]]]]]; discriminate. }
    destruct (result data) as [|first others] eqn:Hres.
    { cbn [fst snd Py.truthy] in Hin.
      destruct Hin as [Hin|[Hin|[Hin|[Hin|[]]]]]; discriminate. }
    cbn [fst snd] in Hf, Hin |- *.
    destruct (Py.truthy (_ref first)) eqn:Htruthy.
    + unfold prepend in Hin |- *. cbn [snd] in Hin |- *.
      apply in_app_or in Hin as [Hin|Hin].
      { apply in_app_or in Hin as [Hin|[Hin|[]]];
          [now apply no_change_not_put_event in Hin | discriminate]. }
      apply scheduled_main_update_put in Hin as [_ ->].
      apply truthy_some in Htruthy as (fb & Hfb & Hne').
      right. exists data, first, others, fb.
      split; [exact Hcidr|]. split; [|split; [exact Hres|]].
      * apply in_or_app. right. apply in_or_app. left.
        apply in_or_app. left. now left.
      * split; [exact Hfb|]. split; [exact Hne'|]. now rewrite Hfb.
    + cbn [snd] in Hin.
      destruct Hin as [Hin|[Hin|[Hin|[Hin|[]]]]]; discriminate.
Qed.

(** X8.  Whatever task update a run of scheduled-discovery.py issues, its
    body has mode ICMP, the configured view, ping retries 5 and ping timeout
    1500, and its networks are either the flagged references of the inventory
    read of that run that end with "/" and the view, a list that is not
    empty, or, with a fallback configured, the single reference of the first
    object that the lookup of the fallback network returned. *)
Theorem X8_scheduled_update_body_source (cfg : config) (E : env)
  (h : list event) (task_ref : string) (body : payload) (r : option reply) :
  In (EHttp (PUT_task task_ref body) r) (snd (ScheduledDiscovery.main cfg E h)) ->
  (exists data,
     In (EHttp GET_network_extattrs (Some data))
        (snd (ScheduledDiscovery.main cfg E h))
     /\ body = update_body (SCHEDULED_DISCOVERY_NETWORK_VIEW cfg)
                 (filter_by_view (flagged_refs (result data))
                    (SCHEDULED_DISCOVERY_NETWORK_VIEW cfg))
     /\ networks body <> [])
  \/ (exists data first others fallback_ref,
        SCHEDULED_DISCOVERY_DEFAULT_NETWORK cfg <> ""
        /\ In (EHttp (GET_network (SCHEDULED_DISCOVERY_DEFAULT_NETWORK cfg)
                        (SCHEDULED_DISCOVERY_NETWORK_VIEW cfg)) (Some data))
              (snd (ScheduledDiscovery.main cfg E h))
        /\ result data = first :: others
        /\ _ref first = Some fallback_ref
        /\ fallback_ref <> ""
        /\ body = update_body (SCHEDULED_DISCOVERY_NETWORK_VIEW cfg) [fallback_ref]).
Proof.
  exact (scheduled_main_update_source cfg E h task_ref body r).
Qed.

(** The run of [main] of scheduled-discovery.py on an empty selection. *)
Lemma scheduled_main_empty_run (cfg : config) (E : env) (h : list event)
  (sref : option string) (discovered : list string) :
  let view := SCHEDULED_DISCOVERY_NETWORK_VIEW cfg in
  let g := ScheduledDiscovery.get_scheduled_discovery_ref E h in
  let d := ScheduledDiscovery.get_discovery_enabled_networks E (h ++ snd g) in
  let before := snd g ++ snd d ++ [scheduled_selection_log discovered view] in
  fst g = Ret sref -> Py.truthy sref = true ->
  fst d = Ret discovered -> filter_by_view discovered view = [] ->
  ScheduledDiscovery.main cfg E h
  = prepend before (scheduled_fallback_step cfg (str_of sref) E (h ++ before)).
Proof.
  cbv zeta. intros Hg Hsref Hd Hfilter.
  rewrite scheduled_main_run. cbv zeta.
  rewrite scheduled_lookup_run in Hg, Hd |- *.
  destruct (lookup_run _ _ _ _) as [[sref'|x|] eg]; cbn [fst snd] in Hg, Hd |- *;
    try discriminate.
  injection Hg as ->. rewrite Hsref.
  rewrite scheduled_enabled_run in Hd |- *.
  destruct (enabled_run _) as [[discovered'|x|] ed]; cbn [fst snd] in Hd |- *;
    try discriminate.
  injection Hd as ->. rewrite Hfilter. reflexivity.
Qed.

(** X10.  In scheduled-discovery.py, when the selection is empty and a
    fallback network is configured but its lookup gives nothing (no answer,
    an empty answer, or a first object without a reference), no task update
    is issued: the run ends with an ERROR record and the line "Fallback
    network not found; update skipped." *)
Theorem X10_unresolved_fallback_skips_update (cfg : config) (E : env)
  (h : list event) (sref fb : option string) (discovered : list string) :
  let view := SCHEDULED_DISCOVERY_NETWORK_VIEW cfg in
  let cidr := SCHEDULED_DISCOVERY_DEFAULT_NETWORK cfg in
  let g := ScheduledDiscovery.get_scheduled_discovery_ref E h in
  let d := ScheduledDiscovery.get_discovery_enabled_networks E (h ++ snd g) in
  let before := snd g ++ snd d ++ [scheduled_selection_log discovered view] in
  let f := ScheduledDiscovery.get_network_ref cidr view E (h ++ before) in
  fst g = Ret sref -> Py.truthy sref = true ->
  fst d = Ret discovered -> filter_by_view discovered view = [] ->
  cidr <> "" -> fst f = Ret fb -> Py.truthy fb = false ->
  ScheduledDiscovery.main cfg E h
  = (Ret tt, before ++ snd f ++ [fallback_not_found_log; fallback_not_found_line])
  /\ existsb is_put (snd (ScheduledDiscovery.main cfg E h)) = false.
Proof.
  cbv zeta. intros Hg Hsref Hd Hfilter Hcidr Hf Hfb.
  assert (Heq : ScheduledDiscovery.main cfg E h
                = (Ret tt,
                   (snd (ScheduledDiscovery.get_scheduled_discovery_ref E h)
                    ++ snd (ScheduledDiscovery.get_discovery_enabled_networks E
                              (h ++ snd (ScheduledDiscovery.get_scheduled_discovery_ref E h)))
                    ++ [scheduled_selection_log discovered
                          (SCHEDULED_DISCOVERY_NETWORK_VIEW cfg)])
                   ++ snd (ScheduledDiscovery.get_network_ref
                             (SCHEDULED_DISCOVERY_DEFAULT_NETWORK cfg)
                             (SCHEDULED_DISCOVERY_NETWORK_VIEW cfg) E
                             (h ++ snd (ScheduledDiscovery.get_scheduled_discovery_ref E h)
                                ++ snd (ScheduledDiscovery.get_discovery_enabled_networks E
                                          (h ++ snd (ScheduledDiscovery.get_scheduled_discovery_ref E h)))
                                ++ [scheduled_selection_log discovered
                                      (SCHEDULED_DISCOVERY_NETWORK_VIEW cfg)]))
                   ++ [fallback_not_found_log; fallback_not_found_line])).
  { rewrite (scheduled_main_empty_run cfg E h sref discovered Hg Hsref Hd Hfilter).
    rewrite scheduled_fallback_step_run. cbv zeta.
    apply String.eqb_neq in Hcidr. rewrite Hcidr.
    rewrite scheduled_network_ref_run in Hf |- *.
    rewrite Hf, Hfb. unfold prepend. cbn [fst snd]. reflexivity. }
  split; [exact Heq|].
  rewrite Heq. cbn [snd]. rewrite !existsb_app.
  rewrite !(no_put_existsb _ _ _ (proj1 scheduled_reads_no_put)).
  rewrite !(no_put_existsb _ _ _ (proj1 (proj2 scheduled_reads_no_put))).
  rewrite !(no_put_existsb _ _ _
              (proj1 (proj2 (proj2 scheduled_reads_no_put)) _ _)).
  unfold scheduled_selection_log.
  destruct (nonempty discovered); [destruct (nonempty _)|]; reflexivity.
Qed.

(** X11.  In scheduled-discovery.py a failed inventory read counts as an
    empty inventory: when the request for the network objects gets no answer
    and the configured fallback network resolves, the script goes on and
    issues a task update whose network list is the fallback reference
    alone. *)
Theorem X11_failed_inventory_read_falls_back (cfg : config) (E : env)
  (h : list event) (sref fb : option string) :
  let view := SCHEDULED_DISCOVERY_NETWORK_VIEW cfg in
  let cidr := SCHEDULED_DISCOVERY_DEFAULT_NETWORK cfg in
  let g := ScheduledDiscovery.get_scheduled_discovery_ref E h in
  let before := snd g ++ [EHttp GET_network_extattrs None;
                          ELog ERROR "Error retrieving network objects: %s";
                          ELog INFO "No networks found with Network_Discovery=True."] in
  let f := ScheduledDiscovery.get_network_ref cidr view E (h ++ before) in
  fst g = Ret sref -> Py.truthy sref = true ->
  http E (h ++ snd g) GET_network_extattrs = None ->
  cidr <> "" -> fst f = Ret fb -> Py.truthy fb = true ->
  exists r tail,
    snd (ScheduledDiscovery.main cfg E h)
    = (before ++ snd f ++ [using_fallback_log; overwriting_log])
      ++ EHttp (PUT_task (str_of sref) (update_body view [str_of fb])) r :: tail.
Proof.
  cbv zeta. intros Hg Hsref Hfail Hcidr Hf Hfb.
  assert (Hd : ScheduledDiscovery.get_discovery_enabled_networks E
                 (h ++ snd (ScheduledDiscovery.get_scheduled_discovery_ref E h))
               = (Ret [], [EHttp GET_network_extattrs None;
                           ELog ERROR "Error retrieving network objects: %s"])).
  { rewrite scheduled_enabled_run, Hfail. reflexivity. }
  rewrite (scheduled_main_empty_run cfg E h sref [] Hg Hsref);
    [|now rewrite Hd | reflexivity].
  rewrite Hd. cbn [snd].
  change (scheduled_selection_log [] (SCHEDULED_DISCOVERY_NETWORK_VIEW cfg))
    with (ELog INFO "No networks found with Network_Discovery=True.").
  rewrite scheduled_fallback_step_run. cbv zeta.
  apply String.eqb_neq in Hcidr. rewrite Hcidr.
  rewrite scheduled_network_ref_run in Hf |- *.
  cbn [app] in Hf |- *.
  rewrite Hf, Hfb.
  match goal with
  | |- context [ScheduledDiscovery.main_update cfg ?s ?n E ?h'] =>
      destruct (scheduled_main_update_run cfg s n E h') as (r & tail & Hev & _)
  end.
  exists r, tail. unfold prepend. cbn [snd]. rewrite Hev.
  unfold using_fallback_log, overwriting_log, update_body.
  rewrite <- !app_assoc. reflexivity.
Qed.

(** ** The update of scheduler.py *)

Lemma update_from_whole_inventory_closed :
  read_prefix_closed update_from_whole_inventory.
Proof.
  split.
  - intros task_ref body r [].
  - intros pre evs Hpre Hevs task_ref body r Hin.
    apply in_app_or in Hin as [Hin|Hin].
    + now apply no_change_not_put_event in Hin.
    + destruct (Hevs _ _ _ Hin) as (data & Hget & Hbody).
      exists data. split; [apply in_or_app; now right | exact Hbody].
Qed.

Lemma scheduler_main_from_whole_inventory :
  trace_ok update_from_whole_inventory Scheduler.main.
Proof.
  unfold Scheduler.main.
  apply (trace_ok_bind _ _ _ update_from_whole_inventory_closed).
  { unfold Scheduler.get_scheduled_discovery_ref. along_script; intros; reflexivity. }
  intros sref. destruct (negb (Py.truthy sref)).
  { apply (trace_ok_reads _ _ update_from_whole_inventory_closed).
    along_script; reflexivity. }
  cbv zeta. intros E h ref body r Hin.
  assert (Hstatus : forall h',
             ~ In (EHttp (PUT_task ref body) r)
               (snd ((' (st, _) <- Scheduler.get_discovery_task_status (str_of sref) ;;
                      if Py.truthy st then logging_info "Scheduled Discovery State: %s"
                      else logging_warning "Could not retrieve state/status for the scheduled task.")
                       E h'))).
  { intros h'. apply no_put_not_in, all_existsb_false.
    unfold Scheduler.get_discovery_task_status. along_script; intros; reflexivity. }
  rewrite bind_run, scheduler_enabled_run in Hin |- *.
  destruct (enabled_run _) as [[nets|x|] ed] eqn:Hrun.
  - apply enabled_run_ret in Hrun as [Hed Hdisc].
    unfold prepend in Hin |- *. cbn [snd] in Hin |- *.
    rewrite bind_run in Hin |- *.
    apply in_app_or in Hin as [Hin|Hin];
      [now apply no_change_not_put_event in Hin|].
    destruct (nonempty nets) eqn:Hne.
    + destruct (scheduler_update_shape (str_of sref) nets E (h ++ ed))
        as (r' & e & Heq & He).
      rewrite Heq in Hin |- *. unfold prepend in Hin |- *. cbn [snd] in Hin |- *.
      apply in_app_or in Hin as [Hin|Hin]; [|now apply Hstatus in Hin].
      destruct Hin as [Hin|[Hin|[Hin|[]]]]; [discriminate| |].
      * injection Hin as <- <- <-.
        destruct Hdisc as [->|(data & Hget & ->)]; [discriminate|].
        exists data. split; [|split].
        -- apply in_or_app. now left.
        -- reflexivity.
        -- now apply nonempty_not_nil.
      * subst e. discriminate.
    + unfold logging_info, emit, prepend in Hin. cbn [snd] in Hin.
      apply in_app_or in Hin as [Hin|Hin]; [|now apply Hstatus in Hin].
      destruct Hin as [Hin|[]]. discriminate.
  - cbn [snd] in Hin. exfalso. revert Hin. apply no_change_not_put_event.
    unfold enabled_run in Hrun. destruct (http E h GET_network_extattrs);
      [destruct (forallb _ _)|]; inversion Hrun; repeat constructor.
  - unfold enabled_run in Hrun. destruct (http E h GET_network_extattrs);
      [destruct (forallb _ _)|]; discriminate.
Qed.

(** X4.  Whatever task update a run of scheduler.py issues, its body is
    mode ICMP, the view GLOBAL, ping retries 5, ping timeout 1500, and as
    networks the references of all the flagged objects of the inventory read
    of that run, of whatever view, in the order of the answer; this list is
    never empty. *)
Theorem X4_scheduler_update_body_whole_inventory (E : env) (h : list event)
  (task_ref : string) (body : payload) (r : option reply) :
  In (EHttp (PUT_task task_ref body) r) (snd (Scheduler.main E h)) ->
  exists data,
    In (EHttp GET_network_extattrs (Some data)) (snd (Scheduler.main E h))
    /\ body = update_body "GLOBAL" (flagged_refs (result data))
    /\ networks body <> [].
Proof. apply scheduler_main_from_whole_inventory. Qed.

(** ** The number of polls *)

Lemma clock_never_back (E : env) :
  (forall h e, (clock E h <= clock E (h ++ [e]))%Z) ->
  forall evs h, (clock E h <= clock E (h ++ evs))%Z.
Proof.
  intros Hstep. induction evs as [|e evs IH]; intros h.
  - rewrite app_nil_r. lia.
  - specialize (IH (h ++ [e])). rewrite <- app_assoc in IH. cbn [app] in IH.
    specialize (Hstep h e). lia.
Qed.

Lemma count_polls_status (r : option reply) :
  count_polls (status_events r) = 1 /\ count_sleeps (status_events r) = 0.
Proof. unfold status_events. destruct r; split; reflexivity. Qed.

Lemma count_polls_app (e1 e2 : list event) :
  count_polls (e1 ++ e2) = count_polls e1 + count_polls e2.
Proof. unfold count_polls. now rewrite filter_app, length_app. Qed.

Lemma count_sleeps_app (e1 e2 : list event) :
  count_sleeps (e1 ++ e2) = count_sleeps e1 + count_sleeps e2.
Proof. unfold count_sleeps. now rewrite filter_app, length_app. Qed.

Lemma wait_loop_bounded (task_ref : string) (t0 timeout interval : Z) (E : env) :
  sleeping_clock E interval -> (0 < interval)%Z ->
  forall n fuel h,
    (timeout <= (clock E h - t0) + Z.of_nat n * interval)%Z -> n < fuel ->
    exists b,
      fst (CurrentDiscovery.wait_loop fuel task_ref t0 timeout interval E h) = Ret b
      /\ count_polls
           (snd (CurrentDiscovery.wait_loop fuel task_ref t0 timeout interval E h))
         <= n
      /\ count_sleeps
           (snd (CurrentDiscovery.wait_loop fuel task_ref t0 timeout interval E h))
         <= n.
Proof.
  intros [Hback Hsleep] Hpos.
  induction n as [|n IH]; intros fuel h Hdeadline Hfuel;
    (destruct fuel as [|fuel]; [lia|]); rewrite wait_loop_step; cbv zeta.
  - replace (clock E h - t0 <? timeout)%Z with false
      by (symmetry; apply Z.ltb_ge; lia).
    exists false. repeat split; cbn; lia.
  - destruct (clock E h - t0 <? timeout)%Z; [|exists false; repeat split; cbn; lia].
    destruct (is_stopped _).
    + exists true. cbn [fst snd].
      change (ETime (clock E h) :: status_events ?r)
        with ([ETime (clock E h)] ++ status_events r).
      rewrite count_polls_app, count_sleeps_app.
      destruct (count_polls_status
                  (http E (h ++ [ETime (clock E h)]) GET_discoverytask_state))
        as [-> ->].
      repeat split; cbn; lia.
    + replace (interval <? 0)%Z with false by (symmetry; apply Z.ltb_ge; lia).
      cbn [fst snd].
      match goal with
      | |- context [CurrentDiscovery.wait_loop fuel task_ref t0 timeout interval E ?h'] =>
          destruct (IH fuel h') as (b & Hb & Hpolls & Hsleeps); [|lia|]
      end.
      * pose proof (Hsleep (((h ++ [ETime (clock E h)])
                               ++ status_events
                                    (http E (h ++ [ETime (clock E h)])
                                       GET_discoverytask_state))
                              ++ [waiting_log])) as Hs.
        pose proof (clock_never_back E Hback
                      (([ETime (clock E h)]
                          ++ status_events
                               (http E (h ++ [ETime (clock E h)])
                                  GET_discoverytask_state))
                         ++ [waiting_log]) h) as Hm.
        rewrite !app_assoc in Hm. lia.
      * exists b. split; [exact Hb|].
        change (ETime (clock E h) :: status_events ?r ++ waiting_log :: ESleep interval :: ?rest)
          with ([ETime (clock E h)] ++ status_events r
                  ++ [waiting_log; ESleep interval] ++ rest).
        rewrite !count_polls_app, !count_sleeps_app.
        destruct (count_polls_status
                    (http E (h ++ [ETime (clock E h)]) GET_discoverytask_state))
          as [-> ->].
        split; cbn; lia.
Qed.

Lemma wait_for_discovery_to_stop_bounded (task_ref : string)
  (timeout interval : Z) (E : env) (n fuel : nat) (h : list event) :
  sleeping_clock E interval -> (0 < interval)%Z ->
  (timeout <= Z.of_nat n * interval)%Z -> n < fuel ->
  exists b,
    fst (CurrentDiscovery.wait_for_discovery_to_stop fuel task_ref timeout interval E h)
    = Ret b
    /\ count_polls
         (snd (CurrentDiscovery.wait_for_discovery_to_stop fuel task_ref timeout
                 interval E h)) <= n
    /\ count_sleeps
         (snd (CurrentDiscovery.wait_for_discovery_to_stop fuel task_ref timeout
                 interval E h)) <= n.
Proof.
  intros Hclock Hpos Hdeadline Hfuel.
  unfold CurrentDiscovery.wait_for_discovery_to_stop.
  erewrite bind_ret_eq by reflexivity.
  destruct (wait_loop_bounded task_ref (clock E h) timeout interval E Hclock Hpos
              n fuel (h ++ [ETime (clock E h)])) as (b & Hb & Hpolls & Hsleeps).
  - destruct Hclock as [Hback _]. specialize (Hback h (ETime (clock E h))). lia.
  - exact Hfuel.
  - exists b. unfold prepend. cbn [fst snd]. split; [exact Hb|].
    change (count_polls ([ETime (clock E h)] ++ ?l)) with (count_polls l).
    change (count_sleeps ([ETime (clock E h)] ++ ?l)) with (count_sleeps l).
    split; assumption.
Qed.


(** ** Exceptions and the exit status *)

Lemma total_try_requests (x : exn) (rq : request) :
  never_raises x (try_request (requests rq)).
Proof.
  intros E h. unfold try_request, requests.
  destruct (http E h rq); discriminate.
Qed.

Lemma total_try_requests_then {A} (x : exn) (rq : request) (k : reply -> M A) :
  (forall r, never_raises x (k r)) ->
  never_raises x (try_request (bind (requests rq) k)).
Proof.
  intros Hk E h. unfold try_request. rewrite bind_run. unfold requests.
  destruct (http E h rq) as [r|]; [|discriminate].
  specialize (Hk r E (h ++ [EHttp rq (Some r)])). unfold prepend.
  destruct (k r E _) as [[b|y|] e2]; cbn [fst snd] in *; try discriminate.
  destruct y; cbn; congruence.
Qed.

Lemma total_time_sleep (x : exn) (d : Z) :
  (0 <= d)%Z -> never_raises x (time_sleep d).
Proof.
  intros Hd. unfold time_sleep.
  replace (d <? 0)%Z with false by (symmetry; apply Z.ltb_ge; lia).
  apply safe_emit.
Qed.

(** rich prints a text without markup as the builtin [print] does. *)
Lemma rich_print_plain (msg : string) :
  Py.has_markup msg = false -> rich_print msg = print msg.
Proof. intros Hplain. unfold rich_print. now rewrite Hplain. Qed.

Lemma total_rich_print_plain (x : exn) (msg : string) :
  Py.has_markup msg = false -> never_raises x (rich_print msg).
Proof. intros Hplain. rewrite (rich_print_plain msg Hplain). apply safe_emit. Qed.

(** Whatever the text, rich raises nothing but a [MarkupError]. *)
Lemma unmarked_rich_print (x : exn) (msg : string) :
  x <> MarkupError -> never_raises x (rich_print msg).
Proof.
  intros Hx. unfold rich_print.
  destruct (Py.has_markup msg); [destruct (Py.markup_ok msg)|];
    solve [apply safe_emit | now apply safe_raise_other].
Qed.

Ltac along_total_step :=
  match goal with
  | |- never_raises _ (bind _ _) => apply safe_bind; [|intros ?]
  | |- never_raises _ (ret _) => apply safe_ret
  | |- never_raises _ (logging_info _) => apply safe_emit
  | |- never_raises _ (logging_warning _) => apply safe_emit
  | |- never_raises _ (logging_error _) => apply safe_emit
  | |- never_raises _ (print _) => apply safe_emit
  | |- never_raises _ time_time => apply safe_time_time
  | |- never_raises _ (time_sleep _) => apply total_time_sleep; lia
  | |- never_raises _ (try_request (requests _)) => apply total_try_requests
  | |- never_raises _ (try_request (bind (requests _) _)) =>
      apply total_try_requests_then; intros ?
  | |- never_raises _ (rich_print _) =>
      first [ apply total_rich_print_plain; reflexivity
            | apply unmarked_rich_print; assumption ]
  | |- never_raises _ (match ?b with _ => _ end) => destruct b
  end.

Lemma total_get_current_discovery_status (x : exn) (task_ref : string) :
  never_raises x (CurrentDiscovery.get_current_discovery_status task_ref).
Proof.
  unfold CurrentDiscovery.get_current_discovery_status. repeat along_total_step.
Qed.

Lemma total_wait_loop (x : exn) (task_ref : string) (t0 timeout interval : Z) :
  (0 <= interval)%Z ->
  forall fuel,
    never_raises x (CurrentDiscovery.wait_loop fuel task_ref t0 timeout interval).
Proof.
  intros Hi. induction fuel as [|fuel IH]; cbn [CurrentDiscovery.wait_loop].
  - intros E h. discriminate.
  - apply safe_bind; [apply safe_time_time|]. intros now.
    destruct (now - t0 <? timeout)%Z; [|apply safe_ret].
    apply safe_bind; [apply total_get_current_discovery_status|].
    intros [st msg]. destruct (is_stopped st); [apply safe_ret|].
    apply safe_bind; [apply safe_emit|]. intros _.
    apply safe_bind; [now apply total_time_sleep|]. intros _. exact IH.
Qed.

Ltac along_total :=
  repeat first
    [ apply total_get_current_discovery_status
    | apply total_wait_loop; lia
    | along_total_step ].

(** Once the update is reached, nothing raises. *)
Lemma total_main_cycle (x : exn) (fuel : nat) (view task_ref : string)
  (nets : list string) :
  never_raises x (CurrentDiscovery.main_cycle fuel view task_ref nets).
Proof.
  unfold CurrentDiscovery.main_cycle, CurrentDiscovery.report_final_state,
    CurrentDiscovery.start_current_discovery_task, CurrentDiscovery.issue_start,
    CurrentDiscovery.wait_for_discovery_to_stop,
    CurrentDiscovery.stop_current_discovery_task,
    CurrentDiscovery.update_current_discovery_task.
  along_total.
Qed.

(** After the update of scheduled-discovery.py only rich can raise. *)
Lemma unmarked_scheduled_main_update (x : exn) (cfg : config) (task_ref : string)
  (nets : list string) :
  x <> MarkupError ->
  never_raises x (ScheduledDiscovery.main_update cfg task_ref nets).
Proof.
  intros Hx.
  unfold ScheduledDiscovery.main_update,
    ScheduledDiscovery.update_scheduled_discovery_task,
    ScheduledDiscovery.get_discovery_task_status.
  along_total.
Qed.

(** It raises when it prints the state, after an update that was
    answered. *)
Lemma markup_scheduled_main_update (cfg : config) (task_ref : string)
  (nets : list string) (E : env) (h : list event) (x : exn) :
  fst (ScheduledDiscovery.main_update cfg task_ref nets E h) = Raise x ->
  answered_update (snd (ScheduledDiscovery.main_update cfg task_ref nets E h)).
Proof.
  unfold ScheduledDiscovery.main_update.
  unfold ScheduledDiscovery.update_scheduled_discovery_task at 1 2.
  rewrite bind_run.
  erewrite bind_ret_eq by reflexivity.
  rewrite bind_run. unfold try_request. rewrite bind_run. unfold requests.
  destruct (http E _ _) as [c|].
  - erewrite bind_ret_eq by reflexivity.
    unfold prepend, ret. cbn [fst snd app negb]. cbv iota.
    intros _. eexists _, _, c. right. left. reflexivity.
  - erewrite bind_ret_eq by reflexivity.
    unfold prepend, ret. cbn [fst snd app negb]. cbv iota.
    rewrite rich_print_plain by reflexivity. discriminate.
Qed.

Section FailsEarly.
Context (s : script).

Lemma failure_cause_after_reads (x : exn) (e1 e2 : list event) :
  Forall (fun e => is_change e = false) e1 ->
  failure_cause s x e2 -> failure_cause s x (e1 ++ e2).
Proof.
  intros Hreads. destruct x; cbn [failure_cause];
    try (intros [Hcause Hevs]; split; [exact Hcause | now apply Forall_app]);
    try (intros Hevs; now apply Forall_app); try easy.
  intros [Hrich (task_ref & body & c & Hin)]. split; [exact Hrich|].
  exists task_ref, body, c. apply in_or_app. now right.
Qed.

Lemma early_total {A} (m : M A) :
  (forall x, never_raises x m) -> fails_early s m.
Proof. intros Hm E h x Hx. now apply Hm in Hx. Qed.

Lemma early_bind {A B} (m : M A) (k : A -> M B) :
  events_all (fun e => is_change e = false) m ->
  fails_early s m -> (forall a, fails_early s (k a)) ->
  fails_early s (bind m k).
Proof.
  intros Hall Hm Hk E h x. rewrite bind_run.
  specialize (Hall E h). specialize (Hm E h).
  destruct (m E h) as [[a|y|] e1]; cbn [fst snd] in *.
  - unfold prepend. cbn [fst snd]. intros Hx.
    apply failure_cause_after_reads; [exact Hall | now apply Hk].
  - intros [= ->]. now apply Hm.
  - discriminate.
Qed.

Lemma early_getitem_ref (obj : wapi_object) : fails_early s (getitem_ref obj).
Proof.
  intros E h x. unfold getitem_ref. destruct (_ref obj); cbn; [discriminate|].
  intros [= <-]. split; [reflexivity | constructor].
Qed.

Lemma early_input (prompt : string) : fails_early s (input prompt).
Proof.
  intros E h x. unfold input. destruct (stdin E h); cbn; [discriminate|].
  intros [= <-]. repeat constructor.
Qed.

Ltac early_leaf := apply early_total; intros ?; solve [along_total].

Ltac early_read :=
  apply early_bind;
    [solve [along_script; intros; reflexivity] | apply early_getitem_ref | intros ?].

Lemma early_first_current :
  forall tasks, fails_early s (CurrentDiscovery.first_current tasks).
Proof.
  induction tasks as [|task rest IH]; cbn [CurrentDiscovery.first_current].
  - early_leaf.
  - destruct (opt_eqb _ _); [|exact IH]. early_read. early_leaf.
Qed.

Lemma early_scheduled_first_scheduled :
  forall tasks, fails_early s (ScheduledDiscovery.first_scheduled tasks).
Proof.
  induction tasks as [|task rest IH]; cbn [ScheduledDiscovery.first_scheduled].
  - early_leaf.
  - destruct (opt_eqb _ _); [|exact IH]. early_read. early_leaf.
Qed.

Lemma early_scheduler_first_scheduled :
  forall tasks, fails_early s (Scheduler.first_scheduled tasks).
Proof.
  induction tasks as [|task rest IH]; cbn [Scheduler.first_scheduled].
  - early_leaf.
  - destruct (opt_eqb _ _); [|exact IH]. early_read. early_leaf.
Qed.

Lemma early_current_collect_enabled :
  forall nets found, fails_early s (CurrentDiscovery.collect_enabled nets found).
Proof.
  induction nets as [|net rest IH]; intros found;
    cbn [CurrentDiscovery.collect_enabled].
  - early_leaf.
  - destruct (opt_eqb _ _); [|apply IH]. early_read. apply IH.
Qed.

Lemma early_scheduled_collect_enabled :
  forall nets found,
    fails_early s (ScheduledDiscovery.collect_enabled nets found).
Proof.
  induction nets as [|net rest IH]; intros found;
    cbn [ScheduledDiscovery.collect_enabled].
  - early_leaf.
  - destruct (opt_eqb _ _); [|apply IH]. early_read. apply IH.
Qed.

Lemma early_scheduler_collect_enabled :
  forall nets found, fails_early s (Scheduler.collect_enabled nets found).
Proof.
  induction nets as [|net rest IH]; intros found;
    cbn [Scheduler.collect_enabled].
  - early_leaf.
  - destruct (opt_eqb _ _); [|apply IH]. early_read. apply IH.
Qed.
End FailsEarly.

Lemma early_parse_args (fuel : nat) (argv : CurrentDiscovery.command_line) :
  fails_early (current_discovery fuel argv) (CurrentDiscovery.parse_args argv).
Proof.
  intros E h x. destruct argv as [a|text|]; cbn; [discriminate| |];
    intros [= <-]; cbn; split; solve [reflexivity | repeat constructor].
Qed.

Lemma early_scheduled_main_update (cfg0 cfg : config) (task_ref : string)
  (nets : list string) :
  fails_early (scheduled_discovery cfg0)
    (ScheduledDiscovery.main_update cfg task_ref nets).
Proof.
  intros E h x Hx.
  assert (Hmark : x = MarkupError).
  { destruct x; try reflexivity; exfalso;
      revert Hx; apply unmarked_scheduled_main_update; discriminate. }
  subst x. split; [reflexivity|].
  now apply (markup_scheduled_main_update cfg task_ref nets E h MarkupError).
Qed.

Ltac early_leaf := apply early_total; intros ?; solve [along_total].

Ltac along_early :=
  repeat match goal with
  | |- fails_early _ (CurrentDiscovery.first_current _) => apply early_first_current
  | |- fails_early _ (ScheduledDiscovery.first_scheduled _) =>
      apply early_scheduled_first_scheduled
  | |- fails_early _ (Scheduler.first_scheduled _) =>
      apply early_scheduler_first_scheduled
  | |- fails_early _ (CurrentDiscovery.collect_enabled _ _) =>
      apply early_current_collect_enabled
  | |- fails_early _ (ScheduledDiscovery.collect_enabled _ _) =>
      apply early_scheduled_collect_enabled
  | |- fails_early _ (Scheduler.collect_enabled _ _) =>
      apply early_scheduler_collect_enabled
  | |- fails_early _ (CurrentDiscovery.main_cycle _ _ _ _) =>
      apply early_total; intros ?; apply total_main_cycle
  | |- fails_early _ (ScheduledDiscovery.main_update _ _ _) =>
      apply early_scheduled_main_update
  | |- fails_early _ (CurrentDiscovery.parse_args _) => apply early_parse_args
  | |- fails_early _ (input _) => apply early_input
  | |- fails_early _ _ => early_leaf
  | |- fails_early _ (bind _ _) =>
      apply early_bind; [solve [along_script; intros; reflexivity] | | intros ?]
  | |- fails_early _ (match ?b with _ => _ end) => destruct b
  end.

Lemma early_current_main (fuel : nat) (argv : CurrentDiscovery.command_line) :
  fails_early (current_discovery fuel argv) (CurrentDiscovery.main fuel argv).
Proof.
  unfold CurrentDiscovery.main, CurrentDiscovery.main_update,
    CurrentDiscovery.prompt_overwrite,
    CurrentDiscovery.get_discovery_enabled_networks,
    CurrentDiscovery.get_current_discovery_status,
    CurrentDiscovery.get_current_discovery_ref.
  cbv zeta. along_early.
Qed.

Lemma early_scheduled_main (cfg : config) :
  fails_early (scheduled_discovery cfg) (ScheduledDiscovery.main cfg).
Proof.
  unfold ScheduledDiscovery.main, ScheduledDiscovery.get_network_ref,
    ScheduledDiscovery.get_discovery_enabled_networks,
    ScheduledDiscovery.get_scheduled_discovery_ref.
  cbv zeta. along_early.
Qed.

Lemma early_scheduler_main : fails_early scheduler Scheduler.main.
Proof.
  unfold Scheduler.main, Scheduler.update_scheduled_discovery_task,
    Scheduler.get_discovery_task_status,
    Scheduler.get_discovery_enabled_networks,
    Scheduler.get_scheduled_discovery_ref.
  cbv zeta. along_early.
Qed.

Lemma early_script_main (s : script) : fails_early s (script_main s).
Proof.
  destruct s; [apply early_current_main | apply early_scheduled_main
              | apply early_scheduler_main].
Qed.

(** The exit status of a script, from the outcome of its [main]. *)
Lemma run_script_run (main : M unit) (E : env) (h : list event) :
  run_script main E h =
  match main E h with
  | (Ret _, e1) => (Ret 0%Z, e1 ++ [finished_line])
  | (Raise (SystemExit status), e1) => (Ret status, e1)
  | (Raise _, e1) =>
      (Ret 1%Z, e1 ++ [ELog ERROR "Unhandled exception in main(): %s"])
  | (OutOfFuel, e1) => (OutOfFuel, e1)
  end.
Proof.
  unfold run_script. rewrite bind_run.
  destruct (main E h) as [[[]|x|] e1]; [reflexivity| |reflexivity].
  destruct x; reflexivity.
Qed.


(** ** Startup *)

Lemma validate_config_run (urlparse_ok : string -> option bool)
  (ip_network_ok : string -> bool) (cfg : yaml_config) (E : env)
  (h : list event) :
  urlparse_returns urlparse_ok cfg ->
  exists evs,
    Startup.validate_config urlparse_ok ip_network_ok cfg E h
    = (Ret (Nat.eqb (config_violations urlparse_ok ip_network_ok cfg) 0), evs)
    /\ length evs = config_violations urlparse_ok ip_network_ok cfg
    /\ forallb is_error_log evs = true.
Proof.
  unfold urlparse_returns, Startup.validate_config, config_violations,
    url_violation, empty_violation, fallback_violation.
  cbv zeta. intros Hurl.
  destruct (String.eqb (get_default (yaml_INFOBLOX_API_URL cfg) "") "") eqn:Hu.
  - destruct (urlparse_ok _) as [[]|];
      destruct (String.eqb (get_default (yaml_INFOBLOX_API_USERNAME cfg) "") "");
      destruct (String.eqb (get_default (yaml_INFOBLOX_API_PASSWORD cfg) "") "");
      destruct (String.eqb (get_default (yaml_SCHEDULED_DISCOVERY_NETWORK_VIEW cfg) "") "");
      destruct (String.eqb (get_default (yaml_SCHEDULED_DISCOVERY_DEFAULT_NETWORK cfg) "") "");
      try destruct (ip_network_ok _);
      eexists; (split; [reflexivity | split; reflexivity]).
  - destruct Hurl as [Hurl|Hurl]; [apply String.eqb_neq in Hu; contradiction|].
    destruct (urlparse_ok _) as [[]|]; [| |contradiction];
      destruct (String.eqb (get_default (yaml_INFOBLOX_API_USERNAME cfg) "") "");
      destruct (String.eqb (get_default (yaml_INFOBLOX_API_PASSWORD cfg) "") "");
      destruct (String.eqb (get_default (yaml_SCHEDULED_DISCOVERY_NETWORK_VIEW cfg) "") "");
      destruct (String.eqb (get_default (yaml_SCHEDULED_DISCOVERY_DEFAULT_NETWORK cfg) "") "");
      try destruct (ip_network_ok _);
      eexists; (split; [reflexivity | split; reflexivity]).
Qed.

(** X12.  When [urlparse] returns for the URL, [validate_config] returns
    True exactly when the configuration meets every requirement (a valid
    URL, a non-empty user name, password and view, and a fallback network
    that is absent or valid); it does not stop at the first requirement that
    fails: it logs one ERROR record for each of them, and nothing else. *)
Theorem X12_validate_config_reports_every_violation
  (urlparse_ok : string -> option bool) (ip_network_ok : string -> bool)
  (cfg : yaml_config) (E : env) (h : list event) :
  urlparse_returns urlparse_ok cfg ->
  exists evs,
    Startup.validate_config urlparse_ok ip_network_ok cfg E h
    = (Ret (Nat.eqb (config_violations urlparse_ok ip_network_ok cfg) 0), evs)
    /\ length evs = config_violations urlparse_ok ip_network_ok cfg
    /\ forallb is_error_log evs = true.
Proof. apply validate_config_run. Qed.

Lemma validate_config_raises (urlparse_ok : string -> option bool)
  (ip_network_ok : string -> bool) (cfg : yaml_config) (E : env)
  (h : list event) :
  ~ urlparse_returns urlparse_ok cfg ->
  Startup.validate_config urlparse_ok ip_network_ok cfg E h
  = (Raise (ValueError "urlparse"), []).
Proof.
  unfold urlparse_returns, Startup.validate_config. cbv zeta. intros Hurl.
  destruct (String.eqb (get_default (yaml_INFOBLOX_API_URL cfg) "") "") eqn:Hu.
  - apply String.eqb_eq in Hu. tauto.
  - destruct (urlparse_ok _) as [[]|]; [exfalso; apply Hurl; right; discriminate
                                       |exfalso; apply Hurl; right; discriminate|].
    reflexivity.
Qed.

Lemma urlparse_returns_dec (urlparse_ok : string -> option bool)
  (cfg : yaml_config) :
  urlparse_returns urlparse_ok cfg \/ ~ urlparse_returns urlparse_ok cfg.
Proof.
  unfold urlparse_returns.
  destruct (String.eqb (get_default (yaml_INFOBLOX_API_URL cfg) "") "") eqn:Hu.
  - apply String.eqb_eq in Hu. left. now left.
  - apply String.eqb_neq in Hu.
    destruct (urlparse_ok _) as [b|].
    + left. right. discriminate.
    + right. intros [H|H]; [contradiction | now apply H].
Qed.

Lemma error_logs_no_http (evs : list event) :
  forallb is_error_log evs = true ->
  existsb is_http evs = false /\ existsb is_input evs = false.
Proof.
  induction evs as [|e evs IH]; [intros _; split; reflexivity|].
  cbn [forallb existsb]. intros [He Hevs]%andb_prop.
  destruct (IH Hevs) as [-> ->].
  destruct e as [| | | | |[] ?]; try discriminate. split; reflexivity.
Qed.

Lemma validated_script_rejected (urlparse_ok : string -> option bool)
  (ip_network_ok : string -> bool) (loaded : option yaml_config)
  (main : config -> M unit) (E : env) (h : list event) :
  rejected urlparse_ok ip_network_ok loaded ->
  refused_at_startup
    (Startup.validated_script urlparse_ok ip_network_ok loaded main E h).
Proof.
  unfold rejected, refused_at_startup, Startup.validated_script.
  destruct loaded as [cfg|].
  - intros Hbad. rewrite !bind_run.
    destruct (urlparse_returns_dec urlparse_ok cfg) as [Hurl|Hurl].
    + destruct (validate_config_run urlparse_ok ip_network_ok cfg E h Hurl)
        as (evs & -> & Hlen & Hlogs).
      apply Nat.eqb_neq in Hbad. rewrite Hbad. cbn [negb].
      apply error_logs_no_http in Hlogs as [Hhttp Hinput].
      unfold prepend. cbn [fst snd].
      rewrite !existsb_app, Hhttp, Hinput.
      repeat split; try reflexivity. now left.
    + rewrite (validate_config_raises urlparse_ok ip_network_ok cfg E h Hurl).
      cbn [fst snd]. repeat split; try reflexivity. now right.
  - intros _. repeat split; try reflexivity. now left.
Qed.

(** X13.  current-discovery.py and scheduled-discovery.py do nothing on a
    configuration that is not acceptable: when [config.yaml] could not be
    read, or a requirement of [validate_config] is not met, [main] is not
    reached, no request is sent and nothing is read from the input; the
    process exits with status 1, or, when [urlparse] raised, with the
    uncaught [ValueError]. *)
Theorem X13_rejected_configuration_no_remote_call
  (urlparse_ok : string -> option bool) (ip_network_ok : string -> bool)
  (loaded : option yaml_config) (fuel : nat) (a : CurrentDiscovery.args)
  (E : env) (h : list event) :
  rejected urlparse_ok ip_network_ok loaded ->
  refused_at_startup
    (Startup.current_discovery_py urlparse_ok ip_network_ok loaded fuel a E h)
  /\ refused_at_startup
       (Startup.scheduled_discovery_py urlparse_ok ip_network_ok loaded E h).
Proof.
  intros Hbad. split; now apply validated_script_rejected.
Qed.

Lemma bind_head {A B} (m : M A) (k : A -> M B) (E : env) (h : list event)
  (e : event) (rest : list event) :
  snd (m E h) = e :: rest -> exists tail, snd (bind m k E h) = e :: tail.
Proof.
  rewrite bind_run. destruct (m E h) as [[a|x|] e1]; cbn [snd]; intros ->.
  - unfold prepend. destruct (k a E _) as [o e2]. cbn [snd app]. now eexists.
  - now eexists.
  - now eexists.
Qed.

Lemma run_script_head (main : M unit) (E : env) (h : list event) (e : event)
  (rest : list event) :
  snd (main E h) = e :: rest ->
  exists tail, snd (run_script main E h) = e :: tail.
Proof.
  intros Hmain. unfold run_script.
  destruct (bind_head main (fun _ => print "Script finished successfully.") E h
              e rest Hmain) as (tail & Htail).
  destruct (bind main _ E h) as [[a|x|] e1]; cbn [snd] in *; subst e1.
  - now eexists.
  - destruct x; cbn [snd app]; now eexists.
  - now eexists.
Qed.

Lemma lookup_run_head (oid found_fmt warning_fmt : string) (r : option reply) :
  exists rest,
    snd (lookup_run oid found_fmt warning_fmt r) = EHttp GET_discoverytask r :: rest.
Proof.
  unfold lookup_run. destruct r as [data|]; [|now eexists].
  destruct (find _ _) as [task|]; [destruct (_ref task)|]; now eexists.
Qed.

Lemma scheduler_main_first_request (E : env) (h : list event) :
  exists tail,
    snd (run_script Scheduler.main E h)
    = EHttp GET_discoverytask (http E h GET_discoverytask) :: tail.
Proof.
  destruct (lookup_run_head "scheduled" "Found scheduled discovery task ref: %s"
              "No scheduled discovery task found." (http E h GET_discoverytask))
    as (rest & Hrest).
  rewrite <- scheduler_lookup_run in Hrest.
  unfold Scheduler.main.
  destruct (bind_head Scheduler.get_scheduled_discovery_ref
              (fun scheduled_ref =>
                 if negb (Py.truthy scheduled_ref) then
                   print "Could not find 'scheduled' discovery reference. Check discovery.log for details."
                 else
                   let scheduled_ref := str_of scheduled_ref in
                   networks <- Scheduler.get_discovery_enabled_networks ;;
                   (if nonempty networks then
                      Scheduler.update_scheduled_discovery_task scheduled_ref
                        networks "ICMP" 5 1500
                    else
                      logging_info "No networks found to update for the scheduled discovery task.") ;;
                   ' (st, _) <- Scheduler.get_discovery_task_status scheduled_ref ;;
                   if Py.truthy st then logging_info "Scheduled Discovery State: %s"
                   else logging_warning "Could not retrieve state/status for the scheduled task.")
              E h _ rest Hrest) as (tail & Htail).
  exact (run_script_head _ E h _ tail Htail).
Qed.

(** X14.  scheduler.py checks three keys and nothing else: when the URL, the
    user name or the password is missing or empty, it logs one ERROR record
    and exits with status 1 without a request; otherwise it runs [main],
    whose first event is the request for the discovery tasks, whatever the
    view, the fallback network and the form of the URL are: it accepts
    configurations that [validate_config] rejects. *)
Theorem X14_scheduler_checks_three_keys (cfg : yaml_config) (E : env)
  (h : list event) :
  (missing_required cfg = true ->
   Startup.scheduler_py (Some cfg) E h
   = (Ret 1%Z, [ELog ERROR "Missing required Infoblox configuration in %s"]))
  /\ (missing_required cfg = false ->
      exists tail,
        snd (Startup.scheduler_py (Some cfg) E h)
        = EHttp GET_discoverytask (http E h GET_discoverytask) :: tail).
Proof.
  unfold missing_required, Startup.scheduler_py. split; intros ->.
  - reflexivity.
  - apply scheduler_main_first_request.
Qed.

(** ** The budget of a run *)

Lemma count_requests_app (e1 e2 : list event) :
  count_requests (e1 ++ e2) = count_requests e1 + count_requests e2.
Proof. unfold count_requests. now rewrite filter_app, length_app. Qed.

Section Budget.
Context (E : env).

Lemma within_weaken {A} (p q p' q' : nat) (m : M A) :
  runs_within E p q m -> p <= p' -> q <= q' -> runs_within E p' q' m.
Proof.
  intros Hm Hp Hq h. destruct (Hm h) as (Hfuel & Hreq & Hsl).
  split; [exact Hfuel|]. split; lia.
Qed.

Lemma within_bind_exact {A B} (p1 q1 p2 q2 : nat) (m : M A) (k : A -> M B) :
  runs_within E p1 q1 m -> (forall a, runs_within E p2 q2 (k a)) ->
  runs_within E (p1 + p2) (q1 + q2) (bind m k).
Proof.
  intros Hm Hk h. rewrite bind_run. destruct (Hm h) as (Hfuel & Hreq & Hsl).
  destruct (m E h) as [[a|x|] e1]; cbn [fst snd] in *.
  - destruct (Hk a (h ++ e1)) as (Hfuel' & Hreq' & Hsl').
    unfold prepend. cbn [fst snd].
    rewrite count_requests_app, count_sleeps_app.
    split; [exact Hfuel'|]. split; lia.
  - split; [discriminate|]. split; lia.
  - contradiction.
Qed.

Lemma within_bind {A B} (p1 q1 p q : nat) (m : M A) (k : A -> M B) :
  runs_within E p1 q1 m -> p1 <= p -> q1 <= q ->
  (forall a, runs_within E (p - p1) (q - q1) (k a)) ->
  runs_within E p q (bind m k).
Proof.
  intros Hm Hp Hq Hk.
  apply (within_weaken (p1 + (p - p1)) (q1 + (q - q1))); [|lia|lia].
  now apply within_bind_exact.
Qed.

Lemma within_ret {A} (a : A) : runs_within E 0 0 (ret a).
Proof. intros h. split; [discriminate|]. split; cbn; lia. Qed.

Lemma within_log (lvl : level) (fmt : string) :
  runs_within E 0 0 (emit (ELog lvl fmt)).
Proof. intros h. split; [discriminate|]. split; cbn; lia. Qed.

Lemma within_print (msg : string) : runs_within E 0 0 (print msg).
Proof. intros h. split; [discriminate|]. split; cbn; lia. Qed.

Lemma within_time_time : runs_within E 0 0 time_time.
Proof. intros h. split; [discriminate|]. split; cbn; lia. Qed.

Lemma within_time_sleep (d : Z) : runs_within E 0 1 (time_sleep d).
Proof.
  intros h. unfold time_sleep. destruct (d <? 0)%Z;
    (split; [discriminate|]); split; cbn; lia.
Qed.

Lemma within_getitem_ref (obj : wapi_object) : runs_within E 0 0 (getitem_ref obj).
Proof.
  intros h. unfold getitem_ref. destruct (_ref obj);
    (split; [discriminate|]); split; cbn; lia.
Qed.

Lemma within_input (prompt : string) : runs_within E 0 0 (input prompt).
Proof.
  intros h. unfold input. destruct (stdin E h);
    (split; [discriminate|]); split; cbn; lia.
Qed.

Lemma within_rich_print (msg : string) : runs_within E 0 0 (rich_print msg).
Proof.
  intros h. unfold rich_print.
  destruct (Py.has_markup msg); [destruct (Py.markup_ok msg)|];
    (split; [discriminate|]); split; cbn; lia.
Qed.

Lemma within_parse_args (argv : CurrentDiscovery.command_line) :
  runs_within E 0 0 (CurrentDiscovery.parse_args argv).
Proof.
  intros h. destruct argv as [a|text|];
    (split; [discriminate|]); split; cbn; lia.
Qed.

Lemma within_try_requests (rq : request) :
  runs_within E 1 0 (try_request (requests rq)).
Proof.
  intros h. unfold try_request, requests. destruct (http E h rq);
    (split; [discriminate|]); split; cbn; lia.
Qed.

Lemma within_try_requests_then {A} (rq : request) (k : reply -> M A) :
  (forall r, runs_within E 0 0 (k r)) ->
  runs_within E 1 0 (try_request (bind (requests rq) k)).
Proof.
  intros Hk h. unfold try_request. rewrite bind_run. unfold requests.
  destruct (http E h rq) as [r|].
  - destruct (Hk r (h ++ [EHttp rq (Some r)])) as (Hfuel & Hreq & Hsl).
    unfold prepend.
    destruct (k r E _) as [[b|x|] e2]; cbn [fst snd] in *; [| |contradiction].
    + split; [discriminate|].
      change (EHttp rq (Some r) :: e2) with ([EHttp rq (Some r)] ++ e2).
      rewrite count_requests_app, count_sleeps_app. split; cbn; lia.
    + change ([EHttp rq (Some r)] ++ e2) with ([EHttp rq (Some r)] ++ e2).
      destruct x; cbn [fst snd]; (split; [discriminate|]);
        rewrite count_requests_app, count_sleeps_app; split; cbn; lia.
  - split; [discriminate|]. split; cbn; lia.
Qed.

Ltac within_exact :=
  first
    [ apply within_ret
    | apply within_log
    | apply within_print
    | apply within_rich_print
    | apply within_parse_args
    | apply within_time_time
    | apply within_time_sleep
    | apply within_getitem_ref
    | apply within_input
    | apply within_try_requests
    | apply within_try_requests_then; intros ?;
        apply (within_bind_exact 0 0 0 0); [within_exact | intros ?; within_exact]
    | apply within_try_requests_then; intros ?; within_exact
    | apply (within_bind_exact 0 0 0 0); [within_exact | intros ?; within_exact] ].

Ltac within_step known :=
  match goal with
  | |- runs_within _ _ _ (bind (match ?b with _ => _ end) _) => destruct b
  | |- runs_within _ _ _ (bind _ _) =>
      eapply within_bind; [solve [known | within_exact] | lia | lia | intros ?]
  | |- runs_within _ _ _ (match ?b with _ => _ end) => destruct b
  | |- runs_within _ _ _ _ =>
      eapply within_weaken; [solve [known | within_exact] | lia | lia]
  end.

Lemma within_first_current (tasks : list wapi_object) :
  runs_within E 0 0 (CurrentDiscovery.first_current tasks).
Proof.
  induction tasks as [|task rest IH]; cbn [CurrentDiscovery.first_current].
  - repeat within_step fail.
  - destruct (opt_eqb _ _); [|exact IH]. repeat within_step fail.
Qed.

Lemma within_scheduled_first_scheduled (tasks : list wapi_object) :
  runs_within E 0 0 (ScheduledDiscovery.first_scheduled tasks).
Proof.
  induction tasks as [|task rest IH]; cbn [ScheduledDiscovery.first_scheduled].
  - repeat within_step fail.
  - destruct (opt_eqb _ _); [|exact IH]. repeat within_step fail.
Qed.

Lemma within_scheduler_first_scheduled (tasks : list wapi_object) :
  runs_within E 0 0 (Scheduler.first_scheduled tasks).
Proof.
  induction tasks as [|task rest IH]; cbn [Scheduler.first_scheduled].
  - repeat within_step fail.
  - destruct (opt_eqb _ _); [|exact IH]. repeat within_step fail.
Qed.

Lemma within_current_collect_enabled (nets : list wapi_object) :
  forall found, runs_within E 0 0 (CurrentDiscovery.collect_enabled nets found).
Proof.
  induction nets as [|net rest IH]; intros found;
    cbn [CurrentDiscovery.collect_enabled].
  - apply within_ret.
  - destruct (opt_eqb _ _); [|apply IH].
    apply (within_bind_exact 0 0 0 0); [apply within_getitem_ref|].
    intros r. apply IH.
Qed.

Lemma within_scheduled_collect_enabled (nets : list wapi_object) :
  forall found, runs_within E 0 0 (ScheduledDiscovery.collect_enabled nets found).
Proof.
  induction nets as [|net rest IH]; intros found;
    cbn [ScheduledDiscovery.collect_enabled].
  - apply within_ret.
  - destruct (opt_eqb _ _); [|apply IH].
    apply (within_bind_exact 0 0 0 0); [apply within_getitem_ref|].
    intros r. apply IH.
Qed.

Lemma within_scheduler_collect_enabled (nets : list wapi_object) :
  forall found, runs_within E 0 0 (Scheduler.collect_enabled nets found).
Proof.
  induction nets as [|net rest IH]; intros found;
    cbn [Scheduler.collect_enabled].
  - apply within_ret.
  - destruct (opt_eqb _ _); [|apply IH].
    apply (within_bind_exact 0 0 0 0); [apply within_getitem_ref|].
    intros r. apply IH.
Qed.

Ltac within_loops :=
  first
    [ apply within_first_current
    | apply within_scheduled_first_scheduled
    | apply within_scheduler_first_scheduled
    | apply within_current_collect_enabled
    | apply within_scheduled_collect_enabled
    | apply within_scheduler_collect_enabled ].

Lemma within_current_ref :
  runs_within E 1 0 CurrentDiscovery.get_current_discovery_ref.
Proof.
  unfold CurrentDiscovery.get_current_discovery_ref. repeat within_step within_loops.
Qed.

Lemma within_current_status (task_ref : string) :
  runs_within E 1 0 (CurrentDiscovery.get_current_discovery_status task_ref).
Proof.
  unfold CurrentDiscovery.get_current_discovery_status.
  repeat within_step within_loops.
Qed.

Lemma within_current_enabled :
  runs_within E 1 0 CurrentDiscovery.get_discovery_enabled_networks.
Proof.
  unfold CurrentDiscovery.get_discovery_enabled_networks.
  repeat within_step within_loops.
Qed.

Lemma within_stop (task_ref : string) :
  runs_within E 1 0 (CurrentDiscovery.stop_current_discovery_task task_ref).
Proof.
  unfold CurrentDiscovery.stop_current_discovery_task.
  repeat within_step within_loops.
Qed.

Lemma within_update (view task_ref : string) (nets : list string) :
  runs_within E 1 0
    (CurrentDiscovery.update_current_discovery_task view task_ref nets "ICMP" 5 1500).
Proof.
  unfold CurrentDiscovery.update_current_discovery_task.
  repeat within_step within_loops.
Qed.

Lemma within_issue_start (task_ref : string) :
  runs_within E 2 1 (CurrentDiscovery.issue_start task_ref).
Proof.
  unfold CurrentDiscovery.issue_start.
  repeat within_step ltac:(apply within_current_status).
Qed.

Lemma within_report_final_state (task_ref : string) :
  runs_within E 1 0 (CurrentDiscovery.report_final_state task_ref).
Proof.
  unfold CurrentDiscovery.report_final_state.
  repeat within_step ltac:(apply within_current_status).
Qed.

Lemma within_prompt_overwrite (force : bool) :
  runs_within E 0 0 (CurrentDiscovery.prompt_overwrite force).
Proof.
  unfold CurrentDiscovery.prompt_overwrite. repeat within_step fail.
Qed.

Lemma polls_are_the_requests (evs : list event) :
  Forall (fun e => is_http e = is_state_poll e) evs ->
  count_requests evs = count_polls evs.
Proof.
  unfold count_requests, count_polls.
  induction 1 as [|e evs He _ IH]; [reflexivity|].
  cbn [filter]. rewrite He. destruct (is_state_poll e); cbn [length]; lia.
Qed.

Lemma within_wait (fuel : nat) (task_ref : string) :
  sleeping_clock E 5 -> 12 < fuel ->
  runs_within E 12 12
    (CurrentDiscovery.wait_for_discovery_to_stop fuel task_ref 60 5).
Proof.
  intros Hclock Hfuel h.
  destruct (wait_for_discovery_to_stop_bounded task_ref 60 5 E 12 fuel h)
    as (b & Hb & Hpolls & Hsleeps); [exact Hclock | lia | lia | exact Hfuel |].
  split; [rewrite Hb; discriminate|]. split; [|exact Hsleeps].
  rewrite polls_are_the_requests; [exact Hpolls|].
  unfold CurrentDiscovery.wait_for_discovery_to_stop.
  apply all_bind; [apply all_time_time; reflexivity|]. intros t0.
  apply wait_loop_events; intros; reflexivity.
Qed.

Lemma within_start (fuel : nat) (task_ref : string) :
  sleeping_clock E 5 -> 12 < fuel ->
  runs_within E 16 13 (CurrentDiscovery.start_current_discovery_task fuel task_ref).
Proof.
  intros Hclock Hfuel.
  unfold CurrentDiscovery.start_current_discovery_task.
  repeat within_step
    ltac:(first [ apply within_current_status
                | apply within_stop
                | now apply within_wait
                | apply within_issue_start ]).
Qed.

Lemma within_main_cycle (fuel : nat) (view task_ref : string)
  (nets : list string) :
  sleeping_clock E 5 -> 12 < fuel ->
  runs_within E 18 13 (CurrentDiscovery.main_cycle fuel view task_ref nets).
Proof.
  intros Hclock Hfuel.
  unfold CurrentDiscovery.main_cycle.
  repeat within_step
    ltac:(first [ apply within_update
                | now apply within_start
                | apply within_report_final_state ]).
Qed.

Lemma within_current_main (fuel : nat) (argv : CurrentDiscovery.command_line) :
  sleeping_clock E 5 -> 12 < fuel ->
  runs_within E 21 13 (CurrentDiscovery.main fuel argv).
Proof.
  intros Hclock Hfuel.
  unfold CurrentDiscovery.main, CurrentDiscovery.main_update. cbv zeta.
  repeat within_step
    ltac:(first [ apply within_current_ref
                | apply within_current_status
                | apply within_current_enabled
                | apply within_prompt_overwrite
                | now apply within_main_cycle ]).
Qed.

Lemma within_scheduled_ref :
  runs_within E 1 0 ScheduledDiscovery.get_scheduled_discovery_ref.
Proof.
  unfold ScheduledDiscovery.get_scheduled_discovery_ref.
  repeat within_step within_loops.
Qed.

Lemma within_scheduled_enabled :
  runs_within E 1 0 ScheduledDiscovery.get_discovery_enabled_networks.
Proof.
  unfold ScheduledDiscovery.get_discovery_enabled_networks.
  repeat within_step within_loops.
Qed.

Lemma within_scheduled_network_ref (cidr view : string) :
  runs_within E 1 0 (ScheduledDiscovery.get_network_ref cidr view).
Proof.
  unfold ScheduledDiscovery.get_network_ref. repeat within_step within_loops.
Qed.

Lemma within_scheduled_update (cfg : config) (task_ref : string)
  (nets : list string) :
  runs_within E 1 0
    (ScheduledDiscovery.update_scheduled_discovery_task cfg task_ref nets
       "ICMP" 5 1500).
Proof.
  unfold ScheduledDiscovery.update_scheduled_discovery_task.
  repeat within_step within_loops.
Qed.

Lemma within_scheduled_status (task_ref : string) :
  runs_within E 1 0 (ScheduledDiscovery.get_discovery_task_status task_ref).
Proof.
  unfold ScheduledDiscovery.get_discovery_task_status.
  repeat within_step within_loops.
Qed.

Lemma within_scheduled_main_update (cfg : config) (task_ref : string)
  (nets : list string) :
  runs_within E 2 0 (ScheduledDiscovery.main_update cfg task_ref nets).
Proof.
  unfold ScheduledDiscovery.main_update.
  repeat within_step
    ltac:(first [ apply within_scheduled_update | apply within_scheduled_status ]).
Qed.

Lemma within_scheduled_main (cfg : config) :
  runs_within E 5 0 (ScheduledDiscovery.main cfg).
Proof.
  unfold ScheduledDiscovery.main. cbv zeta.
  repeat within_step
    ltac:(first [ apply within_scheduled_ref
                | apply within_scheduled_enabled
                | apply within_scheduled_network_ref
                | apply within_scheduled_main_update ]).
Qed.

Lemma within_scheduler_ref :
  runs_within E 1 0 Scheduler.get_scheduled_discovery_ref.
Proof.
  unfold Scheduler.get_scheduled_discovery_ref. repeat within_step within_loops.
Qed.

Lemma within_scheduler_enabled :
  runs_within E 1 0 Scheduler.get_discovery_enabled_networks.
Proof.
  unfold Scheduler.get_discovery_enabled_networks.
  repeat within_step within_loops.
Qed.

Lemma within_scheduler_update (task_ref : string) (nets : list string) :
  runs_within E 1 0
    (Scheduler.update_scheduled_discovery_task task_ref nets "ICMP" 5 1500).
Proof.
  unfold Scheduler.update_scheduled_discovery_task.
  repeat within_step within_loops.
Qed.

Lemma within_scheduler_status (task_ref : string) :
  runs_within E 1 0 (Scheduler.get_discovery_task_status task_ref).
Proof.
  unfold Scheduler.get_discovery_task_status. repeat within_step within_loops.
Qed.

Lemma within_scheduler_main : runs_within E 4 0 Scheduler.main.
Proof.
  unfold Scheduler.main. cbv zeta.
  repeat within_step
    ltac:(first [ apply within_scheduler_ref
                | apply within_scheduler_enabled
                | apply within_scheduler_update
                | apply within_scheduler_status ]).
Qed.

Lemma within_run_script (s : script) (p q : nat) :
  runs_within E p q (script_main s) ->
  forall h,
    (fst (run_script (script_main s) E h) = Ret 0%Z
     \/ fst (run_script (script_main s) E h) = Ret 1%Z
     \/ (exits_with s 2%Z /\ fst (run_script (script_main s) E h) = Ret 2%Z))
    /\ count_requests (snd (run_script (script_main s) E h)) <= p
    /\ count_sleeps (snd (run_script (script_main s) E h)) <= q.
Proof.
  intros Hmain h. destruct (Hmain h) as (Hfuel & Hreq & Hsl).
  pose proof (early_script_main s E h) as Hearly.
  rewrite run_script_run.
  destruct (script_main s E h) as [[[]|x|] e1]; cbn [fst snd] in *;
    [| |contradiction].
  - rewrite count_requests_app, count_sleeps_app.
    split; [now left|]. split; cbn; lia.
  - specialize (Hearly x eq_refl).
    destruct x as [ |key|msg| | |status]; cbn [fst snd];
      try (rewrite count_requests_app, count_sleeps_app;
           split; [right; now left|]; split; cbn; lia).
    destruct Hearly as [Hexit _].
    split; [|split; assumption].
    destruct s as [fuel [a|text|]|cfg|]; cbn in Hexit; try contradiction;
      subst status; [now left | right; right; split; reflexivity].
Qed.
End Budget.

(** X17.  Under a wall clock that never goes back and on which a sleep of
    five seconds takes at least five seconds, every run of
    current-discovery.py ends after at most 21 requests and 13 sleeps,
    whatever the command line is and whatever the remote system answers: the
    loop that waits for the task to stop takes at most twelve rounds.  The
    exit status is 0 or 1, or 2 when [argparse] refuses the command
    line. *)
Theorem X17_current_run_ends_within_budget (fuel : nat)
  (argv : CurrentDiscovery.command_line) (E : env) (h : list event) :
  sleeping_clock E 5 -> 12 < fuel ->
  (fst (run_script (CurrentDiscovery.main fuel argv) E h) = Ret 0%Z
   \/ fst (run_script (CurrentDiscovery.main fuel argv) E h) = Ret 1%Z
   \/ (argv = CurrentDiscovery.Usage_error
       /\ fst (run_script (CurrentDiscovery.main fuel argv) E h) = Ret 2%Z))
  /\ count_requests (snd (run_script (CurrentDiscovery.main fuel argv) E h)) <= 21
  /\ count_sleeps (snd (run_script (CurrentDiscovery.main fuel argv) E h)) <= 13.
Proof.
  intros Hclock Hfuel.
  destruct (within_run_script E (current_discovery fuel argv) 21 13
              (within_current_main E fuel argv Hclock Hfuel) h)
    as (Hexit & Hbudget).
  split; [|exact Hbudget].
  destruct Hexit as [Hexit|[Hexit|[Husage Hexit]]];
    [now left | right; now left | right; right].
  split; [|exact Hexit].
  destruct argv as [a|text|]; cbn in Husage;
    solve [reflexivity | discriminate | contradiction].
Qed.

(** X18.  Every run of scheduled-discovery.py ends, with the exit status 0
    or 1, after at most five requests, and every run of scheduler.py after at
    most four; neither script sleeps. *)
Theorem X18_scheduled_runs_end_within_budget (cfg : config) (E : env)
  (h : list event) :
  ((fst (run_script (ScheduledDiscovery.main cfg) E h) = Ret 0%Z
    \/ fst (run_script (ScheduledDiscovery.main cfg) E h) = Ret 1%Z)
   /\ count_requests (snd (run_script (ScheduledDiscovery.main cfg) E h)) <= 5
   /\ count_sleeps (snd (run_script (ScheduledDiscovery.main cfg) E h)) <= 0)
  /\ ((fst (run_script Scheduler.main E h) = Ret 0%Z
       \/ fst (run_script Scheduler.main E h) = Ret 1%Z)
      /\ count_requests (snd (run_script Scheduler.main E h)) <= 4
      /\ count_sleeps (snd (run_script Scheduler.main E h)) <= 0).
Proof.
  split.
  - destruct (within_run_script E (scheduled_discovery cfg) 5 0
                (within_scheduled_main E cfg) h) as (Hexit & Hbudget).
    split; [|exact Hbudget].
    destruct Hexit as [Hexit|[Hexit|[[] _]]]; [now left | now right].
  - destruct (within_run_script E scheduler 4 0 (within_scheduler_main E) h)
      as (Hexit & Hbudget).
    split; [|exact Hbudget].
    destruct Hexit as [Hexit|[Hexit|[[] _]]]; [now left | now right].
Qed.

(** ** The lookup of the fallback network *)

Lemma current_main_no_network_lookup (fuel : nat) (a : CurrentDiscovery.args) :
  events_all (fun e => is_network_lookup e = false) (CurrentDiscovery.main fuel a).
Proof.
  unfold CurrentDiscovery.main, CurrentDiscovery.main_update,
    CurrentDiscovery.main_cycle, CurrentDiscovery.report_final_state,
    CurrentDiscovery.start_current_discovery_task, CurrentDiscovery.issue_start,
    CurrentDiscovery.wait_for_discovery_to_stop,
    CurrentDiscovery.stop_current_discovery_task,
    CurrentDiscovery.update_current_discovery_task,
    CurrentDiscovery.prompt_overwrite,
    CurrentDiscovery.get_discovery_enabled_networks,
    CurrentDiscovery.get_current_discovery_status,
    CurrentDiscovery.get_current_discovery_ref.
  along_script; intros; reflexivity.
Qed.

Lemma scheduler_main_no_network_lookup :
  events_all (fun e => is_network_lookup e = false) Scheduler.main.
Proof.
  unfold Scheduler.main, Scheduler.update_scheduled_discovery_task,
    Scheduler.get_discovery_task_status,
    Scheduler.get_discovery_enabled_networks,
    Scheduler.get_scheduled_discovery_ref.
  along_script; intros; reflexivity.
Qed.

Lemma scheduled_main_no_network_lookup (cfg : config) :
  SCHEDULED_DISCOVERY_DEFAULT_NETWORK cfg = "" ->
  events_all (fun e => is_network_lookup e = false) (ScheduledDiscovery.main cfg).
Proof.
  intros Hnone.
  unfold ScheduledDiscovery.main, ScheduledDiscovery.main_update,
    ScheduledDiscovery.update_scheduled_discovery_task,
    ScheduledDiscovery.get_discovery_task_status,
    ScheduledDiscovery.get_discovery_enabled_networks,
    ScheduledDiscovery.get_scheduled_discovery_ref.
  rewrite Hnone. cbn [String.eqb negb]. cbv zeta.
  along_script; intros; reflexivity.
Qed.

(** X19.  Only scheduled-discovery.py looks up a network by its CIDR, and
    only when a fallback network is configured: no run of
    current-discovery.py, whose [get_network_ref] is never called, and no run
    of scheduler.py contains such a request, and neither does a run of
    scheduled-discovery.py without a fallback network. *)
Theorem X19_network_lookup_only_for_fallback (fuel : nat)
  (a : CurrentDiscovery.args) (cfg : config) (E : env) (h : list event) :
  existsb is_network_lookup (snd (CurrentDiscovery.main fuel a E h)) = false
  /\ existsb is_network_lookup (snd (Scheduler.main E h)) = false
  /\ (SCHEDULED_DISCOVERY_DEFAULT_NETWORK cfg = "" ->
      existsb is_network_lookup (snd (ScheduledDiscovery.main cfg E h)) = false).
Proof.
  split; [|split].
  - apply all_existsb_false, current_main_no_network_lookup.
  - apply all_existsb_false, scheduler_main_no_network_lookup.
  - intros Hnone. now apply all_existsb_false, scheduled_main_no_network_lookup.
Qed.

End Properties.

(** * Sample runs

    The properties at concrete environments, with the sample library
    [Py.ascii]. *)

#[local] Existing Instance Py.ascii.

Lemma C1_witness :
  is_active (observed_state "discoverytask/current"
               (http Sim.running [] GET_discoverytask_state)) = true
  /\ issued "discoverytask/current" "START"
       (snd (CurrentDiscovery.start_current_discovery_task 20
               "discoverytask/current" Sim.running [])) = true.
Proof.
  split; [reflexivity|].
  apply (C1_start_only_after_stop_and_convergence 20 "discoverytask/current"
           Sim.running []); reflexivity.
Defined.




Lemma C10_witness :
  observed_state "discoverytask/current"
    (http Sim.unreadable [] GET_discoverytask_state) = None
  /\ issued "discoverytask/current" "END"
       (snd (CurrentDiscovery.start_current_discovery_task 20
               "discoverytask/current" Sim.unreadable [])) = false.
Proof.
  split; [reflexivity|].
  apply (C10_unknown_state_starts_at_once 20 "discoverytask/current"
           Sim.unreadable []).
  reflexivity.
Defined.

Lemma C8_witness :
  CurrentDiscovery.args_force Sim.args_default = false
  /\ existsb is_change
       (snd (CurrentDiscovery.main 20 Sim.args_default Sim.running_declined []))
     = false.
Proof.
  split; [reflexivity|].
  destruct (C8_declined_prompt_changes_nothing (lib := Py.ascii) 20 Sim.args_default
              Sim.running_declined [] (Some "discoverytask/current")
              eq_refl eq_refl eq_refl eq_refl)
    as (_ & _ & Hdeclined).
  apply (Hdeclined "n"); [reflexivity | discriminate].
Defined.

Lemma C3_witness :
  fst (CurrentDiscovery.update_current_discovery_task "default"
         "discoverytask/current" Sim.nets_ab "ICMP" 5 1500 Sim.stopped [])
  = Ret true
  /\ remote_networks "discoverytask/current" ["network/old/default"]
       (snd (CurrentDiscovery.update_current_discovery_task "default"
               "discoverytask/current" Sim.nets_ab "ICMP" 5 1500 Sim.stopped [])
        ++ snd (CurrentDiscovery.start_current_discovery_task 20
                  "discoverytask/current" Sim.stopped
                  ([] ++ snd (CurrentDiscovery.update_current_discovery_task
                                "default" "discoverytask/current" Sim.nets_ab
                                "ICMP" 5 1500 Sim.stopped []))))
     = Sim.nets_ab.
Proof.
  split; [reflexivity|].
  apply (C3_cycle_overwrites_and_runs 20 "default" "discoverytask/current"
           Sim.nets_ab Sim.stopped []); reflexivity.
Defined.

Lemma scheduler_puts_global :
  In (EHttp (PUT_task "discoverytask/scheduled" scheduler_body_abc)
        (Some {| status_code := 200; result := [] |}))
     (snd (Scheduler.main Sim.stopped [])).
Proof. cbv. tauto. Defined.

Lemma C5_witness :
  In (EHttp (PUT_task "discoverytask/scheduled" scheduler_body_abc)
        (Some {| status_code := 200; result := [] |}))
     (snd (Scheduler.main Sim.stopped []))
  /\ network_view scheduler_body_abc = "GLOBAL".
Proof.
  split; [exact scheduler_puts_global|].
  exact (proj2 (proj2 (C5_update_view_per_script Sim.stopped []
                         "discoverytask/scheduled" scheduler_body_abc _))
           scheduler_puts_global).
Defined.

(** The claim C5 as worded fails on scheduler.py: with the view "default"
    configured, the update it issues carries the view GLOBAL. *)
Lemma C5_counterexample :
  SCHEDULED_DISCOVERY_NETWORK_VIEW config_default = "default"
  /\ In (EHttp (PUT_task "discoverytask/scheduled" scheduler_body_abc)
           (Some {| status_code := 200; result := [] |}))
        (snd (Scheduler.main Sim.stopped []))
  /\ network_view scheduler_body_abc
     <> SCHEDULED_DISCOVERY_NETWORK_VIEW config_default.
Proof.
  split; [reflexivity|]. split; [exact scheduler_puts_global | discriminate].
Qed.

Lemma C6_witness :
  http Sim.stopped_put_fails
    ([] ++ [ELog INFO "Updating current discovery '%s' with %d networks in view '%s'."])
    (PUT_task "discoverytask/current"
       {| mode := "ICMP"; network_view := "default"; networks := Sim.nets_ab;
          ping_retries := 5; ping_timeout := 1500 |}) = None
  /\ exists fmt,
       CurrentDiscovery.update_current_discovery_task "default"
         "discoverytask/current" Sim.nets_ab "ICMP" 5 1500 Sim.stopped_put_fails []
       = (Ret false,
          [ELog INFO "Updating current discovery '%s' with %d networks in view '%s'."]
            ++ [EHttp (PUT_task "discoverytask/current"
                         {| mode := "ICMP"; network_view := "default";
                            networks := Sim.nets_ab; ping_retries := 5;
                            ping_timeout := 1500 |}) None;
                ELog ERROR fmt]).
Proof.
  split; [reflexivity|].
  destruct C6_transport_failures_caught_and_signalled
    as (_ & (_ & _ & _ & _ & _ & Hupdate & _) & _).
  apply (Hupdate "default" "discoverytask/current" Sim.nets_ab "ICMP" 5%Z 1500%Z
           Sim.stopped_put_fails []).
  reflexivity.
Defined.

(** The claim C6 as worded fails on scheduler.py: when the task update gets
    no answer, the script logs the failure and goes on exactly as it does
    after an answered update, from the same events before the request to the
    same events after it, and the process ends with status 0. *)
Lemma C6_counterexample :
  nth 5 (snd (run_script Scheduler.main Sim.stopped_put_fails [])) (ESleep 0)
  = EHttp (PUT_task "discoverytask/scheduled" scheduler_body_abc) None
  /\ nth 6 (snd (run_script Scheduler.main Sim.stopped_put_fails [])) (ESleep 0)
     = ELog ERROR "Error updating scheduled discovery with new networks: %s"
  /\ fst (Scheduler.update_scheduled_discovery_task "discoverytask/scheduled"
            (networks scheduler_body_abc) "ICMP" 5 1500 Sim.stopped_put_fails [])
     = fst (Scheduler.update_scheduled_discovery_task "discoverytask/scheduled"
              (networks scheduler_body_abc) "ICMP" 5 1500 Sim.stopped [])
  /\ firstn 5 (snd (run_script Scheduler.main Sim.stopped_put_fails []))
     = firstn 5 (snd (run_script Scheduler.main Sim.stopped []))
  /\ skipn 7 (snd (run_script Scheduler.main Sim.stopped_put_fails []))
     = skipn 7 (snd (run_script Scheduler.main Sim.stopped []))
  /\ skipn 9 (snd (run_script Scheduler.main Sim.stopped_put_fails []))
     = [EPrint "Script finished successfully."]
  /\ fst (run_script Scheduler.main Sim.stopped_put_fails []) = Ret 0%Z.
Proof.
  repeat split; vm_compute; reflexivity.
Qed.

Lemma C7_witness :
  fst (ScheduledDiscovery.get_scheduled_discovery_ref Sim.no_networks [])
  = Ret (Some "discoverytask/scheduled")
  /\ filter_by_view [] (SCHEDULED_DISCOVERY_NETWORK_VIEW config_fallback) = []
  /\ SCHEDULED_DISCOVERY_DEFAULT_NETWORK config_fallback <> ""
  /\ (exists r,
        In (EHttp (PUT_task "discoverytask/scheduled"
                     {| mode := "ICMP"; network_view := "prod";
                        networks := ["network/F/prod"];
                        ping_retries := 5; ping_timeout := 1500 |}) r)
           (snd (ScheduledDiscovery.main config_fallback Sim.no_networks [])))
  /\ existsb is_put (snd (ScheduledDiscovery.main config_default Sim.no_networks []))
     = false
  /\ fst (Scheduler.get_discovery_enabled_networks sim_other_view
            ([] ++ snd (Scheduler.get_scheduled_discovery_ref sim_other_view [])))
     = Ret ["network/C/other"]
  /\ (exists r,
        In (EHttp (PUT_task "discoverytask/scheduled"
                     (update_body "GLOBAL" ["network/C/other"])) r)
           (snd (Scheduler.main sim_other_view []))).
Proof.
  split; [reflexivity|]. split; [reflexivity|]. split; [discriminate|].
  split; [|split; [|split; [reflexivity|]]].
  - destruct (C7_empty_selection_fallback_or_skip config_fallback Sim.no_networks []
                (Some "discoverytask/scheduled") [])
      as [Hscheduled _].
    destruct (Hscheduled eq_refl eq_refl eq_refl eq_refl) as [Hfallback _].
    destruct (Hfallback (Some "network/F/prod")) as (r & tail & Hev & _ & _);
      [discriminate | reflexivity | reflexivity |].
    exists r. rewrite Hev. apply in_or_app. right. left. reflexivity.
  - destruct (C7_empty_selection_fallback_or_skip config_default Sim.no_networks []
                (Some "discoverytask/scheduled") [])
      as [Hscheduled _].
    destruct (Hscheduled eq_refl eq_refl eq_refl eq_refl) as [_ Hskip].
    apply Hskip. reflexivity.
  - destruct (C7_empty_selection_fallback_or_skip config_default sim_other_view []
                (Some "discoverytask/scheduled") [])
      as [_ Hscheduler].
    destruct (Hscheduler ["network/C/other"] eq_refl eq_refl eq_refl)
      as (_ & Hupdate & _).
    apply Hupdate. discriminate.
Defined.

(** The claim C7 as worded fails on scheduler.py.  With the view "default"
    configured and no fallback network, the list of the enabled networks
    filtered by the view is empty, and yet the script issues an update, with
    the network of the other view.  And with a fallback network that is
    configured and resolves, an empty list of enabled networks leads to no
    update at all. *)
Lemma C7_counterexample :
  (filter_by_view ["network/C/other"]
     (SCHEDULED_DISCOVERY_NETWORK_VIEW config_default) = []
   /\ SCHEDULED_DISCOVERY_DEFAULT_NETWORK config_default = ""
   /\ fst (Scheduler.get_discovery_enabled_networks sim_other_view
             ([] ++ snd (Scheduler.get_scheduled_discovery_ref sim_other_view [])))
      = Ret ["network/C/other"]
   /\ In (EHttp (PUT_task "discoverytask/scheduled"
                   (update_body "GLOBAL" ["network/C/other"]))
            (Some {| status_code := 200; result := [] |}))
         (snd (Scheduler.main sim_other_view [])))
  /\ (SCHEDULED_DISCOVERY_DEFAULT_NETWORK config_fallback <> ""
      /\ http Sim.no_networks []
           (GET_network (SCHEDULED_DISCOVERY_DEFAULT_NETWORK config_fallback)
              (SCHEDULED_DISCOVERY_NETWORK_VIEW config_fallback))
         = Some {| status_code := 200; result := [Sim.net "network/F/prod"] |}
      /\ fst (Scheduler.get_discovery_enabled_networks Sim.no_networks
                ([] ++ snd (Scheduler.get_scheduled_discovery_ref Sim.no_networks [])))
         = Ret []
      /\ existsb is_put (snd (Scheduler.main Sim.no_networks [])) = false).
Proof.
  split.
  - split; [reflexivity|]. split; [reflexivity|]. split; [reflexivity|].
    cbv. tauto.
  - split; [discriminate|]. repeat split; reflexivity.
Qed.

Lemma X6_witness :
  CurrentDiscovery.args_force
    {| CurrentDiscovery.args_network_view := "default";
       CurrentDiscovery.args_force := true |} = true
  /\ existsb is_input
       (snd (CurrentDiscovery.main 20
               {| CurrentDiscovery.args_network_view := "default";
                  CurrentDiscovery.args_force := true |}
               Sim.running_declined [])) = false.
Proof.
  split; [reflexivity|].
  apply X6_force_never_prompts. reflexivity.
Defined.

Lemma current_puts_filtered :
  In (EHttp (PUT_task "discoverytask/current" (update_body "default" Sim.nets_ab))
        (Some {| status_code := 200; result := [] |}))
     (snd (CurrentDiscovery.main 20 Sim.args_default Sim.stopped [])).
Proof. cbv. tauto. Defined.

Lemma X3_witness :
  In (EHttp (PUT_task "discoverytask/current" (update_body "default" Sim.nets_ab))
        (Some {| status_code := 200; result := [] |}))
     (snd (CurrentDiscovery.main 20 Sim.args_default Sim.stopped []))
  /\ exists data,
       In (EHttp GET_network_extattrs (Some data))
          (snd (CurrentDiscovery.main 20 Sim.args_default Sim.stopped []))
       /\ update_body "default" Sim.nets_ab
          = update_body "default"
              (filter_by_view (flagged_refs (result data)) "default")
       /\ networks (update_body "default" Sim.nets_ab) <> [].
Proof.
  split; [exact current_puts_filtered|].
  exact (X3_update_body_from_inventory 20 Sim.args_default Sim.stopped []
           "discoverytask/current" (update_body "default" Sim.nets_ab) _
           current_puts_filtered).
Defined.

Lemma X5_witness :
  fst (CurrentDiscovery.get_discovery_enabled_networks Sim.stopped [])
  = Ret ["network/A/default"; "network/B/default"; "network/C/other"]
  /\ filter_by_view ["network/A/default"; "network/B/default"; "network/C/other"]
       "prod" = []
  /\ existsb is_change
       (snd (CurrentDiscovery.main_update 20 "prod" "discoverytask/current"
               Sim.stopped [])) = false.
Proof.
  split; [reflexivity|]. split; [reflexivity|].
  apply (X5_empty_selection_changes_nothing 20 "prod" "discoverytask/current"
           Sim.stopped []
           ["network/A/default"; "network/B/default"; "network/C/other"]);
    reflexivity.
Defined.

Lemma scheduled_puts_fallback :
  In (EHttp (PUT_task "discoverytask/scheduled" (update_body "prod" ["network/F/prod"]))
        (Some {| status_code := 200; result := [] |}))
     (snd (ScheduledDiscovery.main config_fallback Sim.no_networks [])).
Proof. cbv. tauto. Defined.

Lemma X8_witness :
  In (EHttp (PUT_task "discoverytask/scheduled" (update_body "prod" ["network/F/prod"]))
        (Some {| status_code := 200; result := [] |}))
     (snd (ScheduledDiscovery.main config_fallback Sim.no_networks []))
  /\ ((exists data,
         In (EHttp GET_network_extattrs (Some data))
            (snd (ScheduledDiscovery.main config_fallback Sim.no_networks []))
         /\ update_body "prod" ["network/F/prod"]
            = update_body "prod" (filter_by_view (flagged_refs (result data)) "prod")
         /\ networks (update_body "prod" ["network/F/prod"]) <> [])
      \/ (exists data first others fallback_ref,
            "10.0.0.0/24" <> ""
            /\ In (EHttp (GET_network "10.0.0.0/24" "prod") (Some data))
                  (snd (ScheduledDiscovery.main config_fallback Sim.no_networks []))
            /\ result data = first :: others
            /\ _ref first = Some fallback_ref
            /\ fallback_ref <> ""
            /\ update_body "prod" ["network/F/prod"]
               = update_body "prod" [fallback_ref])).
Proof.
  split; [exact scheduled_puts_fallback|].
  exact (X8_scheduled_update_body_source config_fallback Sim.no_networks []
           "discoverytask/scheduled" (update_body "prod" ["network/F/prod"]) _
           scheduled_puts_fallback).
Defined.

Lemma X10_witness :
  fst (ScheduledDiscovery.get_scheduled_discovery_ref Sim.running [])
  = Ret (Some "discoverytask/scheduled")
  /\ filter_by_view [] (SCHEDULED_DISCOVERY_NETWORK_VIEW config_fallback) = []
  /\ SCHEDULED_DISCOVERY_DEFAULT_NETWORK config_fallback <> ""
  /\ existsb is_put (snd (ScheduledDiscovery.main config_fallback Sim.running []))
     = false.
Proof.
  split; [reflexivity|]. split; [reflexivity|]. split; [discriminate|].
  apply (X10_unresolved_fallback_skips_update config_fallback Sim.running []
           (Some "discoverytask/scheduled") None []);
    try reflexivity; discriminate.
Defined.

Lemma X11_witness :
  fst (ScheduledDiscovery.get_scheduled_discovery_ref sim_inventory_down [])
  = Ret (Some "discoverytask/scheduled")
  /\ http sim_inventory_down
       ([] ++ snd (ScheduledDiscovery.get_scheduled_discovery_ref
                     sim_inventory_down []))
       GET_network_extattrs = None
  /\ exists r,
       In (EHttp (PUT_task "discoverytask/scheduled"
                    (update_body "prod" ["network/F/prod"])) r)
          (snd (ScheduledDiscovery.main config_fallback sim_inventory_down [])).
Proof.
  split; [reflexivity|]. split; [reflexivity|].
  destruct (X11_failed_inventory_read_falls_back config_fallback
              sim_inventory_down [] (Some "discoverytask/scheduled")
              (Some "network/F/prod"))
    as (r & tail & Hev); try reflexivity; try discriminate.
  exists r. rewrite Hev. apply in_or_app. right. now left.
Defined.

Lemma scheduler_puts_whole_inventory :
  In (EHttp (PUT_task "discoverytask/scheduled" scheduler_body_abc)
        (Some {| status_code := 200; result := [] |}))
     (snd (Scheduler.main Sim.stopped [])).
Proof. cbv. tauto. Defined.

Lemma X4_witness :
  In (EHttp (PUT_task "discoverytask/scheduled" scheduler_body_abc)
        (Some {| status_code := 200; result := [] |}))
     (snd (Scheduler.main Sim.stopped []))
  /\ exists data,
       In (EHttp GET_network_extattrs (Some data)) (snd (Scheduler.main Sim.stopped []))
       /\ scheduler_body_abc
          = update_body "GLOBAL" (flagged_refs (result data))
       /\ networks scheduler_body_abc <> [].
Proof.
  split; [exact scheduler_puts_whole_inventory|].
  exact (X4_scheduler_update_body_whole_inventory Sim.stopped []
           "discoverytask/scheduled" scheduler_body_abc _
           scheduler_puts_whole_inventory).
Defined.

Lemma sim_sleeping_clock (initial : string) (nets fallback : list wapi_object)
  (answer : option string) (fails : request -> bool) :
  sleeping_clock (Sim.remote initial nets fallback answer fails) 5.
Proof.
  split; intros; unfold Sim.remote; cbn [clock]; rewrite length_app; cbn [length]; lia.
Defined.



Lemma X12_witness :
  urlparse_returns urlparse_sample yaml_two_violations
  /\ config_violations urlparse_sample ip_network_sample yaml_two_violations = 2
  /\ exists evs,
       Startup.validate_config urlparse_sample ip_network_sample
         yaml_two_violations Sim.running []
       = (Ret (Nat.eqb (config_violations urlparse_sample ip_network_sample
                          yaml_two_violations) 0), evs)
       /\ length evs
          = config_violations urlparse_sample ip_network_sample yaml_two_violations
       /\ forallb is_error_log evs = true.
Proof.
  split; [right; discriminate|]. split; [reflexivity|].
  apply (X12_validate_config_reports_every_violation urlparse_sample
           ip_network_sample yaml_two_violations Sim.running []).
  right. discriminate.
Defined.

Lemma X13_witness :
  rejected urlparse_sample ip_network_sample (Some yaml_no_password)
  /\ refused_at_startup
       (Startup.current_discovery_py urlparse_sample ip_network_sample
          (Some yaml_no_password) 20 Sim.args_default Sim.stopped [])
  /\ refused_at_startup
       (Startup.scheduled_discovery_py urlparse_sample ip_network_sample
          (Some yaml_no_password) Sim.stopped []).
Proof.
  split; [discriminate|].
  apply (X13_rejected_configuration_no_remote_call urlparse_sample
           ip_network_sample (Some yaml_no_password) 20 Sim.args_default
           Sim.stopped []).
  discriminate.
Defined.

Lemma X14_witness :
  (missing_required yaml_no_password = true
   /\ Startup.scheduler_py (Some yaml_no_password) Sim.stopped []
      = (Ret 1%Z, [ELog ERROR "Missing required Infoblox configuration in %s"]))
  /\ (missing_required yaml_two_violations = false
      /\ config_violations urlparse_sample ip_network_sample yaml_two_violations
         = 2
      /\ exists tail,
           snd (Startup.scheduler_py (Some yaml_two_violations) Sim.stopped [])
           = EHttp GET_discoverytask (http Sim.stopped [] GET_discoverytask)
               :: tail).
Proof.
  split.
  - split; [reflexivity|].
    apply (proj1 (X14_scheduler_checks_three_keys yaml_no_password Sim.stopped [])).
    reflexivity.
  - split; [reflexivity|]. split; [reflexivity|].
    apply (proj2 (X14_scheduler_checks_three_keys yaml_two_violations Sim.stopped [])).
    reflexivity.
Defined.

Lemma X17_witness :
  sleeping_clock Sim.running_declined 5 /\ 12 < 13
  /\ (fst (run_script (CurrentDiscovery.main 13 Sim.args_default)
             Sim.running_declined []) = Ret 0%Z
      \/ fst (run_script (CurrentDiscovery.main 13 Sim.args_default)
                Sim.running_declined []) = Ret 1%Z
      \/ (CurrentDiscovery.Args Sim.args_default = CurrentDiscovery.Usage_error
          /\ fst (run_script (CurrentDiscovery.main 13 Sim.args_default)
                    Sim.running_declined []) = Ret 2%Z))
  /\ count_requests
       (snd (run_script (CurrentDiscovery.main 13 Sim.args_default)
               Sim.running_declined [])) <= 21
  /\ count_sleeps
       (snd (run_script (CurrentDiscovery.main 13 Sim.args_default)
               Sim.running_declined [])) <= 13.
Proof.
  split; [apply sim_sleeping_clock|]. split; [lia|].
  apply (X17_current_run_ends_within_budget 13 Sim.args_default
           Sim.running_declined []); [apply sim_sleeping_clock | lia].
Defined.

Lemma X19_witness :
  SCHEDULED_DISCOVERY_DEFAULT_NETWORK config_default = ""
  /\ existsb is_network_lookup
       (snd (ScheduledDiscovery.main config_default Sim.no_networks [])) = false.
Proof.
  split; [reflexivity|].
  apply (proj2 (proj2 (X19_network_lookup_only_for_fallback 20 Sim.args_default
                         config_default Sim.no_networks []))).
  reflexivity.
Defined.
